(** * Foodgram API serializers (backend/api/serializers.py)

    A shallow embedding of the serialization layer of the Foodgram
    backend: the base64 image field, the user representation guard,
    the recipe payload normalisation and validation, and the recipe
    assembly workflow over an explicit entity store. *)

From Stdlib Require Import ZArith NArith List Bool Lia Arith.
From Stdlib.Strings Require Import String Ascii Byte.
Import ListNotations.

Set Warnings "-register-all".

Local Open Scope string_scope.
Local Open Scope list_scope.

(** ** Python values, exceptions and outcomes *)

(** [ContentFile(content, name=...)] and uploaded files alike: a name and
    the raw bytes. *)
Record File := mkFile { file_name : string; file_content : list byte }.

(** The values a request payload is made of (a decoded JSON document, or
    a file taken from a multipart upload). A Python [dict] keeps its keys
    in insertion order and is modelled as an association list. *)
Inductive pyobj :=
| PyNone
| PyBool (b : bool)
| PyInt (z : Z)
| PyStr (s : string)
| PyList (l : list pyobj)
| PyDict (d : list (string * pyobj))
| PyFile (f : File).

(** Error detail of a [ValidationError]: the error codes of a field, or
    the names of the fields that failed. *)
Definition detail := list string.

(** The exceptions that occur in this layer. [ValidationError] is the one
    the framework turns into a structured 400 response; the others are
    not caught by the serializer machinery. [BinasciiError] is
    [binascii.Error] (a subclass of [ValueError]); [OverflowError] is
    what a lookup raises for an integer the database cannot hold. *)
Inductive exn :=
| ValidationError (d : detail)
| KeyError (key : string)
| TypeError
| ValueError
| BinasciiError
| AttributeError
| AssertionError
| NotAuthenticated
| IntegrityError
| MultipleObjectsReturned
| OverflowError.

Inductive outcome (A : Type) :=
| Ok (a : A)
| Raise (e : exn).
Arguments Ok {A} a.
Arguments Raise {A} e.

Definition bind {A B} (m : outcome A) (k : A -> outcome B) : outcome B :=
  match m with
  | Ok a => k a
  | Raise e => Raise e
  end.

Definition is_validation_error (e : exn) : bool :=
  match e with ValidationError _ => true | _ => false end.

(** ** Python string operations used by the serializers *)

(** A Python [str] is held as its UTF-8 encoding: a character of the
    basic Latin range is one byte, any other character a leading byte
    followed by its continuation bytes. *)
Module PyStr.

(** A continuation byte of a character of several bytes. *)
Definition is_continuation (c : ascii) : bool :=
  let n := N_of_ascii c in ((128 <=? n) && (n <? 192))%N.

Definition starts_with_continuation (s : string) : bool :=
  match s with
  | EmptyString => false
  | String c _ => is_continuation c
  end.

(** [list(s)]: the characters of [s], one string each. *)
Fixpoint chars (s : string) : list string :=
  match s with
  | EmptyString => []
  | String c s' =>
      match chars s' with
      | g :: gs =>
          if starts_with_continuation g then String c g :: gs
          else String c EmptyString :: g :: gs
      | [] => [String c EmptyString]
      end
  end.

Fixpoint forallb (p : ascii -> bool) (s : string) : bool :=
  match s with
  | EmptyString => true
  | String c s' => p c && forallb p s'
  end.

(** [s.split(sep)] for a non-empty separator: scan left to right, cut at
    every non-overlapping occurrence. [skip] counts the characters of a
    matched separator that are still to be passed over, [cur] is the
    piece being collected. *)
Fixpoint split_go (sep s : string) (skip : nat) (cur : string) : list string :=
  match s with
  | EmptyString => [cur]
  | String c s' =>
      match skip with
      | S k => split_go sep s' k cur
      | O =>
          if prefix sep s
          then cur :: split_go sep s' (String.length sep - 1) EmptyString
          else split_go sep s' 0 (cur ++ String c EmptyString)
      end
  end.

Definition split (sep s : string) : list string := split_go sep s 0 EmptyString.

(** [sep in s] *)
Fixpoint contains (sep s : string) : bool :=
  match s with
  | EmptyString => prefix sep EmptyString
  | String _ s' => prefix sep s || contains sep s'
  end.

(** [c not in s] for a character. *)
Definition lacks (c : ascii) (s : string) : bool :=
  forallb (fun x => negb (Ascii.eqb x c)) s.

(** [s.startswith(p)] *)
Definition startswith (s p : string) : bool := prefix p s.

(** [xs[-1]] on a non-empty list; [split] never returns an empty list. *)
Definition last_item (xs : list string) : string := List.last xs EmptyString.

End PyStr.

(** ** base64.b64decode *)

Module Base64.

Definition BASE64_PAD : ascii := "="%char.

Definition table_b2a_base64 : string :=
  "ABCDEFGHIJKLMNOPQRSTUVWXYZabcdefghijklmnopqrstuvwxyz0123456789+/".

(** The decoding table of [binascii]: the 6-bit value of an alphabet
    character, and 255 (the table's -1 as an unsigned char) for every
    other character. *)
Definition table_a2b_base64 (c : ascii) : N :=
  let n := N_of_ascii c in
  (if (65 <=? n) && (n <=? 90) then n - 65
   else if (97 <=? n) && (n <=? 122) then n - 71
   else if (48 <=? n) && (n <=? 57) then n + 4
   else if n =? 43 then 62
   else if n =? 47 then 63
   else 255)%N.

(** Storing into an [unsigned char]. *)
Definition to_byte (n : N) : byte :=
  match Byte.of_N (n mod 256) with
  | Some b => b
  | None => x00
  end.

(** The decoder's registers: position inside the current quad, the
    bits left over from the previous character, and the run of pad
    characters seen. *)
Record a2b_state := mkA2B { quad_pos : nat; leftchar : N; pads : nat }.

Inductive a2b_next :=
| Continue (st : a2b_state) (emit : option byte)
| Done.

(** One data character [this_ch < 64]: the [switch (quad_pos)]. *)
Definition a2b_data (qp : nat) (lc this_ch : N) : a2b_next :=
  match qp with
  | 0 => Continue (mkA2B 1 this_ch 0) None
  | 1 => Continue (mkA2B 2 (N.land this_ch 15) 0)
           (Some (to_byte (N.lor (N.shiftl lc 2) (N.shiftr this_ch 4))))
  | 2 => Continue (mkA2B 3 (N.land this_ch 3) 0)
           (Some (to_byte (N.lor (N.shiftl lc 4) (N.shiftr this_ch 2))))
  | _ => Continue (mkA2B 0 0 0)
           (Some (to_byte (N.lor (N.shiftl lc 6) this_ch)))
  end.

(** One iteration of the loop of [binascii.a2b_base64] with
    [strict_mode] off, which is how [base64.b64decode(s)] calls it:
    a pad character ends the input once it completes a quad and is
    passed over otherwise; a character outside the alphabet is passed
    over; a data character goes through the [switch]. *)
Definition a2b_step (st : a2b_state) (this_ch : ascii) : a2b_next :=
  if Ascii.eqb this_ch BASE64_PAD then
    if (2 <=? quad_pos st)%nat then
      if (4 <=? quad_pos st + S (pads st))%nat then Done
      else Continue (mkA2B (quad_pos st) (leftchar st) (S (pads st))) None
    else Continue st None
  else
    let v := table_a2b_base64 this_ch in
    if (64 <=? v)%N then Continue st None
    else a2b_data (quad_pos st) (leftchar st) v.

Definition push (emit : option byte) (bin_data : list byte) : list byte :=
  match emit with
  | Some b => b :: bin_data
  | None => bin_data
  end.

(** The loop; [bin_data] is the output so far, most recent byte first.
    Input that ends inside a quad is an error. *)
Fixpoint a2b_loop (s : string) (st : a2b_state) (bin_data : list byte)
  : outcome (list byte) :=
  match s with
  | EmptyString =>
      if (quad_pos st =? 0)%nat then Ok (rev bin_data) else Raise BinasciiError
  | String c s' =>
      match a2b_step st c with
      | Done => Ok (rev bin_data)
      | Continue st' emit => a2b_loop s' st' (push emit bin_data)
      end
  end.

Definition a2b_base64 (s : string) : outcome (list byte) :=
  a2b_loop s (mkA2B 0 0 0) [].

Definition is_ascii (c : ascii) : bool := (N_of_ascii c <? 128)%N.

(** [base64.b64decode(s)] on a [str]: the string is encoded as ASCII
    first ([ValueError] when it has a non-ASCII character), then handed
    to [binascii.a2b_base64]. *)
Definition b64decode (s : string) : outcome (list byte) :=
  if PyStr.forallb is_ascii s then a2b_base64 s else Raise ValueError.

(** *** The standard encoding, used to say what a valid payload is *)

Definition b2a (v : N) : ascii :=
  match String.get (N.to_nat v) table_b2a_base64 with
  | Some c => c
  | None => BASE64_PAD
  end.

Definition sextet0 (a : byte) : N := N.shiftr (Byte.to_N a) 2.
Definition sextet1 (a b : byte) : N :=
  N.lor (N.shiftl (N.land (Byte.to_N a) 3) 4) (N.shiftr (Byte.to_N b) 4).
Definition sextet2 (b c : byte) : N :=
  N.lor (N.shiftl (N.land (Byte.to_N b) 15) 2) (N.shiftr (Byte.to_N c) 6).
Definition sextet3 (c : byte) : N := N.land (Byte.to_N c) 63.

(** [base64.b64encode]: three bytes give four characters; a final
    group of one or two bytes is padded with [=]. *)
Fixpoint b64encode (bs : list byte) : string :=
  match bs with
  | [] => EmptyString
  | [a] =>
      String (b2a (sextet0 a)) (String (b2a (sextet1 a x00))
        (String BASE64_PAD (String BASE64_PAD EmptyString)))
  | [a; b] =>
      String (b2a (sextet0 a)) (String (b2a (sextet1 a b))
        (String (b2a (sextet2 b x00)) (String BASE64_PAD EmptyString)))
  | a :: b :: c :: rest =>
      String (b2a (sextet0 a)) (String (b2a (sextet1 a b))
        (String (b2a (sextet2 b c)) (String (b2a (sextet3 c))
          (b64encode rest))))
  end.

(** A payload is valid base64 when it is the standard encoding of some
    byte string. *)
Definition valid_b64 (payload : string) : Prop :=
  exists bs, payload = b64encode bs.

(** The number of alphabet characters of a string. *)
Fixpoint data_chars (s : string) : nat :=
  match s with
  | EmptyString => 0
  | String c s' =>
      if (table_a2b_base64 c <? 64)%N then S (data_chars s') else data_chars s'
  end.

(** *** Checks over all bytes, for the proofs *)

Definition all_bytes : list byte :=
  map (fun n => to_byte (N.of_nat n)) (seq 0 256).

(** What decoding needs to know about the character of a sextet. *)
Definition good_char (v : N) : bool :=
  (v <? 64)%N
  && is_ascii (b2a v)
  && negb (Ascii.eqb (b2a v) BASE64_PAD)
  && negb (Ascii.eqb (b2a v) ";"%char)
  && (table_a2b_base64 (b2a v) =? v)%N.

Definition good_pair (a b : byte) : bool :=
  good_char (sextet0 a) && good_char (sextet1 a b)
  && good_char (sextet2 a b) && good_char (sextet3 a)
  && Byte.eqb
       (to_byte (N.lor (N.shiftl (sextet0 a) 2) (N.shiftr (sextet1 a b) 4))) a
  && (N.land (sextet1 a b) 15 =? N.shiftr (Byte.to_N b) 4)%N
  && (N.shiftr (sextet2 a b) 2 =? N.land (Byte.to_N a) 15)%N
  && (N.land (sextet2 a b) 3 =? N.shiftr (Byte.to_N b) 6)%N
  && Byte.eqb
       (to_byte (N.lor (N.shiftl (N.shiftr (Byte.to_N a) 4) 4)
                       (N.land (Byte.to_N a) 15))) a
  && Byte.eqb
       (to_byte (N.lor (N.shiftl (N.shiftr (Byte.to_N a) 6) 6) (sextet3 a))) a.

(** Every character of an encoding is ASCII and none is a semicolon. *)
Definition plain (c : ascii) : bool :=
  is_ascii c && negb (Ascii.eqb c ";"%char).

(** A character the decoder looks at: the pad character or a
    character of the alphabet. *)
Definition significant (c : ascii) : bool :=
  Ascii.eqb c BASE64_PAD || (table_a2b_base64 c <? 64)%N.

(** A string without the characters the decoder passes over. *)
Fixpoint strip (s : string) : string :=
  match s with
  | EmptyString => EmptyString
  | String c s' => if significant c then String c (strip s') else strip s'
  end.

End Base64.

(** ** Python dictionaries *)

Module Dict.
Section Ops.
Context {V : Type}.

(** [d.get(k)] *)
Fixpoint get (k : string) (d : list (string * V)) : option V :=
  match d with
  | [] => None
  | (k', v) :: d' => if String.eqb k k' then Some v else get k d'
  end.

(** [del d[k]] *)
Fixpoint remove (k : string) (d : list (string * V)) : list (string * V) :=
  match d with
  | [] => []
  | (k', v) :: d' =>
      if String.eqb k k' then remove k d' else (k', v) :: remove k d'
  end.

(** [d.pop(k)]: the value and the dictionary without the key, or
    [KeyError]. *)
Definition pop (k : string) (d : list (string * V))
  : outcome (V * list (string * V)) :=
  match get k d with
  | Some v => Ok (v, remove k d)
  | None => Raise (KeyError k)
  end.

(** [d[k] = v]: a new key goes to the end, an existing key keeps its
    place. *)
Fixpoint set (k : string) (v : V) (d : list (string * V)) : list (string * V) :=
  match d with
  | [] => [(k, v)]
  | (k', v') :: d' =>
      if String.eqb k k' then (k, v) :: remove k d' else (k', v') :: set k v d'
  end.
End Ops.
End Dict.

(** ** The entity store *)

(** Modelled from the spec: recipes/models.py is not among the sources.
    The six tables the serializers write to or read from, with the
    columns the serializers name ([Tag]: id, name, slug; [Ingredient]:
    id, name, measurement_unit; [AmountOfIngredient]: ingredient, amount;
    [TagInRecipe]: tag, recipe; [IngredientInRecipe]:
    amount_of_ingredient, recipe; [Recipe]: author and the validated
    scalar fields). Foreign keys hold the primary key of the row they
    refer to. *)
Record Tag := mkTag { tag_id : Z; tag_name : string; tag_slug : string }.

Record Ingredient := mkIngredient
  { ingredient_id : Z; ingredient_name : string; ingredient_measurement_unit : string }.

Record AmountOfIngredient := mkAmountOfIngredient
  { aoi_id : Z; aoi_ingredient : Z; aoi_amount : Z }.

Record TagInRecipe := mkTagInRecipe
  { tir_id : Z; tir_tag : Z; tir_recipe : Z }.

Record IngredientInRecipe := mkIngredientInRecipe
  { iir_id : Z; iir_amount_of_ingredient : Z; iir_recipe : Z }.

(** A validated value, as the fields hand it to [create]: a primitive,
    a file, the list of [{'id': <Tag>}] items, or the list of
    [{'ingredient': {'id': <Ingredient>}, 'amount': n}] items. A row
    that was saved holds its image as a [FieldFile]: the file as the
    media storage keeps it, under the name the storage gave it. *)
Inductive value :=
| VPrim (o : pyobj)
| VFile (f : File)
| VFieldFile (f : File)
| VTags (items : list Tag)
| VIngredients (items : list (Ingredient * Z)).

Record Recipe := mkRecipe
  { recipe_id : Z; recipe_author : Z; recipe_fields : list (string * value) }.

Record Store := mkStore
  { tags : list Tag;
    ingredients : list Ingredient;
    amounts : list AmountOfIngredient;
    recipes : list Recipe;
    tags_in_recipe : list TagInRecipe;
    ingredients_in_recipe : list IngredientInRecipe }.

(** [request.user] *)
Inductive user :=
| AnonymousUser
| User (pk : Z).

Definition is_authenticated (u : user) : bool :=
  match u with
  | AnonymousUser => false
  | User _ => true
  end.

Record Request := mkRequest { request_user : user }.

(** A serializer's [context]: [context.get('request')] is [None] when the
    caller passed no request. *)
Record Context := mkContext { context_request : option Request }.

(** ** What the serializers take from the framework and the models

    The parts of Python, Django and the REST framework that the
    serializers call and whose behaviour is not fixed by this file:
    - [py_int s]: [int(s)] on a string, [None] when it raises;
    - [file_iter f]: the items that iterating over a file object yields;
    - [ImageField_to_internal_value]: the parent class of
      [Base64ImageField] (file and image checks);
    - [model_field name]: [run_validation] of the field the model
      serializer builds for column [name] of [Recipe], on the value found
      under that key ([None]: key absent); [Ok None] means the field is
      skipped;
    - [amount_to_internal_value]: the conversion and validators of the
      [amount] column of [AmountOfIngredient];
    - [user_to_representation]: the rendering of a user by the base
      model serializer;
    - [column_to_representation name]: the rendering of column [name] of
      a [Recipe] ([None]: the row has no value for it);
    - [database_holds z]: whether [z] is an integer the database can
      take as a key in a lookup (a signed 64-bit integer, for SQLite);
    - [storage_name s name]: the name under which the media storage
      saves a file called [name] when the tables are as in [s]: the
      directory of the image column in front and, when that name is
      taken, a random suffix. *)
Class Framework := mkFramework
  { py_int : string -> option Z;
    file_iter : File -> list pyobj;
    ImageField_to_internal_value : pyobj -> outcome value;
    model_field : string -> option pyobj -> outcome (option value);
    amount_to_internal_value : pyobj -> outcome Z;
    user_to_representation : Z -> pyobj;
    column_to_representation : string -> option value -> pyobj;
    database_holds : Z -> bool;
    storage_name : Store -> string -> string }.

Section Serializers.
Context {fw : Framework}.

(** *** Base64ImageField *)

Definition Base64ImageField_to_internal_value (data : pyobj) : outcome value :=
  match data with
  | PyStr s =>
      if PyStr.startswith s "data:image" then
        match PyStr.split ";base64," s with
        | [format; imgstr] =>
            let ext := PyStr.last_item (PyStr.split "/" format) in
            bind (Base64.b64decode imgstr) (fun content =>
              ImageField_to_internal_value
                (PyFile (mkFile ("temp." ++ ext) content)))
        | _ => Raise ValueError
        end
      else ImageField_to_internal_value data
  | _ => ImageField_to_internal_value data
  end.

(** The test that selects the decoding branch. *)
Definition is_data_image (data : pyobj) : bool :=
  match data with
  | PyStr s => PyStr.startswith s "data:image"
  | _ => false
  end.

(** [Field.run_validation] for a field without default and with
    [allow_null=False], on a serializer that is not partial: an absent
    key fails when the field is required and skips the field
    otherwise; [None] fails. *)
Definition run_validation_with {A} (required : bool)
    (to_internal_value : pyobj -> outcome A) (data : option pyobj)
  : outcome (option A) :=
  match data with
  | None => if required then Raise (ValidationError ["required"]) else Ok None
  | Some PyNone => Raise (ValidationError ["null"])
  | Some d => bind (to_internal_value d) (fun v => Ok (Some v))
  end.

(** *** UserMeSerializer *)

Definition UserMeSerializer_to_representation (context : Context) (instance : Z)
  : outcome pyobj :=
  match context_request context with
  | None => Raise AttributeError
  | Some request =>
      if is_authenticated (request_user request)
      then Ok (user_to_representation instance)
      else Raise NotAuthenticated
  end.

(** *** Related fields and nested serializers *)

(** [PrimaryKeyRelatedField.to_internal_value]: look the value up as a
    primary key in the queryset. A boolean, or a value the lookup
    cannot convert to a key, is an [incorrect_type] failure; a key
    without a row is a [does_not_exist] failure. An integer that the
    database cannot hold makes [queryset.get] raise [OverflowError],
    which the field does not catch; no row has such a key, so the test
    is made where no row was found. *)
Definition pk_get {R} (pk : R -> Z) (queryset : list R) (z : Z) : outcome R :=
  match find (fun r => Z.eqb (pk r) z) queryset with
  | Some r => Ok r
  | None =>
      if database_holds z then Raise (ValidationError ["does_not_exist"])
      else Raise OverflowError
  end.

Definition PrimaryKeyRelatedField_to_internal_value {R} (pk : R -> Z)
    (queryset : list R) (data : pyobj) : outcome R :=
  match data with
  | PyInt z => pk_get pk queryset z
  | PyStr s =>
      match py_int s with
      | Some z => pk_get pk queryset z
      | None => Raise (ValidationError ["incorrect_type"])
      end
  | _ => Raise (ValidationError ["incorrect_type"])
  end.

(** [RelatedField.run_validation]: the empty string counts as [None]. *)
Definition PrimaryKeyRelatedField_run_validation {R} (pk : R -> Z)
    (queryset : list R) (data : option pyobj) : outcome (option R) :=
  match data with
  | Some (PyStr EmptyString) => Raise (ValidationError ["null"])
  | _ => run_validation_with true
           (PrimaryKeyRelatedField_to_internal_value pk queryset) data
  end.

(** Failures of the fields of a nested serializer are collected under
    the field names; any other exception passes through. *)
Definition under (name : string) {A} (r : outcome A) : outcome A :=
  match r with
  | Ok a => Ok a
  | Raise e => if is_validation_error e then Raise (ValidationError [name]) else Raise e
  end.

(** [TagsInRecipeSerializer.run_validation] on one item: the only
    writable field is [id]. *)
Definition TagsInRecipeSerializer_run_validation (store : Store) (item : pyobj)
  : outcome Tag :=
  match item with
  | PyNone => Raise (ValidationError ["null"])
  | PyDict d =>
      match under "id" (PrimaryKeyRelatedField_run_validation tag_id (tags store)
                          (Dict.get "id" d)) with
      | Ok (Some t) => Ok t
      | Ok None => Raise (KeyError "id")
      | Raise e => Raise e
      end
  | _ => Raise (ValidationError ["invalid"])
  end.

(** [IngredientInRecipeSerializer.run_validation] on one item: the
    writable fields are [id] (an ingredient key) and [amount], run in
    that order; a validation failure of the first does not stop the
    second from running. *)
Definition IngredientInRecipeSerializer_run_validation (store : Store)
    (item : pyobj) : outcome (Ingredient * Z) :=
  match item with
  | PyNone => Raise (ValidationError ["null"])
  | PyDict d =>
      let r_id := PrimaryKeyRelatedField_run_validation ingredient_id
                    (ingredients store) (Dict.get "id" d) in
      let r_amount := run_validation_with true amount_to_internal_value
                        (Dict.get "amount" d) in
      match r_id with
      | Ok (Some i) =>
          match under "amount" r_amount with
          | Ok (Some n) => Ok (i, n)
          | Ok None => Raise (KeyError "amount")
          | Raise e => Raise e
          end
      | Ok None => Raise (KeyError "ingredient")
      | Raise e =>
          if is_validation_error e then
            match r_amount with
            | Raise e' =>
                if is_validation_error e'
                then Raise (ValidationError ["id"; "amount"])
                else Raise e'
            | Ok _ => Raise (ValidationError ["id"])
            end
          else Raise e
      end
  | _ => Raise (ValidationError ["invalid"])
  end.

(** [ListSerializer.to_internal_value]: every item goes through the
    child; items that fail validation are remembered and the rest is
    still validated. *)
Fixpoint list_items {A} (child : pyobj -> outcome A) (items : list pyobj)
    (ret : list A) (failed : bool) : outcome (list A) :=
  match items with
  | [] => if failed then Raise (ValidationError ["items"]) else Ok ret
  | item :: rest =>
      match child item with
      | Ok a => list_items child rest (ret ++ [a]) failed
      | Raise e =>
          if is_validation_error e then list_items child rest ret true
          else Raise e
      end
  end.

Definition ListSerializer_to_internal_value {A} (child : pyobj -> outcome A)
    (data : pyobj) : outcome (list A) :=
  match data with
  | PyList items => list_items child items [] false
  | _ => Raise (ValidationError ["not_a_list"])
  end.

(** *** Serializer.to_internal_value *)

Record Field := mkField
  { field_name : string;
    run_validation : option pyobj -> outcome (option value);
    validate_method : option (value -> outcome value) }.

Definition run_field (f : Field) (data : list (string * pyobj))
  : outcome (option value) :=
  match run_validation f (Dict.get (field_name f) data) with
  | Ok (Some v) =>
      match validate_method f with
      | Some validate => bind (validate v) (fun v' => Ok (Some v'))
      | None => Ok (Some v)
      end
  | r => r
  end.

(** The loop over the writable fields: validation failures are
    collected per field and raised together at the end, a skipped field
    leaves no entry, any other exception leaves the loop at once. *)
Fixpoint run_fields (fields : list Field) (data : list (string * pyobj))
    (ret : list (string * value)) (errors : list string)
  : outcome (list (string * value)) :=
  match fields with
  | [] =>
      match errors with
      | [] => Ok ret
      | _ => Raise (ValidationError errors)
      end
  | f :: fs =>
      match run_field f data with
      | Ok (Some v) => run_fields fs data (Dict.set (field_name f) v ret) errors
      | Ok None => run_fields fs data ret errors
      | Raise e =>
          if is_validation_error e
          then run_fields fs data ret (errors ++ [field_name f])
          else Raise e
      end
  end.

Definition Serializer_to_internal_value (fields : list Field)
    (data : list (string * pyobj)) : outcome (list (string * value)) :=
  run_fields fields data [] [].

(** An outcome that is an exception other than a validation failure. *)
Definition uncaught {A} (r : outcome A) : bool :=
match r with
| Ok _ => false
| Raise e => negb (is_validation_error e)
end.

(** *** RecipeCreateSerializer and RecipeUpdateSerializer *)

(** Truth value of a validated value, as [not value] tests it. *)
Definition truthy (v : value) : bool :=
  match v with
  | VPrim PyNone => false
  | VPrim (PyBool b) => b
  | VPrim (PyInt z) => negb (Z.eqb z 0)
  | VPrim (PyStr s) => negb (String.eqb s EmptyString)
  | VPrim (PyList l) => match l with [] => false | _ => true end
  | VPrim (PyDict d) => match d with [] => false | _ => true end
  | VPrim (PyFile f) => negb (String.eqb (file_name f) EmptyString)
  | VFile f => negb (String.eqb (file_name f) EmptyString)
  | VFieldFile f => negb (String.eqb (file_name f) EmptyString)
  | VTags l => match l with [] => false | _ => true end
  | VIngredients l => match l with [] => false | _ => true end
  end.

Definition validate_ingredients (v : value) : outcome value :=
  if truthy v then Ok v else Raise (ValidationError ["invalid"]).

Definition tags_field (store : Store) : Field :=
  mkField "tags"
    (run_validation_with true (fun data =>
       bind (ListSerializer_to_internal_value
               (TagsInRecipeSerializer_run_validation store) data)
            (fun l => Ok (VTags l))))
    None.

Definition ingredients_field (store : Store) : Field :=
  mkField "ingredients"
    (run_validation_with true (fun data =>
       bind (ListSerializer_to_internal_value
               (IngredientInRecipeSerializer_run_validation store) data)
            (fun l => Ok (VIngredients l))))
    (Some validate_ingredients).

Definition image_field (required : bool) : Field :=
  mkField "image"
    (run_validation_with required Base64ImageField_to_internal_value)
    None.

Definition recipe_column (name : string) : Field :=
  mkField name (model_field name) None.

(** The writable fields in the order of [RecipeMetaSerializer.Meta.fields]
    ([id] and [author] are read-only). The two serializers differ in the
    [required] flag of [image] only. *)
Definition writable_fields (image_required : bool) (store : Store) : list Field :=
  [ tags_field store;
    ingredients_field store;
    recipe_column "is_favorited";
    recipe_column "is_in_shopping_cart";
    recipe_column "name";
    image_field image_required;
    recipe_column "text";
    recipe_column "cooking_time" ].

(** [for tag in tags]: what iterating over the popped value yields (a
    list gives its items, a string its characters, a dictionary its
    keys; [None], booleans and integers are not iterable). *)
Definition py_iter (o : pyobj) : outcome (list pyobj) :=
  match o with
  | PyList l => Ok l
  | PyStr s => Ok (map PyStr (PyStr.chars s))
  | PyDict d => Ok (map (fun kv => PyStr (fst kv)) d)
  | PyFile f => Ok (file_iter f)
  | PyNone | PyBool _ | PyInt _ => Raise TypeError
  end.

Definition wrap_tag (tag : pyobj) : pyobj := PyDict [("id", tag)].

Definition to_internal_value (image_required : bool) (store : Store)
    (data : list (string * pyobj)) : outcome (list (string * value)) :=
  bind (Dict.pop "tags" data) (fun '(tags, data1) =>
  bind (py_iter tags) (fun items =>
    let data2 := Dict.set "tags" (PyList (map wrap_tag items)) data1 in
    Serializer_to_internal_value (writable_fields image_required store) data2)).

Definition RecipeCreateSerializer_to_internal_value := to_internal_value true.
Definition RecipeUpdateSerializer_to_internal_value := to_internal_value false.

End Serializers.

(** ** Store operations

    The serializer does not open a transaction, and the ORM then runs in
    autocommit mode: every write is committed when it is made. A
    computation over the store therefore returns the store as it is at
    the end, whether it ends with a value or with an exception. *)
Definition M (A : Type) : Type := Store -> outcome A * Store.

Definition ret {A} (a : A) : M A := fun s => (Ok a, s).

Definition throw {A} (e : exn) : M A := fun s => (Raise e, s).

Definition mbind {A B} (m : M A) (k : A -> M B) : M B :=
  fun s =>
    match m s with
    | (Ok a, s') => k a s'
    | (Raise e, s') => (Raise e, s')
    end.

Definition lift {A} (r : outcome A) : M A := fun s => (r, s).

Declare Scope orm_scope.
Delimit Scope orm_scope with orm.
Notation "x <- m ;; k" := (mbind m (fun x => k))
  (at level 61, m at next level, right associativity) : orm_scope.
Notation "' p <- m ;; k" := (mbind m (fun p => k))
  (at level 61, p pattern, m at next level, right associativity) : orm_scope.

(** [for x in xs: body(x)] *)
Fixpoint for_each {A} (xs : list A) (body : A -> M unit) : M unit :=
  match xs with
  | [] => ret tt
  | x :: rest => (_ <- body x ;; for_each rest body)%orm
  end.

(** The key an auto-incrementing primary key column gives to a new
    row. *)
Definition next_id (ids : list Z) : Z := (1 + fold_right Z.max 0 ids)%Z.

(** What saving a row does to its column values ([pre_save] of the
    fields): a file under [image] that is not in the media storage yet
    is saved there, and the column keeps it as the storage named it. A
    file that is in the storage already is left as it is. *)
Definition pre_save {fw : Framework} (s : Store) (fields : list (string * value))
  : list (string * value) :=
  match Dict.get "image" fields with
  | Some (VFile f) =>
      Dict.set "image"
        (VFieldFile (mkFile (storage_name s (file_name f)) (file_content f)))
        fields
  | _ => fields
  end.

(** [Recipe.objects.create(author=user, **fields)]: assigning the
    anonymous user to the [author] foreign key raises before anything is
    written; otherwise the row is saved and returned as it was saved. *)
Definition Recipe_objects_create {fw : Framework} (author : user)
    (fields : list (string * value)) : M Recipe :=
  fun s =>
    match author with
    | AnonymousUser => (Raise ValueError, s)
    | User pk =>
        let r := mkRecipe (next_id (map recipe_id (recipes s))) pk
                   (pre_save s fields) in
        (Ok r,
         mkStore (tags s) (ingredients s) (amounts s) (recipes s ++ [r])
                 (tags_in_recipe s) (ingredients_in_recipe s))
    end.

(** [recipe.save()]: the row with this key is rewritten with the
    columns of the object, which is updated in place; the result is the
    object after the call. *)
Definition Recipe_save {fw : Framework} (r : Recipe) : M Recipe :=
  fun s =>
    let r1 := mkRecipe (recipe_id r) (recipe_author r)
                (pre_save s (recipe_fields r)) in
    (Ok r1,
     mkStore (tags s) (ingredients s) (amounts s)
             (map (fun r' => if Z.eqb (recipe_id r') (recipe_id r) then r1 else r')
                  (recipes s))
             (tags_in_recipe s) (ingredients_in_recipe s)).

(** [Tag.objects.get_or_create(id=pk)]: the row with that primary key,
    or a new row with that key and empty name and slug. *)
Definition Tag_objects_get_or_create (pk : Z) : M Tag :=
  fun s =>
    match find (fun t => Z.eqb (tag_id t) pk) (tags s) with
    | Some t => (Ok t, s)
    | None =>
        let t := mkTag pk EmptyString EmptyString in
        (Ok t,
         mkStore (tags s ++ [t]) (ingredients s) (amounts s) (recipes s)
                 (tags_in_recipe s) (ingredients_in_recipe s))
    end.

Definition TagInRecipe_objects_create (tag : Tag) (recipe : Recipe) : M unit :=
  fun s =>
    let row := mkTagInRecipe (next_id (map tir_id (tags_in_recipe s)))
                 (tag_id tag) (recipe_id recipe) in
    (Ok tt,
     mkStore (tags s) (ingredients s) (amounts s) (recipes s)
             (tags_in_recipe s ++ [row]) (ingredients_in_recipe s)).

Definition same_amount (ingredient amount : Z) (a : AmountOfIngredient) : bool :=
  Z.eqb (aoi_ingredient a) ingredient && Z.eqb (aoi_amount a) amount.

(** [AmountOfIngredient.objects.get_or_create(ingredient=i, amount=n)]:
    the one row with these two columns; a new row when there is none (the
    foreign key must point to an existing ingredient);
    [MultipleObjectsReturned] when there are several. *)
Definition AmountOfIngredient_objects_get_or_create (ingredient : Ingredient)
    (amount : Z) : M AmountOfIngredient :=
  fun s =>
    match filter (same_amount (ingredient_id ingredient) amount) (amounts s) with
    | [] =>
        if existsb (fun i => Z.eqb (ingredient_id i) (ingredient_id ingredient))
                   (ingredients s)
        then
          let a := mkAmountOfIngredient (next_id (map aoi_id (amounts s)))
                     (ingredient_id ingredient) amount in
          (Ok a,
           mkStore (tags s) (ingredients s) (amounts s ++ [a]) (recipes s)
                   (tags_in_recipe s) (ingredients_in_recipe s))
        else (Raise IntegrityError, s)
    | [a] => (Ok a, s)
    | _ => (Raise MultipleObjectsReturned, s)
    end.

Definition IngredientInRecipe_objects_create (amount_of_ingredient : AmountOfIngredient)
    (recipe : Recipe) : M unit :=
  fun s =>
    let row := mkIngredientInRecipe
                 (next_id (map iir_id (ingredients_in_recipe s)))
                 (aoi_id amount_of_ingredient) (recipe_id recipe) in
    (Ok tt,
     mkStore (tags s) (ingredients s) (amounts s) (recipes s)
             (tags_in_recipe s) (ingredients_in_recipe s ++ [row])).

(** ** RecipeCreateSerializer.create *)

Definition as_ingredients (v : value) : outcome (list (Ingredient * Z)) :=
  match v with
  | VIngredients l => Ok l
  | _ => Raise TypeError
  end.

Definition as_tags (v : value) : outcome (list Tag) :=
  match v with
  | VTags l => Ok l
  | _ => Raise TypeError
  end.

Definition link_tag (recipe : Recipe) (tag : Tag) : M unit :=
  (current_tag <- Tag_objects_get_or_create (tag_id tag) ;;
   TagInRecipe_objects_create current_tag recipe)%orm.

Definition link_ingredient (recipe : Recipe) (ingredient : Ingredient * Z) : M unit :=
  (current_ingredient <-
     AmountOfIngredient_objects_get_or_create (fst ingredient) (snd ingredient) ;;
   IngredientInRecipe_objects_create current_ingredient recipe)%orm.

(** [recipe.save()] updates the object in place; the name [recipe] is
    bound again to the object after the call. *)
Definition create {fw : Framework} (context : Context)
    (validated_data : list (string * value)) : M Recipe :=
  ('(ingredients, validated_data1) <- lift (Dict.pop "ingredients" validated_data) ;;
   '(tags, validated_data2) <- lift (Dict.pop "tags" validated_data1) ;;
   request <- lift (match context_request context with
                    | Some r => Ok r
                    | None => Raise AttributeError
                    end) ;;
   recipe <- Recipe_objects_create (request_user request) validated_data2 ;;
   recipe <- Recipe_save recipe ;;
   tag_items <- lift (as_tags tags) ;;
   _ <- for_each tag_items (link_tag recipe) ;;
   ingredient_items <- lift (as_ingredients ingredients) ;;
   _ <- for_each ingredient_items (link_ingredient recipe) ;;
   ret recipe)%orm.

(** ** Reading the store *)

(** One store extends another when every table of the second starts
    with the rows of the first: rows were appended, none was removed or
    changed. The ingredient table is only read. *)
Record extends (s s' : Store) : Prop := mkExtends
  { ext_tags : exists added, tags s' = tags s ++ added;
    ext_ingredients : ingredients s' = ingredients s;
    ext_amounts : exists added, amounts s' = amounts s ++ added;
    ext_recipes : exists added, recipes s' = recipes s ++ added;
    ext_tags_in_recipe :
      exists added, tags_in_recipe s' = tags_in_recipe s ++ added;
    ext_ingredients_in_recipe :
      exists added, ingredients_in_recipe s' = ingredients_in_recipe s ++ added }.

(** The row that [create] writes first, with its image as the storage
    keeps it, and the store once the row is written. *)
Definition with_recipe (s : Store) (r : Recipe) : Store :=
  mkStore (tags s) (ingredients s) (amounts s) (recipes s ++ [r])
          (tags_in_recipe s) (ingredients_in_recipe s).

Definition new_recipe {fw : Framework} (s : Store) (author : Z)
    (fields : list (string * value)) : Recipe :=
  mkRecipe (next_id (map recipe_id (recipes s))) author (pre_save s fields).

(** An entry of a validated ingredient list that names the ingredient
    [ingredient] with the amount [amount]. *)
Definition same_pair (ingredient amount : Z) (item : Ingredient * Z) : bool :=
  Z.eqb (ingredient_id (fst item)) ingredient && Z.eqb (snd item) amount.

(** A join row that links the recipe [recipe] to the amount row
    [amount_of_ingredient]. *)
Definition links (recipe amount_of_ingredient : Z) (row : IngredientInRecipe) : bool :=
  Z.eqb (iir_recipe row) recipe
  && Z.eqb (iir_amount_of_ingredient row) amount_of_ingredient.

(** The join rows written for a list of entries, against an amount
    table: row by row, the amount row pointed to is the only one of the
    entry's pair. *)
Definition rows_for (amts : list AmountOfIngredient)
    (items : list (Ingredient * Z)) (rows : list IngredientInRecipe) : Prop :=
  Forall2 (fun item row =>
             exists a,
               filter (same_amount (ingredient_id (fst item)) (snd item)) amts = [a]
               /\ iir_amount_of_ingredient row = aoi_id a)
          items rows.

(** What the database keeps true of the tables used here: the primary
    keys of the amount rows are distinct, and the recipe a join row
    refers to exists. *)
Definition store_wf (s : Store) : Prop :=
  NoDup (map aoi_id (amounts s))
  /\ Forall (fun row => In (iir_recipe row) (map recipe_id (recipes s)))
            (ingredients_in_recipe s).

(** No pair of ingredient and amount has more than one amount row. *)
Definition pairs_unique (s : Store) : Prop :=
  forall ingredient amount,
    List.length (filter (same_amount ingredient amount) (amounts s)) <= 1.

(** What the database keeps true of the tag tables: the primary keys of
    the tags are distinct, and the recipe a tag join row refers to
    exists. *)
Definition tags_wf (s : Store) : Prop :=
  NoDup (map tag_id (tags s))
  /\ Forall (fun row => In (tir_recipe row) (map recipe_id (recipes s)))
            (tags_in_recipe s).

(** ** ModelSerializer.update

    Neither recipe serializer defines [update]; the one they inherit
    refuses validated data that carries the value of a nested serializer
    ([tags], [ingredients]) as a list or dictionary, and otherwise sets
    every validated attribute on the row and saves it. *)
Definition is_list_or_dict (v : value) : bool :=
  match v with
  | VTags _ | VIngredients _ | VPrim (PyList _) | VPrim (PyDict _) => true
  | _ => false
  end.

Definition nested_serializer_fields : list string := ["tags"; "ingredients"].

Definition raise_errors_on_nested_writes (validated_data : list (string * value))
  : outcome unit :=
  if existsb (fun name =>
                match Dict.get name validated_data with
                | Some v => is_list_or_dict v
                | None => false
                end) nested_serializer_fields
  then Raise AssertionError
  else Ok tt.

Definition setattrs (r : Recipe) (validated_data : list (string * value)) : Recipe :=
  mkRecipe (recipe_id r) (recipe_author r)
    (fold_left (fun fields kv => Dict.set (fst kv) (snd kv) fields)
               validated_data (recipe_fields r)).

Definition ModelSerializer_update {fw : Framework} (instance : Recipe)
    (validated_data : list (string * value)) : M Recipe :=
  (_ <- lift (raise_errors_on_nested_writes validated_data) ;;
   let instance' := setattrs instance validated_data in
   instance' <- Recipe_save instance' ;;
   ret instance')%orm.

(** ** Reading a recipe back *)

(** Modelled from the spec: the relations of [Recipe] are declared in
    recipes/models.py, which is not among the sources. The tags of a
    recipe are the [Tag] rows its [TagInRecipe] rows point to, its
    ingredients the [AmountOfIngredient] rows its [IngredientInRecipe]
    rows point to. *)
Definition recipe_tags (s : Store) (r : Recipe) : list Tag :=
  flat_map (fun row =>
              if Z.eqb (tir_recipe row) (recipe_id r)
              then filter (fun t => Z.eqb (tag_id t) (tir_tag row)) (tags s)
              else [])
           (tags_in_recipe s).

Definition recipe_amounts (s : Store) (r : Recipe) : list AmountOfIngredient :=
  flat_map (fun row =>
              if Z.eqb (iir_recipe row) (recipe_id r)
              then filter (fun a => Z.eqb (aoi_id a) (iir_amount_of_ingredient row))
                          (amounts s)
              else [])
           (ingredients_in_recipe s).

(** [TagsInRecipeSerializer.to_representation]: fields [id], [name],
    [slug]. *)
Definition TagsInRecipeSerializer_to_representation (t : Tag) : pyobj :=
  PyDict [("id", PyInt (tag_id t)); ("name", PyStr (tag_name t));
          ("slug", PyStr (tag_slug t))].

(** [IngredientInRecipeSerializer.to_representation]: fields [id],
    [name], [measurement_unit] (read through the ingredient) and
    [amount]. *)
Definition IngredientInRecipeSerializer_to_representation (s : Store)
    (a : AmountOfIngredient) : pyobj :=
  let i := find (fun i => Z.eqb (ingredient_id i) (aoi_ingredient a)) (ingredients s) in
  PyDict [("id", PyInt (aoi_ingredient a));
          ("name", match i with Some i => PyStr (ingredient_name i) | None => PyNone end);
          ("measurement_unit",
            match i with Some i => PyStr (ingredient_measurement_unit i) | None => PyNone end);
          ("amount", PyInt (aoi_amount a))].

Section Views.
Context {fw : Framework}.

(** The representation of a recipe by [RecipeCreateSerializer] and
    [RecipeUpdateSerializer], in the order of [Meta.fields]; the author
    is rendered by [UserMeSerializer]. *)
Definition to_representation (context : Context) (s : Store) (r : Recipe)
  : outcome (list (string * pyobj)) :=
  bind (UserMeSerializer_to_representation context (recipe_author r))
    (fun author =>
       Ok ([("id", PyInt (recipe_id r));
            ("tags", PyList (map TagsInRecipeSerializer_to_representation
                               (recipe_tags s r)));
            ("author", author);
            ("ingredients",
              PyList (map (IngredientInRecipeSerializer_to_representation s)
                        (recipe_amounts s r)))]
           ++ map (fun name =>
                     (name, column_to_representation name
                              (Dict.get name (recipe_fields r))))
                ["is_favorited"; "is_in_shopping_cart"; "name"; "image";
                 "text"; "cooking_time"])).

(** Modelled from the spec: the views are not among the sources. A
    request goes through the serializer as the data flow of the
    specification has it, which is the flow of the framework's generic
    views, [serializer.is_valid(raise_exception=True)] and then
    [serializer.save()]: a creation request validates the payload with
    [RecipeCreateSerializer] and, when that succeeds, runs [create]; an
    update request validates with [RecipeUpdateSerializer] and runs the
    inherited [update] on the stored recipe. A payload that fails to
    deserialise writes nothing. *)
Definition perform_create (context : Context) (data : list (string * pyobj))
  : M Recipe :=
  fun s =>
    match RecipeCreateSerializer_to_internal_value s data with
    | Ok validated_data => create context validated_data s
    | Raise e => (Raise e, s)
    end.

Definition perform_update (instance : Recipe) (data : list (string * pyobj))
  : M Recipe :=
  fun s =>
    match RecipeUpdateSerializer_to_internal_value s data with
    | Ok validated_data => ModelSerializer_update instance validated_data s
    | Raise e => (Raise e, s)
    end.

End Views.

(** ** The other serializers *)

Section OtherSerializers.
Context {fw : Framework}.

(** The payload the field loop sees, for the items the tags iterate
    to. *)
Definition normalised (data : list (string * pyobj)) (items : list pyobj)
  : list (string * pyobj) :=
  Dict.set "tags" (PyList (map wrap_tag items)) (Dict.remove "tags" data).

(** [UserAvatarSerializer]: the one field [avatar], a required
    [Base64ImageField] that does not take [None]. *)
Definition avatar_field : Field :=
  mkField "avatar"
    (run_validation_with true Base64ImageField_to_internal_value)
    None.

Definition UserAvatarSerializer_to_internal_value (data : list (string * pyobj))
  : outcome (list (string * value)) :=
  Serializer_to_internal_value [avatar_field] data.

(** [RecipeRetrieveSerializer.to_representation]: the fields of
    [RecipeCreateSerializer], with the author rendered by
    [UserReadSerializer], which renders a user for any requester. *)
Definition RecipeRetrieveSerializer_to_representation (s : Store) (r : Recipe)
  : list (string * pyobj) :=
  [("id", PyInt (recipe_id r));
   ("tags", PyList (map TagsInRecipeSerializer_to_representation
                      (recipe_tags s r)));
   ("author", user_to_representation (recipe_author r));
   ("ingredients",
     PyList (map (IngredientInRecipeSerializer_to_representation s)
               (recipe_amounts s r)))]
  ++ map (fun name =>
            (name, column_to_representation name
                     (Dict.get name (recipe_fields r))))
       ["is_favorited"; "is_in_shopping_cart"; "name"; "image";
        "text"; "cooking_time"].

End OtherSerializers.

(** ** A concrete framework and store, for evaluating the serializers *)

Module Sample.

Definition digit (c : ascii) : option Z :=
  let n := N_of_ascii c in
  if ((48 <=? n) && (n <=? 57))%N then Some (Z.of_N (n - 48)) else None.

Fixpoint digits (s : string) (acc : Z) : option Z :=
  match s with
  | EmptyString => Some acc
  | String c s' =>
      match digit c with
      | Some d => digits s' (10 * acc + d)%Z
      | None => None
      end
  end.

(** Plain decimal numerals. *)
Definition int_of_decimal (s : string) : option Z :=
  match s with
  | EmptyString => None
  | _ => digits s 0%Z
  end.

(** A parent image field that accepts every non-empty file. *)
Definition accept_file (data : pyobj) : outcome value :=
  match data with
  | PyFile f =>
      match file_content f with
      | [] => Raise (ValidationError ["empty"])
      | _ => Ok (VFile f)
      end
  | _ => Raise (ValidationError ["invalid"])
  end.

(** Required columns that take any value, and the two viewer-relative
    flags, which are not written. *)
Definition column (name : string) (data : option pyobj) : outcome (option value) :=
  if String.eqb name "is_favorited" || String.eqb name "is_in_shopping_cart"
  then Ok None
  else match data with
       | None => Raise (ValidationError ["required"])
       | Some PyNone => Raise (ValidationError ["null"])
       | Some d => Ok (Some (VPrim d))
       end.

Definition positive_amount (data : pyobj) : outcome Z :=
  match data with
  | PyInt z => if (1 <=? z)%Z then Ok z else Raise (ValidationError ["min_value"])
  | _ => Raise (ValidationError ["invalid"])
  end.

Definition render_column (name : string) (v : option value) : pyobj :=
  match v with
  | Some (VPrim o) => o
  | Some (VFile f) => PyStr ("/media/" ++ file_name f)
  | Some (VFieldFile f) => PyStr ("/media/" ++ file_name f)
  | _ => PyNone
  end.

(** Keys of 64 bits with a sign. *)
Definition int64 (z : Z) : bool :=
  ((- 2 ^ 63 <=? z) && (z <? 2 ^ 63))%Z.

(** The names of the images the recipes of a store hold. *)
Definition image_names (s : Store) : list string :=
  flat_map (fun r =>
              match Dict.get "image" (recipe_fields r) with
              | Some (VFieldFile f) => [file_name f]
              | _ => []
              end)
           (recipes s).

(** A media storage that keeps the images under recipes/images/ and
    puts one underscore per stored recipe in front of a name that is
    taken. *)
Definition media_name (s : Store) (name : string) : string :=
  if existsb (String.eqb ("recipes/images/" ++ name)) (image_names s)
  then "recipes/images/"
       ++ String.concat "" (repeat "_" (List.length (recipes s))) ++ name
  else "recipes/images/" ++ name.

Definition framework : Framework :=
  mkFramework int_of_decimal (fun _ => []) accept_file column positive_amount
    (fun pk => PyDict [("id", PyInt pk)]) render_column int64 media_name.

Definition breakfast : Tag := mkTag 1 "Breakfast" "breakfast".
Definition flour : Ingredient := mkIngredient 5 "flour" "g".

Definition store0 : Store := mkStore [breakfast] [flour] [] [] [] [].

(** The same store without the ingredient row. *)
Definition store_no_flour : Store := mkStore [breakfast] [] [] [] [] [].

Definition alice : Context := mkContext (Some (mkRequest (User 7))).
Definition anonymous : Context := mkContext (Some (mkRequest AnonymousUser)).

Definition png : string := "data:image/png;base64,QUJD".

Definition payload (name : string) (ingredients : list pyobj) : list (string * pyobj) :=
  [("name", PyStr name); ("text", PyStr "mix and bake");
   ("cooking_time", PyInt 10); ("image", PyStr png);
   ("tags", PyList [PyInt 1]); ("ingredients", PyList ingredients)].

Definition flour200 : pyobj := PyDict [("id", PyInt 5); ("amount", PyInt 200)].

(** The validated data of the payload above. *)
Definition validated (name : string) : list (string * value) :=
[("tags", VTags [breakfast]);
 ("ingredients", VIngredients [(flour, 200%Z)]);
 ("name", VPrim (PyStr name));
 ("image", VFile (mkFile "temp.png" ["A"%byte; "B"%byte; "C"%byte]));
 ("text", VPrim (PyStr "mix and bake"));
 ("cooking_time", VPrim (PyInt 10))].

(** Validated data that names, after the flour, an ingredient whose row
    has gone from the store since the payload was validated. *)
Definition sugar : Ingredient := mkIngredient 6 "sugar" "g".

Definition validated_with_sugar : list (string * value) :=
  Dict.set "ingredients" (VIngredients [(flour, 200%Z); (sugar, 50%Z)])
    (validated "pie").

(** A store in which the pair (flour, 200) has two amount rows. *)
Definition store_twice : Store :=
mkStore [breakfast] [flour]
  [mkAmountOfIngredient 1 5 200; mkAmountOfIngredient 2 5 200] [] [] [].

(** The store after the recipe "pie" was created in [store0], and the
    row of that recipe. *)
Definition store_with_pie : Store :=
Eval vm_compute in
  snd (perform_create (fw := framework) alice (payload "pie" [flour200]) store0).

Definition pie : Recipe :=
Eval vm_compute in
  new_recipe (fw := framework) store0 7
    (Dict.remove "tags" (Dict.remove "ingredients" (validated "pie"))).

(** The representation of that recipe, as a logged-in user reads it. *)
Definition pie_representation : list (string * pyobj) :=
Eval vm_compute in
  match to_representation (fw := framework) alice store_with_pie pie with
  | Ok repr => repr
  | Raise _ => []
  end.

(** An update of that recipe that renames it and sends no image. *)
Definition rename_payload : list (string * pyobj) :=
[("name", PyStr "apple pie"); ("text", PyStr "mix and bake");
 ("cooking_time", PyInt 10);
 ("tags", PyList [PyInt 1]); ("ingredients", PyList [flour200])].

(** A creation payload with no ingredients and no [tags] key. *)
Definition payload_without_tags : list (string * pyobj) :=
[("name", PyStr "pie"); ("text", PyStr "mix and bake");
 ("cooking_time", PyInt 10); ("image", PyStr png);
 ("ingredients", PyList [])].

End Sample.

(** * Properties *)

(** ** Enumeration over bytes *)

Import Base64.

Lemma to_byte_to_N (b : byte) : Base64.to_byte (Byte.to_N b) = b.
Proof.
  unfold Base64.to_byte.
  assert (H : (Byte.to_N b mod 256 = Byte.to_N b)%N).
  { apply N.mod_small. pose proof (Byte.to_N_bounded b). lia. }
  rewrite H, Byte.of_to_N. reflexivity.
Qed.

Lemma in_all_bytes (b : byte) : In b all_bytes.
Proof.
  unfold all_bytes. apply in_map_iff.
  exists (Byte.to_nat b). split.
  - rewrite Byte.to_nat_via_N, N2Nat.id. apply to_byte_to_N.
  - apply in_seq. pose proof (Byte.to_nat_bounded b). lia.
Qed.

Lemma for_all_bytes (p : byte -> bool) :
  forallb p all_bytes = true -> forall b, p b = true.
Proof.
  intros H b. rewrite forallb_forall in H. apply H, in_all_bytes.
Qed.

Lemma for_all_byte_pairs (p : byte -> byte -> bool) :
  forallb (fun a => forallb (p a) all_bytes) all_bytes = true ->
  forall a b, p a b = true.
Proof.
  intros H a b.
  apply (for_all_bytes (p a)). revert a. apply for_all_bytes. exact H.
Qed.

(** ** The base64 alphabet *)

Module Base64Facts.

Lemma good_pairs (a b : byte) : good_pair a b = true.
Proof. revert a b. apply for_all_byte_pairs. vm_compute. reflexivity. Qed.

Ltac good_pair_facts a b :=
  let H := fresh "G" in
  pose proof (good_pairs a b) as H; unfold good_pair in H;
  repeat rewrite andb_true_iff in H;
  destruct H as [[[[[[[[[? ?] ?] ?] ?] ?] ?] ?] ?] ?];
  repeat match goal with
         | E : Byte.eqb _ _ = true |- _ => apply Byte.byte_dec_bl in E
         | E : (_ =? _)%N = true |- _ => apply N.eqb_eq in E
         end.

Lemma good_char_step (st : a2b_state) (v : N) :
  good_char v = true ->
  a2b_step st (b2a v) = a2b_data (quad_pos st) (leftchar st) v.
Proof.
  unfold good_char. repeat rewrite andb_true_iff.
  intros [[[[Hlt _] Hpad] _] Htab].
  apply negb_true_iff in Hpad. apply N.eqb_eq in Htab. apply N.ltb_lt in Hlt.
  unfold a2b_step. rewrite Hpad, Htab.
  destruct (64 <=? v)%N eqn:E; [apply N.leb_le in E; lia | reflexivity].
Qed.

Lemma good_char_ascii (v : N) : good_char v = true -> is_ascii (b2a v) = true.
Proof.
  unfold good_char. repeat rewrite andb_true_iff. tauto.
Qed.

Lemma good_char_not_semicolon (v : N) :
  good_char v = true -> Ascii.eqb (b2a v) ";"%char = false.
Proof.
  unfold good_char. repeat rewrite andb_true_iff.
  intros [[_ H] _]. now apply negb_true_iff in H.
Qed.

(** A full group of three bytes is decoded from its four characters. *)
Lemma a2b_loop_group (a b c : byte) (s : string) (st : a2b_state) (out : list byte) :
  quad_pos st = 0 ->
  a2b_loop
    (String (b2a (sextet0 a)) (String (b2a (sextet1 a b))
      (String (b2a (sextet2 b c)) (String (b2a (sextet3 c)) s)))) st out
  = a2b_loop s (mkA2B 0 0 0) (c :: b :: a :: out).
Proof.
  intros Hq.
  good_pair_facts a b. good_pair_facts b c. good_pair_facts c c.
  cbn [a2b_loop].
  rewrite good_char_step by assumption. rewrite Hq. cbn [a2b_data push].
  rewrite good_char_step by assumption. cbn [quad_pos leftchar a2b_data push].
  rewrite good_char_step by assumption. cbn [quad_pos leftchar a2b_data push].
  rewrite good_char_step by assumption. cbn [quad_pos leftchar a2b_data push].
  repeat match goal with E : _ = _ |- _ => rewrite E end.
  reflexivity.
Qed.

Lemma a2b_loop_tail1 (a : byte) (st : a2b_state) (out : list byte) :
  quad_pos st = 0 ->
  a2b_loop (b64encode [a]) st out = Ok (rev (a :: out)).
Proof.
  intros Hq. good_pair_facts a x00.
  cbn [b64encode a2b_loop].
  rewrite good_char_step by assumption. rewrite Hq. cbn [a2b_data push].
  rewrite good_char_step by assumption. cbn [quad_pos leftchar a2b_data push].
  repeat match goal with E : _ = _ |- _ => rewrite E end.
  reflexivity.
Qed.

Lemma a2b_loop_tail2 (a b : byte) (st : a2b_state) (out : list byte) :
  quad_pos st = 0 ->
  a2b_loop (b64encode [a; b]) st out = Ok (rev (b :: a :: out)).
Proof.
  intros Hq. good_pair_facts a b. good_pair_facts b x00.
  cbn [b64encode a2b_loop].
  rewrite good_char_step by assumption. rewrite Hq. cbn [a2b_data push].
  rewrite good_char_step by assumption. cbn [quad_pos leftchar a2b_data push].
  rewrite good_char_step by assumption. cbn [quad_pos leftchar a2b_data push].
  repeat match goal with E : _ = _ |- _ => rewrite E end.
  reflexivity.
Qed.

Lemma a2b_loop_b64encode_bounded (n : nat) :
  forall (bs : list byte) (st : a2b_state) (out : list byte),
    List.length bs <= n -> quad_pos st = 0 ->
    a2b_loop (b64encode bs) st out = Ok (rev out ++ bs).
Proof.
  induction n as [n IH] using lt_wf_ind.
  intros bs st out Hlen Hq.
  destruct bs as [|a [|b [|c rest]]].
  - cbn [b64encode a2b_loop]. rewrite Hq. cbn. now rewrite app_nil_r.
  - rewrite a2b_loop_tail1 by assumption. reflexivity.
  - rewrite a2b_loop_tail2 by assumption. cbn [rev].
    rewrite <- !app_assoc. reflexivity.
  - cbn [b64encode]. rewrite a2b_loop_group by assumption.
    cbn [List.length] in Hlen.
    rewrite (IH (List.length rest)); [| lia | lia | reflexivity].
    cbn [rev]. rewrite <- !app_assoc. reflexivity.
Qed.

Lemma plain_good_char (v : N) : good_char v = true -> plain (b2a v) = true.
Proof.
  intros H. unfold plain.
  rewrite (good_char_ascii _ H), (good_char_not_semicolon _ H). reflexivity.
Qed.

Lemma b64encode_plain_bounded (n : nat) :
  forall bs : list byte, List.length bs <= n ->
    PyStr.forallb plain (b64encode bs) = true.
Proof.
  induction n as [n IH] using lt_wf_ind.
  intros bs Hlen.
  destruct bs as [|a [|b [|c rest]]].
  - reflexivity.
  - good_pair_facts a x00. cbn [b64encode PyStr.forallb].
    rewrite !plain_good_char by assumption. reflexivity.
  - good_pair_facts a b. good_pair_facts b x00. cbn [b64encode PyStr.forallb].
    rewrite !plain_good_char by assumption. reflexivity.
  - good_pair_facts a b. good_pair_facts b c. good_pair_facts c c.
    cbn [b64encode PyStr.forallb].
    rewrite !plain_good_char by assumption.
    cbn [List.length] in Hlen.
    rewrite (IH (List.length rest)); [reflexivity | lia | lia].
Qed.

Lemma forallb_weaken (p q : ascii -> bool) (s : string) :
  (forall c, p c = true -> q c = true) ->
  PyStr.forallb p s = true -> PyStr.forallb q s = true.
Proof.
  intros Hpq. induction s as [|c s IH]; cbn; [reflexivity|].
  rewrite !andb_true_iff. intros [Hc Hs]. split; auto.
Qed.

(** Decoding inverts the standard encoding. *)
Lemma b64decode_b64encode (bs : list byte) : b64decode (b64encode bs) = Ok bs.
Proof.
  unfold b64decode.
  rewrite (forallb_weaken plain is_ascii).
  - unfold a2b_base64.
    rewrite (a2b_loop_b64encode_bounded (List.length bs)); auto.
  - intros c. unfold plain. rewrite andb_true_iff. tauto.
  - apply (b64encode_plain_bounded (List.length bs)). lia.
Qed.

End Base64Facts.

(** ** Splitting strings *)

Module PyStrFacts.
Import PyStr.
Local Open Scope string_scope.

Lemma append_nil_r (s : string) : s ++ EmptyString = s.
Proof. induction s as [|c s IH]; cbn; [reflexivity | now rewrite IH]. Qed.

Lemma append_assoc (a b c : string) : (a ++ b) ++ c = a ++ (b ++ c).
Proof. induction a as [|x a IH]; cbn; [reflexivity | now rewrite IH]. Qed.

Lemma forallb_app (p : ascii -> bool) (a b : string) :
  forallb p (a ++ b) = forallb p a && forallb p b.
Proof.
  induction a as [|x a IH]; cbn; [reflexivity|].
  now rewrite IH, andb_assoc.
Qed.

Lemma prefix_app (sep rest : string) : prefix sep (sep ++ rest) = true.
Proof.
  induction sep as [|c sep IH]; cbn.
  - destruct rest; reflexivity.
  - destruct (ascii_dec c c) as [_|N]; [exact IH | contradiction].
Qed.

Lemma prefix_other_head (c0 c : ascii) (sep' s : string) :
  Ascii.eqb c c0 = false -> prefix (String c0 sep') (String c s) = false.
Proof.
  intros H. cbn. destruct (ascii_dec c0 c) as [E|_]; [|reflexivity].
  subst. now rewrite Ascii.eqb_refl in H.
Qed.

(** The rest of a matched separator is passed over. *)
Lemma split_go_skip (sep a rest cur : string) :
  split_go sep (a ++ rest) (String.length a) cur = split_go sep rest 0 cur.
Proof.
  induction a as [|c a IH]; cbn; [reflexivity | exact IH].
Qed.

(** A string without the separator is not cut. *)
Lemma split_go_none (sep : string) :
  forall s cur, contains sep s = false -> split_go sep s 0 cur = [cur ++ s].
Proof.
  induction s as [|c s IH]; intros cur H.
  - cbn. now rewrite append_nil_r.
  - cbn [contains] in H. apply orb_false_iff in H. destruct H as [Hp Hc].
    cbn [split_go]. rewrite Hp, IH by assumption.
    now rewrite append_assoc.
Qed.

Lemma lacks_contains (c0 : ascii) (sep' : string) :
  forall s, lacks c0 s = true -> contains (String c0 sep') s = false.
Proof.
  induction s as [|c s IH]; intros H.
  - reflexivity.
  - unfold lacks in H. cbn [forallb] in H.
    apply andb_true_iff in H. destruct H as [Hc Hs].
    apply negb_true_iff in Hc.
    cbn [contains]. rewrite (prefix_other_head _ _ _ _ Hc).
    now apply IH.
Qed.


Lemma split_go_first (c0 : ascii) (sep' rest : string) :
  forall pre cur, lacks c0 pre = true ->
    split_go (String c0 sep') (pre ++ String c0 sep' ++ rest) 0 cur
    = (cur ++ pre) :: split_go (String c0 sep') rest 0 EmptyString.
Proof.
  induction pre as [|c pre IH]; intros cur H.
  - rewrite append_nil_r.
    change (EmptyString ++ String c0 sep' ++ rest)
      with (String c0 (sep' ++ rest)).
    cbn [split_go].
    change (String c0 (sep' ++ rest)) with (String c0 sep' ++ rest) at 1.
    rewrite prefix_app.
    cbn [String.length]. replace (S (String.length sep') - 1) with (String.length sep') by lia.
    now rewrite split_go_skip.
  - unfold lacks in H. cbn [forallb] in H.
    apply andb_true_iff in H. destruct H as [Hc Hs].
    apply negb_true_iff in Hc.
    change (String c pre ++ String c0 sep' ++ rest)
      with (String c (pre ++ String c0 sep' ++ rest)).
    cbn [split_go]. rewrite (prefix_other_head _ _ _ _ Hc).
    rewrite IH by exact Hs. now rewrite append_assoc.
Qed.

Lemma split_once (c0 : ascii) (sep' pre rest : string) :
  lacks c0 pre = true -> contains (String c0 sep') rest = false ->
  split (String c0 sep') (pre ++ String c0 sep' ++ rest) = [pre; rest].
Proof.
  intros Hpre Hrest. unfold split.
  rewrite split_go_first by assumption.
  now rewrite split_go_none by assumption.
Qed.

Lemma split_absent (sep s : string) :
  contains sep s = false -> split sep s = [s].
Proof. intros H. unfold split. now rewrite split_go_none. Qed.

Lemma lacks_app (c : ascii) (a b : string) :
  lacks c (a ++ b) = lacks c a && lacks c b.
Proof. apply forallb_app. Qed.

End PyStrFacts.


(** ** Base64ImageField *)

Section ImageFieldFacts.
Context {fw : Framework}.
Import PyStr PyStrFacts Base64 Base64Facts.
Local Open Scope string_scope.

Lemma b64encode_length (n : nat) :
  forall bs : list byte, List.length bs <= n ->
    exists k, String.length (b64encode bs) = 4 * k.
Proof.
  induction n as [n IH] using lt_wf_ind.
  intros bs Hlen.
  destruct bs as [|a [|b [|c rest]]].
  - exists 0. reflexivity.
  - exists 1. reflexivity.
  - exists 1. reflexivity.
  - cbn [List.length] in Hlen.
    destruct (IH (List.length rest) ltac:(lia) rest (le_n _)) as [k Hk].
    exists (S k). cbn [b64encode String.length]. rewrite Hk. lia.
Qed.

Lemma b64encode_lacks_semicolon (bs : list byte) :
  lacks ";" (b64encode bs) = true.
Proof.
  apply (forallb_weaken plain).
  - intros c. unfold plain. rewrite andb_true_iff. tauto.
  - apply (b64encode_plain_bounded (List.length bs)). lia.
Qed.

Lemma split_data_uri (pre payload : string) :
  lacks ";" pre = true -> contains ";base64," payload = false ->
  split ";base64," (pre ++ ";base64," ++ payload) = [pre; payload].
Proof. apply split_once. Qed.

Lemma split_format (ext : string) :
  lacks "/" ext = true ->
  last_item (split "/" ("data:image/" ++ ext)) = ext.
Proof.
  intros H.
  change ("data:image/" ++ ext) with ("data:image" ++ "/" ++ ext).
  rewrite split_once; [reflexivity | reflexivity |].
  now apply lacks_contains.
Qed.

Lemma to_internal_value_passes_through (data : pyobj) :
  is_data_image data = false ->
  Base64ImageField_to_internal_value data = ImageField_to_internal_value data.
Proof.
  destruct data; cbn; try reflexivity.
  intros H. now rewrite H.
Qed.

(** C4. A string [data:image/<ext>;base64,<payload>] whose payload is
    the base64 encoding of the bytes [bs], with [<ext>] a media
    subtype (no slash, no semicolon), is handed to the parent field as
    a file named [temp.<ext>] whose content is [bs]; an input that is
    not a string starting with [data:image] is handed to the parent
    field as it is. *)
Theorem Base64ImageField_decodes_data_uri
    (ext : string) (bs : list byte) (data : pyobj) :
  lacks "/" ext = true ->
  lacks ";" ext = true ->
  is_data_image data = false ->
  Base64ImageField_to_internal_value
    (PyStr ("data:image/" ++ ext ++ ";base64," ++ b64encode bs))
  = ImageField_to_internal_value (PyFile (mkFile ("temp." ++ ext) bs))
  /\ Base64ImageField_to_internal_value data = ImageField_to_internal_value data.
Proof.
  intros Hslash Hsemi Hdata. split.
  - unfold Base64ImageField_to_internal_value.
    replace (startswith ("data:image/" ++ ext ++ ";base64," ++ b64encode bs)
               "data:image") with true by reflexivity.
    rewrite <- (append_assoc "data:image/" ext).
    rewrite split_data_uri.
    + rewrite split_format by assumption.
      rewrite b64decode_b64encode. reflexivity.
    + rewrite lacks_app. now rewrite Hsemi.
    + apply lacks_contains, b64encode_lacks_semicolon.
  - now apply to_internal_value_passes_through.
Qed.


Lemma a2b_data_quad_pos (qp : nat) (lc v : N) :
  qp < 4 ->
  exists st emit, a2b_data qp lc v = Continue st emit
                  /\ quad_pos st = (qp + 1) mod 4.
Proof.
  intros H.
  destruct qp as [|[|[|[|qp]]]]; cbn; try lia; eauto.
Qed.

(** Without padding, input whose alphabet characters do not fill whole
    quads is rejected. *)
Lemma a2b_loop_unpadded :
  forall (s : string) (st : a2b_state) (out : list byte),
    lacks BASE64_PAD s = true ->
    quad_pos st < 4 ->
    (quad_pos st + data_chars s) mod 4 <> 0 ->
    a2b_loop s st out = Raise BinasciiError.
Proof.
  induction s as [|c s IH]; intros st out Hpad Hq Hn.
  - cbn [a2b_loop]. cbn [data_chars] in Hn.
    destruct (quad_pos st =? 0)%nat eqn:E; [|reflexivity].
    apply Nat.eqb_eq in E. rewrite E in Hn. now cbn in Hn.
  - unfold lacks in Hpad. cbn [forallb] in Hpad.
    apply andb_true_iff in Hpad. destruct Hpad as [Hc Hs].
    apply negb_true_iff in Hc.
    cbn [a2b_loop data_chars] in *. unfold a2b_step. rewrite Hc.
    destruct (64 <=? table_a2b_base64 c)%N eqn:E.
    + assert (L : (table_a2b_base64 c <? 64)%N = false).
      { apply N.ltb_ge. now apply N.leb_le. }
      rewrite L in Hn. now apply IH.
    + assert (L : (table_a2b_base64 c <? 64)%N = true).
      { apply N.ltb_lt. apply N.leb_gt in E. exact E. }
      rewrite L in Hn.
      destruct (a2b_data_quad_pos (quad_pos st) (leftchar st)
                  (table_a2b_base64 c) Hq) as (st' & emit & Hd & Hq').
      rewrite Hd. apply IH; [exact Hs | |].
      * rewrite Hq'. apply Nat.mod_upper_bound. lia.
      * rewrite Hq'. intros Hz. apply Hn.
        rewrite Nat.Div0.add_mod_idemp_l in Hz.
        now replace (quad_pos st + S (data_chars s))
          with (quad_pos st + 1 + data_chars s) by lia.
Qed.

Lemma startswith_app (p s t : string) :
  startswith s p = true -> startswith (s ++ t) p = true.
Proof.
  unfold startswith. revert s.
  induction p as [|c p IH]; intros s H.
  - destruct (s ++ t); reflexivity.
  - destruct s as [|c' s]; cbn in H; [discriminate|].
    cbn. destruct (ascii_dec c c'); [now apply IH | discriminate].
Qed.

Lemma b64decode_fails (payload : string) :
  forallb is_ascii payload = false
  \/ lacks BASE64_PAD payload = true /\ data_chars payload mod 4 <> 0 ->
  b64decode payload
  = Raise (if forallb is_ascii payload then BinasciiError else ValueError).
Proof.
  unfold b64decode. intros [H | [Hpad Hn]].
  - now rewrite H.
  - destruct (forallb is_ascii payload); [|reflexivity].
    unfold a2b_base64. apply a2b_loop_unpadded; cbn [quad_pos];
      [assumption | lia | exact Hn].
Qed.

(** C5. For a string that starts with [data:image]: without the
    separator [;base64,] decoding raises [ValueError]; with the
    separator once and a payload that has a non-ASCII character
    ([ValueError]) or, having no pad character, a number of alphabet
    characters that is not a multiple of four ([binascii.Error]),
    decoding raises that error. Nothing is said of other payloads: the
    decoder passes over characters outside the alphabet. *)
Theorem Base64ImageField_decoding_errors (s pre payload : string) :
  startswith s "data:image" = true ->
  contains ";base64," s = false ->
  startswith pre "data:image" = true ->
  lacks ";" pre = true ->
  contains ";base64," payload = false ->
  forallb is_ascii payload = false
  \/ lacks BASE64_PAD payload = true /\ data_chars payload mod 4 <> 0 ->
  Base64ImageField_to_internal_value (PyStr s) = Raise ValueError
  /\ Base64ImageField_to_internal_value (PyStr (pre ++ ";base64," ++ payload))
     = Raise (if forallb is_ascii payload then BinasciiError else ValueError).
Proof.
  intros Hs Hnone Hpre Hsemi Honce Hbad. split.
  - unfold Base64ImageField_to_internal_value.
    rewrite Hs, split_absent by assumption. reflexivity.
  - unfold Base64ImageField_to_internal_value.
    rewrite startswith_app by assumption.
    rewrite split_data_uri by assumption.
    rewrite b64decode_fails by assumption. reflexivity.
Qed.

End ImageFieldFacts.


(** ** The image field on concrete inputs *)

Section ImageFieldExamples.
#[local] Existing Instance Sample.framework.

Lemma Base64ImageField_decodes_data_uri_witness :
PyStr.lacks "/" "png" = true
/\ PyStr.lacks ";" "png" = true
/\ is_data_image (PyFile (mkFile "photo.jpg" ["J"%byte])) = false
/\ (Base64ImageField_to_internal_value
      (PyStr ("data:image/" ++ "png" ++ ";base64,"
              ++ Base64.b64encode ["A"%byte; "B"%byte; "C"%byte]))
    = ImageField_to_internal_value
        (PyFile (mkFile ("temp." ++ "png") ["A"%byte; "B"%byte; "C"%byte]))
    /\ Base64ImageField_to_internal_value
         (PyFile (mkFile "photo.jpg" ["J"%byte]))
       = ImageField_to_internal_value (PyFile (mkFile "photo.jpg" ["J"%byte]))).
Proof.
split; [reflexivity|]. split; [reflexivity|]. split; [reflexivity|].
apply (Base64ImageField_decodes_data_uri
         "png" ["A"%byte; "B"%byte; "C"%byte]
         (PyFile (mkFile "photo.jpg" ["J"%byte]))); reflexivity.
Defined.

Lemma Base64ImageField_decoding_errors_witness :
PyStr.startswith "data:image/png" "data:image" = true
/\ PyStr.contains ";base64," "data:image/png" = false
/\ PyStr.startswith "data:image/png" "data:image" = true
/\ PyStr.lacks ";" "data:image/png" = true
/\ PyStr.contains ";base64," "QUJDR" = false
/\ (PyStr.forallb Base64.is_ascii "QUJDR" = false
    \/ PyStr.lacks Base64.BASE64_PAD "QUJDR" = true
       /\ Base64.data_chars "QUJDR" mod 4 <> 0)
/\ (Base64ImageField_to_internal_value
      (PyStr "data:image/png") = Raise ValueError
    /\ Base64ImageField_to_internal_value
         (PyStr ("data:image/png" ++ ";base64," ++ "QUJDR"))
       = Raise (if PyStr.forallb Base64.is_ascii "QUJDR"
                then BinasciiError else ValueError)).
Proof.
assert (Hbad : PyStr.forallb Base64.is_ascii "QUJDR" = false
               \/ PyStr.lacks Base64.BASE64_PAD "QUJDR" = true
                  /\ Base64.data_chars "QUJDR" mod 4 <> 0).
{ right. split; [reflexivity | cbn; lia]. }
split; [reflexivity|]. split; [reflexivity|]. split; [reflexivity|].
split; [reflexivity|]. split; [reflexivity|]. split; [exact Hbad|].
apply (Base64ImageField_decoding_errors
         "data:image/png" "data:image/png" "QUJDR");
  solve [reflexivity | exact Hbad].
Defined.

(** C5 as stated fails: the payload [QUJD!] is not the base64 encoding of
  anything, yet the string is decoded, to the bytes [ABC], and no
  error is raised. *)
Lemma Base64ImageField_accepts_invalid_base64 :
PyStr.startswith "data:image/png;base64,QUJD!" "data:image" = true
/\ ~ Base64.valid_b64 "QUJD!"
/\ Base64ImageField_to_internal_value
     (PyStr "data:image/png;base64,QUJD!")
   = Ok (VFile (mkFile "temp.png" ["A"%byte; "B"%byte; "C"%byte])).
Proof.
split; [reflexivity|]. split; [|reflexivity].
intros [bs H].
destruct (b64encode_length (List.length bs) bs (le_n _)) as [k Hk].
rewrite <- H in Hk. cbn in Hk. lia.
Qed.

End ImageFieldExamples.


(** ** UserMeSerializer *)

Section UserFacts.
Context {fw : Framework}.

(** C6. Rendering a user through [UserMeSerializer] for an anonymous
    requester raises [NotAuthenticated]; no representation, partial or
    whole, is returned. *)
Theorem UserMeSerializer_anonymous_denied
    (context : Context) (request : Request) (instance : Z) :
  context_request context = Some request ->
  is_authenticated (request_user request) = false ->
  UserMeSerializer_to_representation context instance = Raise NotAuthenticated
  /\ forall repr, UserMeSerializer_to_representation context instance <> Ok repr.
Proof.
  intros Hreq Hanon.
  assert (E : UserMeSerializer_to_representation context instance
              = Raise NotAuthenticated).
  { unfold UserMeSerializer_to_representation. now rewrite Hreq, Hanon. }
  split; [exact E | intros repr H; rewrite E in H; discriminate].
Qed.

End UserFacts.

(** ** Dictionaries *)

Module DictFacts.
Section Facts.
Context {V : Type}.
Implicit Types (d : list (string * V)) (k : string) (v : V).

Lemma get_remove_other k k' d :
  k <> k' -> Dict.get k (Dict.remove k' d) = Dict.get k d.
Proof.
  intros Hne. induction d as [|[k0 v0] d IH]; cbn; [reflexivity|].
  destruct (String.eqb_spec k' k0) as [E|N].
  - subst k0. rewrite IH.
    destruct (String.eqb_spec k k') as [E'|_]; [contradiction | reflexivity].
  - cbn. now rewrite IH.
Qed.

Lemma get_remove_same k d : Dict.get k (Dict.remove k d) = None.
Proof.
  induction d as [|[k0 v0] d IH]; cbn; [reflexivity|].
  destruct (String.eqb_spec k k0) as [E|N]; [exact IH|].
  cbn. destruct (String.eqb_spec k k0); [contradiction | exact IH].
Qed.

Lemma get_set_same k v d : Dict.get k (Dict.set k v d) = Some v.
Proof.
  induction d as [|[k0 v0] d IH]; cbn.
  - now rewrite String.eqb_refl.
  - destruct (String.eqb_spec k k0) as [E|N]; cbn.
    + now rewrite String.eqb_refl.
    + destruct (String.eqb_spec k k0); [contradiction | exact IH].
Qed.

Lemma get_set_other k k' v d :
  k <> k' -> Dict.get k (Dict.set k' v d) = Dict.get k d.
Proof.
  intros Hne. induction d as [|[k0 v0] d IH]; cbn.
  - destruct (String.eqb_spec k k'); [contradiction | reflexivity].
  - destruct (String.eqb_spec k' k0) as [E|N]; cbn.
    + subst k0.
      destruct (String.eqb_spec k k'); [contradiction|].
      now apply get_remove_other.
    + destruct (String.eqb_spec k k0); [reflexivity | exact IH].
Qed.

Lemma pop_none k d : Dict.get k d = None -> Dict.pop k d = Raise (KeyError k).
Proof. intros H. unfold Dict.pop. now rewrite H. Qed.

Lemma pop_some k v d :
  Dict.get k d = Some v -> Dict.pop k d = Ok (v, Dict.remove k d).
Proof. intros H. unfold Dict.pop. now rewrite H. Qed.

End Facts.
End DictFacts.


(** ** The field loop *)

Section LoopFacts.
Context {fw : Framework}.
Import DictFacts.

(** Once a field has failed, the loop cannot end well, and a
    [ValidationError] it ends with names every field collected so
    far. *)
Lemma run_fields_after_failure (fields : list Field) (data : list (string * pyobj)) :
  forall ret errors, errors <> [] ->
    exists e, run_fields fields data ret errors = Raise e
              /\ forall errs, e = ValidationError errs -> incl errors errs.
Proof.
  induction fields as [|f fs IH]; intros ret errors Hne.
  - cbn. destruct errors as [|x errors]; [contradiction|].
    eexists. split; [reflexivity|]. intros errs E. injection E as <-.
    apply incl_refl.
  - cbn. destruct (run_field f data) as [[v|]|e].
    + now apply IH.
    + now apply IH.
    + destruct (is_validation_error e) eqn:Ev.
      * destruct (IH ret (errors ++ [field_name f])) as (e' & He' & Hin).
        { destruct errors; discriminate. }
        exists e'. split; [exact He'|]. intros errs E.
        intros x Hx. apply (Hin errs E). apply in_or_app. now left.
      * exists e. split; [reflexivity|]. intros errs E. subst e. discriminate.
Qed.

(** A failing field makes the whole loop fail; a [ValidationError] at
    the end names that field. *)
Lemma run_fields_with_failure (fields : list Field) (data : list (string * pyobj))
    (f : Field) (e0 : exn) :
  In f fields -> run_field f data = Raise e0 ->
  forall ret errors,
    exists e, run_fields fields data ret errors = Raise e
              /\ forall errs, e = ValidationError errs -> In (field_name f) errs.
Proof.
  intros Hin Hf. induction fields as [|g gs IH]; [contradiction|].
  intros ret errors. destruct Hin as [-> | Hin].
  - cbn. rewrite Hf. destruct (is_validation_error e0) eqn:Ev.
    + destruct (run_fields_after_failure gs data ret (errors ++ [field_name f]))
        as (e & He & Hincl).
      { destruct errors; discriminate. }
      exists e. split; [exact He|]. intros errs E.
      apply (Hincl errs E). apply in_or_app. right. now left.
    + exists e0. split; [reflexivity|]. intros errs E. subst e0. discriminate.
  - cbn. destruct (run_field g data) as [[v|]|e].
    + now apply IH.
    + now apply IH.
    + destruct (is_validation_error e) eqn:Ev.
      * now apply IH.
      * exists e. split; [reflexivity|]. intros errs E. subst e. discriminate.
Qed.

(** When no field raises anything but validation failures, the loop ends
    with a value or with a [ValidationError]. *)
Lemma run_fields_quiet (fields : list Field) (data : list (string * pyobj)) :
  Forall (fun f => uncaught (run_field f data) = false) fields ->
  forall ret errors,
    (exists vd, run_fields fields data ret errors = Ok vd)
    \/ (exists errs, run_fields fields data ret errors = Raise (ValidationError errs)).
Proof.
  induction 1 as [|f fs Hf _ IH]; intros ret errors.
  - cbn. destruct errors; eauto.
  - cbn. destruct (run_field f data) as [[v|]|e]; try apply IH.
    cbn in Hf. apply negb_false_iff in Hf. rewrite Hf. apply IH.
Qed.

End LoopFacts.


(** ** Deserialising a recipe payload *)

Section RecipeValidationFacts.
Context {fw : Framework}.
Import DictFacts.

(** The payload that reaches the field loop. *)
Lemma to_internal_value_with_tags (image_required : bool) (store : Store)
    (data : list (string * pyobj)) (tags : pyobj) :
  Dict.get "tags" data = Some tags ->
  to_internal_value image_required store data
  = bind (py_iter tags) (fun items =>
      Serializer_to_internal_value (writable_fields image_required store)
        (Dict.set "tags" (PyList (map wrap_tag items)) (Dict.remove "tags" data))).
Proof.
  intros H. unfold to_internal_value. now rewrite (pop_some _ _ _ H).
Qed.

(** C10. A payload without the key [tags] makes deserialisation raise
    [KeyError], whatever the other fields hold and however the fields
    would validate them; the error is not a validation error, and a
    creation request ends with it, the store untouched. *)
Theorem to_internal_value_missing_tags
    (image_required : bool) (context : Context) (store : Store)
    (data : list (string * pyobj)) :
  Dict.get "tags" data = None ->
  to_internal_value image_required store data = Raise (KeyError "tags")
  /\ is_validation_error (KeyError "tags") = false
  /\ perform_create context data store = (Raise (KeyError "tags"), store).
Proof.
  intros H.
  assert (E : forall b, to_internal_value b store data = Raise (KeyError "tags")).
  { intros b. unfold to_internal_value. now rewrite (pop_none _ _ H). }
  split; [apply E|]. split; [reflexivity|].
  unfold perform_create, RecipeCreateSerializer_to_internal_value.
  now rewrite E.
Qed.

Lemma list_items_ok {A} (child : pyobj -> outcome A) (items : list pyobj) :
  forall (ret : list A) (failed : bool) (l : list A),
    list_items child items ret failed = Ok l
    <-> failed = false
        /\ exists l', l = ret ++ l' /\ Forall2 (fun i a => child i = Ok a) items l'.
Proof.
  induction items as [|i items IH]; intros ret failed l; cbn.
  - split.
    + destruct failed; [discriminate|]. intros E. injection E as <-.
      split; [reflexivity|]. exists []. now rewrite app_nil_r.
    + intros [-> (l' & -> & HF)]. inversion HF. now rewrite app_nil_r.
  - destruct (child i) as [a|e] eqn:Hc.
    + rewrite IH. split.
      * intros [-> (l' & -> & HF)]. split; [reflexivity|].
        exists (a :: l'). rewrite <- app_assoc. split; [reflexivity|].
        now constructor.
      * intros [-> (l' & -> & HF)]. split; [reflexivity|].
        inversion HF as [|? b ? l'' Hb HF']; subst.
        rewrite Hc in Hb. injection Hb as <-.
        exists l''. now rewrite <- app_assoc.
    + split.
      * destruct (is_validation_error e); [|discriminate].
        rewrite IH. intros [? _]. discriminate.
      * intros [-> (l' & -> & HF)].
        inversion HF as [|? b ? l'' Hb HF']; subst.
        rewrite Hc in Hb. discriminate.
Qed.

Lemma TagsInRecipeSerializer_wrapped (store : Store) (v : pyobj) (t : Tag) :
  TagsInRecipeSerializer_run_validation store (wrap_tag v) = Ok t
  <-> PrimaryKeyRelatedField_run_validation tag_id (tags store) (Some v)
      = Ok (Some t).
Proof.
  unfold TagsInRecipeSerializer_run_validation, wrap_tag.
  cbn [Dict.get String.eqb Ascii.eqb Bool.eqb].
  destruct (PrimaryKeyRelatedField_run_validation tag_id (tags store) (Some v))
    as [[t'|]|e]; cbn.
  - split; intros E; injection E as <-; reflexivity.
  - split; discriminate.
  - split; [destruct (is_validation_error e)|]; discriminate.
Qed.

Lemma pk_get_in {R} (pk : R -> Z) (queryset : list R) (z : Z) (r : R) :
  pk_get pk queryset z = Ok r -> In r queryset /\ pk r = z.
Proof.
  unfold pk_get. destruct (find _ queryset) as [r'|] eqn:F;
    [|destruct (database_holds z); discriminate].
  intros E. injection E as <-. apply find_some in F.
  destruct F as [Hin Hpk]. split; [exact Hin | now apply Z.eqb_eq].
Qed.

Lemma PrimaryKeyRelatedField_row {R} (pk : R -> Z) (queryset : list R)
    (data : option pyobj) (r : R) :
  PrimaryKeyRelatedField_run_validation pk queryset data = Ok (Some r) ->
  In r queryset.
Proof.
  unfold PrimaryKeyRelatedField_run_validation, run_validation_with,
    PrimaryKeyRelatedField_to_internal_value.
  destruct data as [[| | z | s | | |]|]; try discriminate.
  - destruct (pk_get pk queryset z) eqn:G; [|discriminate].
    cbn. intros E. injection E as <-. now apply pk_get_in in G.
  - destruct s; [discriminate|].
    destruct (py_int _); [|discriminate].
    destruct (pk_get pk queryset z) eqn:G; [|discriminate].
    cbn. intros E. injection E as <-. now apply pk_get_in in G.
Qed.

Lemma Forall2_in_left {A B} (R : A -> B -> Prop) (l : list A) (l' : list B) (x : A) :
  Forall2 R l l' -> In x l -> exists y, R x y.
Proof.
  induction 1 as [|a b l l' Hab _ IH]; [contradiction|].
  intros [<- | Hin]; eauto.
Qed.


Lemma list_items_with_failure {A} (child : pyobj -> outcome A)
    (items : list pyobj) (item : pyobj) (e0 : exn) (ret : list A) (failed : bool) :
  In item items -> child item = Raise e0 ->
  exists e, list_items child items ret failed = Raise e.
Proof.
  intros Hin Hc.
  destruct (list_items child items ret failed) as [l|e] eqn:L; [|eauto].
  apply list_items_ok in L. destruct L as [_ (l' & _ & HF)].
  destruct (Forall2_in_left _ _ _ _ HF Hin) as [a Ha].
  rewrite Hc in Ha. discriminate.
Qed.


Lemma find_absent {R} (pk : R -> Z) (queryset : list R) (z : Z) :
  (forall r, In r queryset -> pk r <> z) ->
  find (fun r => Z.eqb (pk r) z) queryset = None.
Proof.
  intros H. destruct (find _ queryset) as [r|] eqn:F; [|reflexivity].
  apply find_some in F. destruct F as [Hin E]. apply Z.eqb_eq in E.
  now destruct (H r Hin).
Qed.


Lemma unknown_tag_rejected (s : Store) (z : Z) :
  (forall t, In t (tags s) -> tag_id t <> z) ->
  TagsInRecipeSerializer_run_validation s (wrap_tag (PyInt z))
  = Raise (if database_holds z then ValidationError ["id"] else OverflowError).
Proof.
  intros H. unfold TagsInRecipeSerializer_run_validation, wrap_tag.
  cbn [Dict.get String.eqb Ascii.eqb Bool.eqb].
  unfold PrimaryKeyRelatedField_run_validation, run_validation_with,
    PrimaryKeyRelatedField_to_internal_value, pk_get.
  rewrite (find_absent _ _ _ H). now destruct (database_holds z).
Qed.

Lemma ingredients_field_rejects_empty (store : Store) (data : list (string * pyobj)) :
  Dict.get "ingredients" data = Some (PyList []) ->
  run_field (ingredients_field store) data = Raise (ValidationError ["invalid"]).
Proof.
  intros H. unfold run_field, ingredients_field.
  cbn [field_name run_validation validate_method]. now rewrite H.
Qed.

Lemma ingredients_field_listed (image_required : bool) (store : Store) :
  In (ingredients_field store) (writable_fields image_required store).
Proof. right. now left. Qed.

(** C2. A creation request whose ingredient list is empty fails and
    leaves the store as it was, so no Recipe row is written. When the
    payload has a list under [tags] and no field raises anything but a
    validation failure, the failure is a validation error that names
    [ingredients]. *)
Theorem perform_create_rejects_empty_ingredients
    (context : Context) (store : Store) (data : list (string * pyobj)) :
  Dict.get "ingredients" data = Some (PyList []) ->
  (exists e, perform_create context data store = (Raise e, store))
  /\ (forall ts,
        Dict.get "tags" data = Some (PyList ts) ->
        Forall (fun f =>
                  uncaught (run_field f
                    (Dict.set "tags" (PyList (map wrap_tag ts))
                       (Dict.remove "tags" data))) = false)
               (writable_fields true store) ->
        exists errs,
          perform_create context data store = (Raise (ValidationError errs), store)
          /\ In "ingredients" errs).
Proof.
  intros Hing.
  assert (Hfail : forall items,
            exists e,
              Serializer_to_internal_value (writable_fields true store)
                (Dict.set "tags" (PyList (map wrap_tag items))
                   (Dict.remove "tags" data)) = Raise e
              /\ forall errs, e = ValidationError errs -> In "ingredients" errs).
  { intros items. unfold Serializer_to_internal_value.
    apply (run_fields_with_failure _ _ (ingredients_field store)
             (ValidationError ["invalid"])).
    - apply ingredients_field_listed.
    - apply ingredients_field_rejects_empty.
      rewrite get_set_other by discriminate.
      rewrite get_remove_other by discriminate. exact Hing. }
  split.
  - unfold perform_create, RecipeCreateSerializer_to_internal_value.
    destruct (Dict.get "tags" data) as [tags|] eqn:Ht.
    + rewrite (to_internal_value_with_tags _ _ _ _ Ht).
      destruct (py_iter tags) as [items|e]; cbn [bind]; [|eauto].
      destruct (Hfail items) as (e & -> & _). eauto.
    + unfold to_internal_value. rewrite (pop_none _ _ Ht). cbn. eauto.
  - intros ts Ht Hquiet.
    unfold perform_create, RecipeCreateSerializer_to_internal_value.
    rewrite (to_internal_value_with_tags _ _ _ _ Ht). cbn [py_iter bind].
    destruct (Hfail ts) as (e & He & Hin).
    destruct (run_fields_quiet _ _ Hquiet [] []) as [[vd Hv] | [errs Hv]];
      unfold Serializer_to_internal_value in He; rewrite He in Hv;
      [discriminate|].
    injection Hv as ->. unfold Serializer_to_internal_value.
    rewrite He. exists errs. split; [reflexivity | now apply Hin].
Qed.

End RecipeValidationFacts.


(** ** Updating a recipe *)

Section UpdateFacts.
Context {fw : Framework}.
Import DictFacts.

Lemma list_items_all_invalid {A} (child : pyobj -> outcome A) (items : list pyobj) :
  Forall (fun i => exists e, child i = Raise e /\ is_validation_error e = true)
         items ->
  forall ret failed, items <> [] \/ failed = true ->
    list_items child items ret failed = Raise (ValidationError ["items"]).
Proof.
  induction 1 as [|i items (e & Hi & He) _ IH]; intros ret failed Hor.
  - destruct Hor as [N | ->]; [contradiction | reflexivity].
  - cbn. rewrite Hi, He. apply IH. now right.
Qed.

Lemma rendered_tag_is_no_key (store : Store) (t : Tag) :
  TagsInRecipeSerializer_run_validation store
    (wrap_tag (TagsInRecipeSerializer_to_representation t))
  = Raise (ValidationError ["id"]).
Proof. reflexivity. Qed.

Lemma tags_field_rejects_rendered (store : Store) (data : list (string * pyobj))
    (rendered : list Tag) :
  rendered <> [] ->
  Dict.get "tags" data
  = Some (PyList (map wrap_tag
                    (map TagsInRecipeSerializer_to_representation rendered))) ->
  run_field (tags_field store) data = Raise (ValidationError ["items"]).
Proof.
  intros Hne H. unfold run_field, tags_field.
  cbn [field_name run_validation validate_method]. rewrite H.
  cbn [run_validation_with ListSerializer_to_internal_value].
  rewrite list_items_all_invalid; [reflexivity | |].
  - rewrite map_map. apply Forall_forall. intros i Hi.
    apply in_map_iff in Hi. destruct Hi as (t & <- & _).
    rewrite rendered_tag_is_no_key. eauto.
  - left. destruct rendered; [contradiction | discriminate].
Qed.

Lemma to_representation_tags (context : Context) (s : Store) (r : Recipe)
    (repr : list (string * pyobj)) :
  to_representation context s r = Ok repr ->
  Dict.get "tags" repr
  = Some (PyList (map TagsInRecipeSerializer_to_representation (recipe_tags s r))).
Proof.
  unfold to_representation.
  destruct (UserMeSerializer_to_representation context (recipe_author r));
    cbn [bind]; [|discriminate].
  intros E. injection E as <-. reflexivity.
Qed.

(** C7. A recipe with at least one tag cannot be written back from its
    own representation: the update request that re-submits the
    representation fails and leaves the store as it was, and when the
    failure is a validation error it names [tags], whose rendered objects
    are not accepted where bare identifiers are expected. *)
Theorem resubmitted_representation_rejected
    (context : Context) (s : Store) (r : Recipe) (repr : list (string * pyobj)) :
  recipe_tags s r <> [] ->
  to_representation context s r = Ok repr ->
  exists e,
    perform_update r repr s = (Raise e, s)
    /\ forall errs, e = ValidationError errs -> In "tags" errs.
Proof.
  intros Hne Hrepr. apply to_representation_tags in Hrepr.
  unfold perform_update, RecipeUpdateSerializer_to_internal_value.
  rewrite (to_internal_value_with_tags _ _ _ _ Hrepr). cbn [py_iter bind].
  destruct (run_fields_with_failure (writable_fields false s)
              (Dict.set "tags"
                 (PyList (map wrap_tag
                            (map TagsInRecipeSerializer_to_representation
                               (recipe_tags s r))))
                 (Dict.remove "tags" repr))
              (tags_field s) (ValidationError ["items"])
              (or_introl eq_refl)
              (tags_field_rejects_rendered _ _ _ Hne (get_set_same _ _ _))
              [] []) as (e & He & Hin).
  unfold Serializer_to_internal_value. rewrite He. eauto.
Qed.

(** A field that is skipped, or has another name, leaves an entry of the
    validated data as it is. *)
Lemma run_fields_keeps (k : string) (data : list (string * pyobj)) :
  forall (fields : list Field) ret errors vd,
    Forall (fun f => field_name f <> k \/ run_field f data = Ok None) fields ->
    run_fields fields data ret errors = Ok vd ->
    Dict.get k vd = Dict.get k ret.
Proof.
  induction fields as [|f fs IH]; intros ret errors vd HF H.
  - cbn in H. destruct errors; [|discriminate]. now injection H as <-.
  - inversion HF as [|? ? Hf HF']; subst. cbn in H.
    destruct (run_field f data) as [[v|]|e] eqn:Hr.
    + rewrite (IH _ _ _ HF' H).
      destruct Hf as [Hn | Hs]; [|discriminate].
      apply get_set_other. congruence.
    + now apply (IH _ _ _ HF' H).
    + destruct (is_validation_error e); [|discriminate].
      now apply (IH _ _ _ HF' H).
Qed.

Lemma tags_field_value (store : Store) (data : list (string * pyobj)) (items : list pyobj) :
  Dict.get "tags" data = Some (PyList items) ->
  (exists l, run_field (tags_field store) data = Ok (Some (VTags l)))
  \/ (exists e, run_field (tags_field store) data = Raise e).
Proof.
  intros H. unfold run_field, tags_field.
  cbn [field_name run_validation validate_method]. rewrite H.
  cbn [run_validation_with ListSerializer_to_internal_value].
  destruct (list_items _ _ _ _); cbn [bind]; eauto.
Qed.

Lemma run_fields_cons (f : Field) (fs : list Field) (data : list (string * pyobj))
    (ret : list (string * value)) (errors : list string) :
  run_fields (f :: fs) data ret errors
  = match run_field f data with
    | Ok (Some v) => run_fields fs data (Dict.set (field_name f) v ret) errors
    | Ok None => run_fields fs data ret errors
    | Raise e =>
        if is_validation_error e
        then run_fields fs data ret (errors ++ [field_name f])
        else Raise e
    end.
Proof. reflexivity. Qed.

(** Validated data always carries the tags, as a list. *)
Lemma validated_data_has_tags (image_required : bool) (s : Store)
    (data : list (string * pyobj)) (vd : list (string * value)) :
  to_internal_value image_required s data = Ok vd ->
  exists l, Dict.get "tags" vd = Some (VTags l).
Proof.
  unfold to_internal_value.
  destruct (Dict.pop "tags" data) as [[tags data1]|]; cbn [bind]; [|discriminate].
  destruct (py_iter tags) as [items|]; cbn [bind]; [|discriminate].
  unfold Serializer_to_internal_value, writable_fields.
  set (data2 := Dict.set "tags" (PyList (map wrap_tag items)) data1).
  rewrite run_fields_cons.
  destruct (tags_field_value s data2 (map wrap_tag items) (get_set_same _ _ _))
    as [[l Hl] | [e He]].
  - rewrite Hl. intros H. exists l.
    apply (run_fields_keeps "tags") in H.
    + rewrite H. apply get_set_same.
    + repeat (apply Forall_cons; [left; cbn; discriminate|]). apply Forall_nil.
  - rewrite He. destruct (is_validation_error e); [|discriminate].
    intros H.
    destruct (run_fields_after_failure
                [ingredients_field s; recipe_column "is_favorited";
                 recipe_column "is_in_shopping_cart"; recipe_column "name";
                 image_field image_required; recipe_column "text";
                 recipe_column "cooking_time"] data2 []
                ([] ++ [field_name (tags_field s)])) as (e' & He' & _);
      [discriminate|].
    rewrite He' in H. discriminate.
Qed.

Lemma update_refuses_tags (instance : Recipe) (vd : list (string * value))
    (l : list Tag) (s : Store) :
  Dict.get "tags" vd = Some (VTags l) ->
  ModelSerializer_update instance vd s = (Raise AssertionError, s).
Proof.
  intros H. unfold ModelSerializer_update, mbind, lift,
    raise_errors_on_nested_writes, nested_serializer_fields.
  cbn [existsb]. now rewrite H.
Qed.

(** No update request is ever applied: the payload either fails to
    deserialise, or its validated data carries the tag list and the
    inherited [update] refuses it. The store stays as it was. *)
Lemma perform_update_never_applies (instance : Recipe)
    (data : list (string * pyobj)) (s : Store) :
  exists e, perform_update instance data s = (Raise e, s).
Proof.
  unfold perform_update, RecipeUpdateSerializer_to_internal_value.
  destruct (to_internal_value false s data) as [vd|e] eqn:H; [|eauto].
  destruct (validated_data_has_tags _ _ _ _ H) as [l Hl].
  rewrite (update_refuses_tags _ _ _ _ Hl). eauto.
Qed.

(** The two serializers validate a payload that has an image alike. *)
Lemma run_fields_ext (data : list (string * pyobj)) :
  forall fs gs, Forall2 (fun f g => field_name f = field_name g
                                    /\ run_field f data = run_field g data) fs gs ->
    forall ret errors, run_fields fs data ret errors = run_fields gs data ret errors.
Proof.
  induction 1 as [|f g fs gs [Hn Hr] _ IH]; intros ret errors; [reflexivity|].
  cbn. rewrite Hr, Hn.
  destruct (run_field g data) as [[v|]|e]; try apply IH.
  destruct (is_validation_error e); [apply IH | reflexivity].
Qed.

Lemma update_validates_like_create (s : Store) (data : list (string * pyobj))
    (image : pyobj) :
  Dict.get "image" data = Some image ->
  RecipeUpdateSerializer_to_internal_value s data
  = RecipeCreateSerializer_to_internal_value s data.
Proof.
  intros Hi.
  unfold RecipeUpdateSerializer_to_internal_value,
    RecipeCreateSerializer_to_internal_value, to_internal_value.
  destruct (Dict.pop "tags" data) as [[tags data1]|] eqn:Hp; cbn [bind];
    [|reflexivity].
  destruct (py_iter tags) as [items|]; cbn [bind]; [|reflexivity].
  unfold Serializer_to_internal_value. apply run_fields_ext.
  unfold writable_fields.
  do 5 (apply Forall2_cons; [split; reflexivity|]).
  apply Forall2_cons.
  - split; [reflexivity|]. unfold run_field, image_field.
    cbn [field_name run_validation validate_method].
    rewrite get_set_other by discriminate.
    unfold Dict.pop in Hp. destruct (Dict.get "tags" data); [|discriminate].
    injection Hp as _ <-. rewrite get_remove_other by discriminate.
    rewrite Hi. reflexivity.
  - do 2 (apply Forall2_cons; [split; reflexivity|]). apply Forall2_nil.
Qed.

(** A payload without an image is accepted by the update serializer
    with no image among the validated data. *)
Lemma update_without_image (s : Store) (data : list (string * pyobj))
    (vd : list (string * value)) :
  Dict.get "image" data = None ->
  RecipeUpdateSerializer_to_internal_value s data = Ok vd ->
  Dict.get "image" vd = None.
Proof.
  intros Hi.
  unfold RecipeUpdateSerializer_to_internal_value, to_internal_value.
  destruct (Dict.pop "tags" data) as [[tags data1]|] eqn:Hp; cbn [bind];
    [|discriminate].
  destruct (py_iter tags) as [items|]; cbn [bind]; [|discriminate].
  unfold Serializer_to_internal_value. intros H.
  apply (run_fields_keeps "image") in H; [exact H|].
  unfold writable_fields.
  do 5 (apply Forall_cons; [left; cbn; discriminate|]).
  apply Forall_cons.
  - right. unfold run_field, image_field.
    cbn [field_name run_validation validate_method].
    rewrite get_set_other by discriminate.
    unfold Dict.pop in Hp. destruct (Dict.get "tags" data); [|discriminate].
    injection Hp as _ <-. rewrite get_remove_other by discriminate.
    rewrite Hi. reflexivity.
  - do 2 (apply Forall_cons; [left; cbn; discriminate|]). apply Forall_nil.
Qed.

End UpdateFacts.


(** ** Tag identifiers *)

Section TagFacts.
Context {fw : Framework}.
Import DictFacts.

(** The row a primary-key field yields for an identifier is a row of
    the queryset, and its key is the identifier. *)
Lemma PrimaryKeyRelatedField_key {R} (pk : R -> Z) (queryset : list R)
    (v : pyobj) (r : R) :
  PrimaryKeyRelatedField_run_validation pk queryset (Some v) = Ok (Some r) ->
  In r queryset
  /\ (forall z, v = PyInt z -> pk r = z)
  /\ (forall s z, v = PyStr s -> py_int s = Some z -> pk r = z).
Proof.
  unfold PrimaryKeyRelatedField_run_validation, run_validation_with,
    PrimaryKeyRelatedField_to_internal_value.
  destruct v as [| b | z | s | l | d | f]; try discriminate.
  - destruct (pk_get pk queryset z) eqn:G; [|discriminate].
    cbn. intros E. injection E as <-. apply pk_get_in in G.
    destruct G as [Hin Hpk]. split; [exact Hin|]. split.
    + intros z' E. now injection E as <-.
    + discriminate.
  - destruct s as [|c s]; [discriminate|].
    destruct (py_int (String c s)) as [z|] eqn:P; [|discriminate].
    destruct (pk_get pk queryset z) eqn:G; [|discriminate].
    cbn. intros E. injection E as <-. apply pk_get_in in G.
    destruct G as [Hin Hpk]. split; [exact Hin|]. split.
    + discriminate.
    + intros s' z' E P'. injection E as <-. rewrite P in P'.
      now injection P' as <-.
Qed.

(** An integer that is the key of a row is resolved to a row with that
    key. *)
Lemma known_tag_accepted (s : Store) (z : Z) :
  (exists t, In t (tags s) /\ tag_id t = z) ->
  exists t, TagsInRecipeSerializer_run_validation s (wrap_tag (PyInt z)) = Ok t.
Proof.
  intros (t & Hin & Hid).
  unfold TagsInRecipeSerializer_run_validation, wrap_tag.
  cbn [Dict.get String.eqb Ascii.eqb Bool.eqb].
  unfold PrimaryKeyRelatedField_run_validation, run_validation_with,
    PrimaryKeyRelatedField_to_internal_value, pk_get.
  destruct (find (fun r => Z.eqb (tag_id r) z) (tags s)) as [t'|] eqn:F.
  - exists t'. reflexivity.
  - exfalso. apply (find_none _ _ F) in Hin. rewrite Hid, Z.eqb_refl in Hin.
    discriminate.
Qed.

(** When no item raises anything but a validation error and one item
    fails, the list fails with a validation error. *)
Lemma list_items_caught {A} (child : pyobj -> outcome A) (items : list pyobj) :
  Forall (fun i => uncaught (child i) = false) items ->
  forall ret failed,
    failed = true \/ (exists i e, In i items /\ child i = Raise e) ->
    list_items child items ret failed = Raise (ValidationError ["items"]).
Proof.
  induction 1 as [|i items Hi _ IH]; intros ret failed Hor.
  - destruct Hor as [-> | (i & e & [] & _)]. reflexivity.
  - cbn. destruct (child i) as [a|e] eqn:Hc.
    + apply IH. destruct Hor as [-> | (i' & e & [<- | Hin] & He)].
      * now left.
      * rewrite Hc in He. discriminate.
      * right. eauto.
    + cbn in Hi. apply negb_false_iff in Hi. rewrite Hi. apply IH. now left.
Qed.

(** What the [tags] field does with the normalised list. *)
Lemma tags_field_runs (store : Store) (data2 : list (string * pyobj))
    (ts : list pyobj) :
  Dict.get "tags" data2 = Some (PyList (map (fun v => PyDict [("id", v)]) ts)) ->
  run_field (tags_field store) data2
  = bind (list_items (TagsInRecipeSerializer_run_validation store)
            (map wrap_tag ts) [] false)
         (fun l => Ok (Some (VTags l))).
Proof.
  intros Hget. unfold run_field, tags_field.
  cbn [field_name run_validation validate_method]. rewrite Hget.
  cbn [run_validation_with ListSerializer_to_internal_value].
  fold wrap_tag.
  change (map (fun v => PyDict [("id", v)]) ts) with (map wrap_tag ts).
  now destruct (list_items _ _ _ _).
Qed.

(** The tags of validated data are what the [tags] field made of the
    normalised list. *)
Lemma validated_tags (image_required : bool) (s : Store)
    (data : list (string * pyobj)) (ts : list pyobj) (vd : list (string * value)) :
  Dict.get "tags" data = Some (PyList ts) ->
  to_internal_value image_required s data = Ok vd ->
  exists l,
    run_field (tags_field s)
      (Dict.set "tags" (PyList (map wrap_tag ts)) (Dict.remove "tags" data))
    = Ok (Some (VTags l))
    /\ Dict.get "tags" vd = Some (VTags l).
Proof.
  intros Ht. rewrite (to_internal_value_with_tags _ _ _ _ Ht). cbn [py_iter bind].
  unfold Serializer_to_internal_value, writable_fields.
  set (data2 := Dict.set "tags" (PyList (map wrap_tag ts)) (Dict.remove "tags" data)).
  rewrite run_fields_cons.
  destruct (tags_field_value s data2 (map wrap_tag ts) (get_set_same _ _ _))
    as [[l Hl] | [e He]].
  - rewrite Hl. intros H. exists l. split; [reflexivity|].
    apply (run_fields_keeps "tags") in H.
    + rewrite H. apply get_set_same.
    + repeat (apply Forall_cons; [left; cbn; discriminate|]). apply Forall_nil.
  - rewrite He. destruct (is_validation_error e); [|discriminate].
    intros H.
    destruct (run_fields_after_failure
                [ingredients_field s; recipe_column "is_favorited";
                 recipe_column "is_in_shopping_cart"; recipe_column "name";
                 image_field image_required; recipe_column "text";
                 recipe_column "cooking_time"] data2 []
                ([] ++ [field_name (tags_field s)])) as (e' & He' & _);
      [discriminate|].
    rewrite He' in H. discriminate.
Qed.

(** C9. When the payload carries a list of bare tag identifiers, the
    field loop receives the payload with every identifier [v] replaced
    by [{'id': v}] and the other keys as they were. The [tags] field
    then looks every identifier up among the rows of the Tag table: when
    it succeeds, it yields, item by item, a row of the table whose key is
    the identifier; an integer that is the key of no row makes it fail,
    with a validation error when every identifier is an integer the
    database can hold; when every identifier is the key of a row it
    succeeds. For the payload as a whole: validated data carries those
    rows under [tags], and an integer that is the key of no row makes
    deserialisation fail, naming [tags] when the failure is a validation
    error. *)
Theorem to_internal_value_normalises_tags
    (image_required : bool) (store : Store) (data : list (string * pyobj))
    (ts : list pyobj) :
  Dict.get "tags" data = Some (PyList ts) ->
  let data2 := Dict.set "tags" (PyList (map (fun v => PyDict [("id", v)]) ts))
                 (Dict.remove "tags" data) in
  to_internal_value image_required store data
  = Serializer_to_internal_value (writable_fields image_required store) data2
  /\ Dict.get "tags" data2 = Some (PyList (map (fun v => PyDict [("id", v)]) ts))
  /\ (forall k, k <> "tags" -> Dict.get k data2 = Dict.get k data)
  /\ (forall rows,
        run_field (tags_field store) data2 = Ok (Some (VTags rows)) ->
        Forall2 (fun v t =>
                   In t (tags store)
                   /\ (forall z, v = PyInt z -> tag_id t = z)
                   /\ (forall s z, v = PyStr s -> py_int s = Some z -> tag_id t = z))
                ts rows)
  /\ (forall z,
        In (PyInt z) ts ->
        (forall t, In t (tags store) -> tag_id t <> z) ->
        exists e,
          run_field (tags_field store) data2 = Raise e
          /\ ((forall v, In v ts ->
                 exists z', v = PyInt z' /\ database_holds z' = true) ->
              e = ValidationError ["items"]))
  /\ ((forall v, In v ts -> exists t, In t (tags store) /\ v = PyInt (tag_id t)) ->
      exists rows,
        run_field (tags_field store) data2 = Ok (Some (VTags rows))
        /\ map (fun t => PyInt (tag_id t)) rows = ts)
  /\ (forall vd,
        to_internal_value image_required store data = Ok vd ->
        exists rows,
          Dict.get "tags" vd = Some (VTags rows)
          /\ Forall2 (fun v t =>
                        In t (tags store)
                        /\ (forall z, v = PyInt z -> tag_id t = z)
                        /\ (forall s z, v = PyStr s -> py_int s = Some z ->
                                        tag_id t = z))
                     ts rows)
  /\ (forall z,
        In (PyInt z) ts ->
        (forall t, In t (tags store) -> tag_id t <> z) ->
        exists e,
          to_internal_value image_required store data = Raise e
          /\ forall errs, e = ValidationError errs -> In "tags" errs).
Proof.
  intros H data2.
  assert (Hget : Dict.get "tags" data2
                 = Some (PyList (map (fun v => PyDict [("id", v)]) ts))).
  { apply get_set_same. }
  pose proof (tags_field_runs store data2 ts Hget) as Hrun.
  assert (Hrows : forall rows,
             run_field (tags_field store) data2 = Ok (Some (VTags rows)) ->
             Forall2 (fun v t =>
                        In t (tags store)
                        /\ (forall z, v = PyInt z -> tag_id t = z)
                        /\ (forall s z, v = PyStr s -> py_int s = Some z ->
                                        tag_id t = z))
                     ts rows).
  { intros rows Hr. rewrite Hrun in Hr.
    destruct (list_items (TagsInRecipeSerializer_run_validation store)
                (map wrap_tag ts) [] false) as [l|e] eqn:L; [|discriminate].
    cbn [bind] in Hr. injection Hr as <-.
    apply list_items_ok in L. destruct L as [_ (l' & -> & HF)]. cbn [app].
    clear -HF. revert l' HF. induction ts as [|v ts IH]; intros l' HF.
    - inversion HF. constructor.
    - inversion HF as [|? t ? l'' Ht HF']; subst. constructor.
      + apply TagsInRecipeSerializer_wrapped in Ht.
        now apply PrimaryKeyRelatedField_key in Ht.
      + now apply IH. }
  split; [now rewrite (to_internal_value_with_tags _ _ _ _ H)|].
  split; [exact Hget|]. split.
  { intros k Hk. unfold data2.
    rewrite get_set_other by exact Hk. now apply get_remove_other. }
  assert (Hbadf : forall z,
             In (PyInt z) ts ->
             (forall t, In t (tags store) -> tag_id t <> z) ->
             exists e,
               run_field (tags_field store) data2 = Raise e
               /\ ((forall v, In v ts ->
                      exists z', v = PyInt z' /\ database_holds z' = true) ->
                   e = ValidationError ["items"])).
  { intros z Hin Hnone. rewrite Hrun.
    pose proof (unknown_tag_rejected store z Hnone) as Hbad.
    destruct (list_items_with_failure
                (TagsInRecipeSerializer_run_validation store) (map wrap_tag ts)
                (wrap_tag (PyInt z)) _ [] false (in_map wrap_tag _ _ Hin) Hbad)
      as [e He].
    rewrite He. cbn [bind]. exists e. split; [reflexivity|].
    intros Hall.
    rewrite list_items_caught in He.
    - now injection He as <-.
    - apply Forall_forall. intros i Hi. apply in_map_iff in Hi.
      destruct Hi as (v & <- & Hv). destruct (Hall v Hv) as (z' & -> & Hz').
      destruct (find (fun t => Z.eqb (tag_id t) z') (tags store)) as [t|] eqn:F.
      + destruct (known_tag_accepted store z') as [t' Ht'].
        { apply find_some in F. exists t. split; [tauto|].
          now apply Z.eqb_eq. }
        now rewrite Ht'.
      + rewrite unknown_tag_rejected.
        { now rewrite Hz'. }
        intros t Ht E. apply (find_none _ _ F) in Ht.
        rewrite E, Z.eqb_refl in Ht. discriminate.
    - right. exists (wrap_tag (PyInt z)). eexists.
      split; [now apply in_map | exact Hbad]. }
  assert (Hknown :
            (forall v, In v ts ->
                       exists t, In t (tags store) /\ v = PyInt (tag_id t)) ->
            exists rows,
              run_field (tags_field store) data2 = Ok (Some (VTags rows))
              /\ map (fun t => PyInt (tag_id t)) rows = ts).
  { intros Hall.
    assert (Hok : exists rows,
               Forall2 (fun i t => TagsInRecipeSerializer_run_validation store i
                                   = Ok t) (map wrap_tag ts) rows).
    { clear -Hall. induction ts as [|v ts IH].
      - exists []. constructor.
      - destruct IH as [rows Hrows]; [intros v' Hv'; apply Hall; now right|].
        destruct (Hall v (or_introl eq_refl)) as (t & Hin & ->).
        destruct (known_tag_accepted store (tag_id t)) as [t' Ht']; [eauto|].
        exists (t' :: rows). now constructor. }
    destruct Hok as [rows Hok].
    assert (L : list_items (TagsInRecipeSerializer_run_validation store)
                  (map wrap_tag ts) [] false = Ok rows).
    { apply list_items_ok. split; [reflexivity|]. exists rows. now split. }
    assert (Hr : run_field (tags_field store) data2 = Ok (Some (VTags rows))).
    { rewrite Hrun, L. reflexivity. }
    exists rows. split; [exact Hr|].
    apply Hrows in Hr. clear -Hr Hall.
    induction Hr as [|v t ts rows (_ & Hz & _) _ IH]; [reflexivity|].
    cbn. destruct (Hall v (or_introl eq_refl)) as (t0 & _ & ->).
    rewrite (Hz _ eq_refl). f_equal. apply IH.
    intros v' Hv'. apply Hall. now right. }
  split; [exact Hrows|]. split; [exact Hbadf|]. split; [exact Hknown|]. split.
  - intros vd Hvd.
    destruct (validated_tags _ _ _ _ _ H Hvd) as (l & Hl & Hg).
    exists l. split; [exact Hg|]. now apply Hrows.
  - intros z Hin Hnone. destruct (Hbadf z Hin Hnone) as (e0 & He0 & _).
    rewrite (to_internal_value_with_tags _ _ _ _ H). cbn [py_iter bind].
    apply (run_fields_with_failure (writable_fields image_required store)
             data2 (tags_field store) e0 (or_introl eq_refl) He0).
Qed.

End TagFacts.


(** ** The store under the assembly workflow *)

Module StoreFacts.
Import DictFacts.
Section Facts.
Context {fw : Framework}.

Lemma max_id_bound (ids : list Z) (x : Z) :
  In x ids -> (x <= fold_right Z.max 0 ids)%Z.
Proof.
  induction ids as [|y ids IH]; [contradiction|].
  cbn. intros [-> | H]; [lia|]. specialize (IH H). lia.
Qed.

(** A new primary key is larger than every key in use. *)
Lemma next_id_fresh (ids : list Z) (x : Z) : In x ids -> (x < next_id ids)%Z.
Proof. intros H. apply max_id_bound in H. unfold next_id. lia. Qed.

Lemma next_id_not_in (ids : list Z) : ~ In (next_id ids) ids.
Proof. intros H. apply next_id_fresh in H. lia. Qed.

Lemma extends_refl (s : Store) : extends s s.
Proof. constructor; try reflexivity; exists []; now rewrite app_nil_r. Qed.

Lemma extends_trans (s1 s2 s3 : Store) :
  extends s1 s2 -> extends s2 s3 -> extends s1 s3.
Proof.
  intros [[a1 A1] B1 [c1 C1] [d1 D1] [e1 E1] [f1 F1]]
         [[a2 A2] B2 [c2 C2] [d2 D2] [e2 E2] [f2 F2]].
  constructor.
  - exists (a1 ++ a2). now rewrite A2, A1, app_assoc.
  - now rewrite B2.
  - exists (c1 ++ c2). now rewrite C2, C1, app_assoc.
  - exists (d1 ++ d2). now rewrite D2, D1, app_assoc.
  - exists (e1 ++ e2). now rewrite E2, E1, app_assoc.
  - exists (f1 ++ f2). now rewrite F2, F1, app_assoc.
Qed.

(** Saving the row that was just created changes nothing. *)
Lemma save_new_row (rows : list Recipe) (r : Recipe) :
  recipe_id r = next_id (map recipe_id rows) ->
  map (fun r' => if Z.eqb (recipe_id r') (recipe_id r) then r else r')
      (rows ++ [r])
  = rows ++ [r].
Proof.
  intros Hid. rewrite map_app. cbn. rewrite Z.eqb_refl. f_equal.
  rewrite <- (map_id rows) at 2. apply map_ext_in. intros r' Hin.
  destruct (Z.eqb_spec (recipe_id r') (recipe_id r)) as [E|_]; [|reflexivity].
  exfalso. apply (next_id_not_in (map recipe_id rows)).
  rewrite <- Hid, <- E. now apply in_map.
Qed.

(** A row that was saved holds no file that is still to be stored. *)
Lemma pre_save_idem (s s1 : Store) (fields : list (string * value)) :
  pre_save s1 (pre_save s fields) = pre_save s fields.
Proof.
  unfold pre_save.
  destruct (Dict.get "image" fields) as [[o|f|f|l|l]|] eqn:G;
    cbv beta iota; rewrite ?G; try reflexivity.
  now rewrite get_set_same.
Qed.

(** Saving touches the image column only. *)
Lemma pre_save_other (s : Store) (fields : list (string * value)) (k : string) :
  k <> "image" -> Dict.get k (pre_save s fields) = Dict.get k fields.
Proof.
  intros Hk. unfold pre_save.
  destruct (Dict.get "image" fields) as [[o|f|f|l|l]|]; try reflexivity.
  now apply get_set_other.
Qed.

Lemma pre_save_image (s : Store) (fields : list (string * value)) :
  Dict.get "image" (pre_save s fields)
  = match Dict.get "image" fields with
    | Some (VFile f) =>
        Some (VFieldFile (mkFile (storage_name s (file_name f)) (file_content f)))
    | v => v
    end.
Proof.
  unfold pre_save.
  destruct (Dict.get "image" fields) as [[o|f|f|l|l]|] eqn:G; try exact G.
  apply get_set_same.
Qed.

Lemma Recipe_save_new (s : Store) (author : Z) (fields : list (string * value)) :
  Recipe_save (new_recipe s author fields)
    (with_recipe s (new_recipe s author fields))
  = (Ok (new_recipe s author fields), with_recipe s (new_recipe s author fields)).
Proof.
  pose proof (save_new_row (recipes s) (new_recipe s author fields) eq_refl) as H.
  unfold Recipe_save, with_recipe, new_recipe in *. cbn in *.
  rewrite pre_save_idem. now rewrite H.
Qed.

Lemma create_and_save (s : Store) (author : Z) (fields : list (string * value)) :
  (recipe <- Recipe_objects_create (User author) fields ;;
   recipe <- Recipe_save recipe ;; ret recipe)%orm s
  = (Ok (new_recipe s author fields), with_recipe s (new_recipe s author fields)).
Proof.
  unfold mbind at 1.
  change (Recipe_objects_create (User author) fields s)
    with (Ok (new_recipe s author fields), with_recipe s (new_recipe s author fields)).
  cbv beta iota. unfold mbind. now rewrite Recipe_save_new.
Qed.


(** *** Linking the tags *)

Lemma link_tag_run (r : Recipe) (t : Tag) (s : Store) :
  exists added,
    link_tag r t s
    = (Ok tt,
       mkStore (tags s ++ added) (ingredients s) (amounts s) (recipes s)
         (tags_in_recipe s
          ++ [mkTagInRecipe (next_id (map tir_id (tags_in_recipe s)))
                (tag_id t) (recipe_id r)])
         (ingredients_in_recipe s)).
Proof.
  unfold link_tag, mbind, Tag_objects_get_or_create, TagInRecipe_objects_create.
  destruct (find (fun t' => Z.eqb (tag_id t') (tag_id t)) (tags s)) as [t'|] eqn:F.
  - exists []. apply find_some in F. destruct F as [_ E].
    apply Z.eqb_eq in E. rewrite E, app_nil_r. reflexivity.
  - eexists. reflexivity.
Qed.

(** The tag loop never fails; it appends one join row per tag, each for
    this recipe. *)
Lemma link_tags_run (r : Recipe) :
  forall (items : list Tag) (s : Store),
    exists added rows,
      for_each items (link_tag r) s
      = (Ok tt,
         mkStore (tags s ++ added) (ingredients s) (amounts s) (recipes s)
           (tags_in_recipe s ++ rows) (ingredients_in_recipe s))
      /\ map tir_tag rows = map tag_id items
      /\ Forall (fun row => tir_recipe row = recipe_id r) rows.
Proof.
  induction items as [|t items IH]; intros s.
  - exists [], []. cbn. rewrite !app_nil_r. destruct s. repeat split. constructor.
  - destruct (link_tag_run r t s) as [added1 H1].
    cbn [for_each]. unfold mbind at 1. rewrite H1.
    match goal with |- context [for_each items _ ?s1] =>
      destruct (IH s1) as (added2 & rows2 & H2 & Hm & Hr) end.
    rewrite H2. cbn [tags ingredients amounts recipes tags_in_recipe
                     ingredients_in_recipe].
    exists (added1 ++ added2),
      (mkTagInRecipe (next_id (map tir_id (tags_in_recipe s)))
         (tag_id t) (recipe_id r) :: rows2).
    rewrite <- !app_assoc. cbn [app]. split; [reflexivity|]. split.
    + cbn. now rewrite Hm.
    + constructor; [reflexivity | exact Hr].
Qed.

(** *** Linking the ingredients *)

Lemma same_amount_key (k n k' n' : Z) (a : AmountOfIngredient) :
  same_amount k n a = true -> same_amount k' n' a = true -> k = k' /\ n = n'.
Proof.
  unfold same_amount. rewrite !andb_true_iff, !Z.eqb_eq. lia.
Qed.

Lemma link_ingredient_cases (r : Recipe) (item : Ingredient * Z) (s : Store) :
  (exists e, link_ingredient r item s = (Raise e, s))
  \/ (exists a amounts',
        link_ingredient r item s
        = (Ok tt,
           mkStore (tags s) (ingredients s) amounts' (recipes s)
             (tags_in_recipe s)
             (ingredients_in_recipe s
              ++ [mkIngredientInRecipe
                    (next_id (map iir_id (ingredients_in_recipe s)))
                    (aoi_id a) (recipe_id r)]))
        /\ filter (same_amount (ingredient_id (fst item)) (snd item)) amounts' = [a]
        /\ (amounts' = amounts s
            \/ filter (same_amount (ingredient_id (fst item)) (snd item))
                      (amounts s) = []
               /\ amounts' = amounts s ++ [a]
               /\ aoi_id a = next_id (map aoi_id (amounts s)))).
Proof.
  unfold link_ingredient, mbind, AmountOfIngredient_objects_get_or_create,
    IngredientInRecipe_objects_create.
  destruct (filter (same_amount (ingredient_id (fst item)) (snd item)) (amounts s))
    as [|a [|a' rest]] eqn:F.
  - destruct (existsb _ (ingredients s)).
    + right.
      exists (mkAmountOfIngredient (next_id (map aoi_id (amounts s)))
                (ingredient_id (fst item)) (snd item)).
      exists (amounts s
              ++ [mkAmountOfIngredient (next_id (map aoi_id (amounts s)))
                    (ingredient_id (fst item)) (snd item)]).
      split; [reflexivity|]. split.
      * rewrite filter_app, F. cbn. unfold same_amount. cbn.
        now rewrite !Z.eqb_refl.
      * right. repeat split.
    + left. eauto.
  - right. exists a, (amounts s). split; [reflexivity|]. split; [exact F|].
    now left.
  - left. eauto.
Qed.

Lemma NoDup_snoc {A} (l : list A) (x : A) : NoDup l -> ~ In x l -> NoDup (l ++ [x]).
Proof.
  intros Hl Hx. apply NoDup_app; [exact Hl | repeat constructor; intros [] |].
  intros a Ha [<- | []]. contradiction.
Qed.

(** What one step does to the amount table. *)
Lemma amounts_step (item : Ingredient * Z) (old new : list AmountOfIngredient)
    (a : AmountOfIngredient) :
  filter (same_amount (ingredient_id (fst item)) (snd item)) new = [a] ->
  new = old
  \/ filter (same_amount (ingredient_id (fst item)) (snd item)) old = []
     /\ new = old ++ [a] /\ aoi_id a = next_id (map aoi_id old) ->
  (exists added, new = old ++ added)
  /\ (NoDup (map aoi_id old) -> NoDup (map aoi_id new))
  /\ (forall k n b, filter (same_amount k n) old = [b] ->
                    filter (same_amount k n) new = [b]).
Proof.
  intros Hf [-> | (Hnone & -> & Hid)].
  - split; [exists []; now rewrite app_nil_r|]. split; auto.
  - split; [eauto|]. split.
    + intros Hnd. rewrite map_app. cbn. apply NoDup_snoc; [exact Hnd|].
      rewrite Hid. apply next_id_not_in.
    + intros k n b Hb. rewrite filter_app, Hb. cbn.
      destruct (same_amount k n a) eqn:Ha; [|reflexivity].
      exfalso.
      assert (Ha' : same_amount (ingredient_id (fst item)) (snd item) a = true).
      { assert (Hin : In a (filter (same_amount (ingredient_id (fst item))
                                      (snd item)) (old ++ [a]))).
        { rewrite Hf. now left. }
        apply filter_In in Hin. tauto. }
      destruct (same_amount_key _ _ _ _ _ Ha Ha') as [-> ->].
      rewrite Hnone in Hb. discriminate.
Qed.

(** The ingredient loop: it touches the amount table and the join table
    only, appends to both, keeps the keys of the amount rows distinct
    and keeps an amount row that was the only one for its pair the only
    one. Every join row it writes is for this recipe, and when the loop
    ends well there is one join row per entry, pointing to the one
    amount row of the entry's pair. *)
Lemma link_ingredients_run (r : Recipe) :
  forall (items : list (Ingredient * Z)) (s : Store) (res : outcome unit) (s' : Store),
    for_each items (link_ingredient r) s = (res, s') ->
    tags s' = tags s /\ ingredients s' = ingredients s
    /\ recipes s' = recipes s /\ tags_in_recipe s' = tags_in_recipe s
    /\ (exists added, amounts s' = amounts s ++ added)
    /\ (NoDup (map aoi_id (amounts s)) -> NoDup (map aoi_id (amounts s')))
    /\ (forall k n b, filter (same_amount k n) (amounts s) = [b] ->
                      filter (same_amount k n) (amounts s') = [b])
    /\ exists rows,
         ingredients_in_recipe s' = ingredients_in_recipe s ++ rows
         /\ Forall (fun row => iir_recipe row = recipe_id r) rows
         /\ (res = Ok tt ->
             Forall2 (fun item row =>
                        exists a,
                          filter (same_amount (ingredient_id (fst item)) (snd item))
                                 (amounts s') = [a]
                          /\ iir_amount_of_ingredient row = aoi_id a)
                     items rows).
Proof.
  induction items as [|item items IH]; intros s res s' H.
  - cbn in H. injection H as <- <-.
    repeat split; auto.
    + exists []. now rewrite app_nil_r.
    + exists []. rewrite app_nil_r. repeat split; constructor.
  - cbn [for_each] in H. unfold mbind at 1 in H.
    destruct (link_ingredient_cases r item s)
      as [[e He] | (a & amounts' & Hstep & Hf & Hcase)].
    + rewrite He in H. injection H as <- <-.
      repeat split; auto.
      * exists []. now rewrite app_nil_r.
      * exists []. rewrite app_nil_r. repeat split; [constructor|discriminate].
    + rewrite Hstep in H. apply IH in H.
      cbn [tags ingredients amounts recipes tags_in_recipe ingredients_in_recipe]
        in H.
      destruct H as (Ht & Hi & Hr & Htir & [added Ha] & Hnd & Hsticky
                     & rows & Hrows & Hall & Hok).
      destruct (amounts_step item (amounts s) amounts' a Hf Hcase)
        as ([added1 Ha1] & Hnd1 & Hsticky1).
      repeat split; auto.
      * exists (added1 ++ added). now rewrite Ha, Ha1, app_assoc.
      * exists (mkIngredientInRecipe
                  (next_id (map iir_id (ingredients_in_recipe s)))
                  (aoi_id a) (recipe_id r) :: rows).
        split; [now rewrite Hrows, <- app_assoc|]. split.
        -- constructor; [reflexivity | exact Hall].
        -- intros Hres. constructor; [|now apply Hok].
           exists a. split; [|reflexivity]. now apply Hsticky.
Qed.


(** *** The steps of [create] *)

Lemma pop_inv {V} (k : string) (d d' : list (string * V)) (v : V) :
  Dict.pop k d = Ok (v, d') -> Dict.get k d = Some v /\ d' = Dict.remove k d.
Proof.
  unfold Dict.pop. destruct (Dict.get k d); [|discriminate].
  intros E. injection E as <- <-. now split.
Qed.

(** How a run of [create] goes: it ends before the first write, with
    the store as it was; or the Recipe row is written, the tag loop
    runs, and the run ends where reading the tag list, reading the
    ingredient list or the ingredient loop ends. *)
Lemma create_run (context : Context) (vd : list (string * value))
    (s : Store) (res : outcome Recipe) (s' : Store) :
  create context vd s = (res, s') ->
  (s' = s /\ (exists e, res = Raise e)
   /\ forall ings vd1 tgs vd2 request pk,
        Dict.pop "ingredients" vd = Ok (ings, vd1) ->
        Dict.pop "tags" vd1 = Ok (tgs, vd2) ->
        context_request context = Some request ->
        request_user request = User pk -> False)
  \/ exists ings vd1 tgs vd2 request pk,
       Dict.pop "ingredients" vd = Ok (ings, vd1)
       /\ Dict.pop "tags" vd1 = Ok (tgs, vd2)
       /\ context_request context = Some request
       /\ request_user request = User pk
       /\ ((exists e, as_tags tgs = Raise e /\ res = Raise e
                      /\ s' = with_recipe s (new_recipe s pk vd2))
           \/ exists tag_items sB,
                as_tags tgs = Ok tag_items
                /\ for_each tag_items (link_tag (new_recipe s pk vd2))
                     (with_recipe s (new_recipe s pk vd2)) = (Ok tt, sB)
                /\ ((exists e, as_ingredients ings = Raise e /\ res = Raise e
                               /\ s' = sB)
                    \/ exists ing_items res',
                         as_ingredients ings = Ok ing_items
                         /\ for_each ing_items
                              (link_ingredient (new_recipe s pk vd2)) sB
                            = (res', s')
                         /\ res = match res' with
                                  | Ok _ => Ok (new_recipe s pk vd2)
                                  | Raise e => Raise e
                                  end)).
Proof.
  unfold create. unfold mbind at 1. unfold lift at 1.
  destruct (Dict.pop "ingredients" vd) as [[ings vd1]|e] eqn:P1.
  2:{ intros E. injection E as <- <-. left.
      split; [reflexivity|]. split; [eauto | intros; congruence]. }
  unfold mbind at 1. unfold lift at 1.
  destruct (Dict.pop "tags" vd1) as [[tgs vd2]|e] eqn:P2.
  2:{ intros E. injection E as <- <-. left.
      split; [reflexivity|]. split; [eauto | intros; congruence]. }
  unfold mbind at 1. unfold lift at 1.
  destruct (context_request context) as [request|] eqn:C.
  2:{ intros E. injection E as <- <-. left.
      split; [reflexivity|]. split; [eauto | intros; congruence]. }
  unfold mbind at 1.
  destruct (request_user request) as [|pk] eqn:U.
  { cbn. intros E. injection E as <- <-. left.
    split; [reflexivity|]. split; [eauto | intros; congruence]. }
  change (Recipe_objects_create (User pk) vd2 s)
    with (Ok (new_recipe s pk vd2), with_recipe s (new_recipe s pk vd2)).
  cbv beta iota. unfold mbind at 1. rewrite Recipe_save_new.
  cbv beta iota. unfold mbind at 1. unfold lift at 1.
  intros H. right. exists ings, vd1, tgs, vd2, request, pk.
  repeat (split; [reflexivity || assumption|]).
  destruct (as_tags tgs) as [tag_items|e].
  2:{ injection H as <- <-. left. eauto. }
  right.
  destruct (link_tags_run (new_recipe s pk vd2) tag_items
              (with_recipe s (new_recipe s pk vd2)))
    as (added & rows & Hrun & _).
  unfold mbind at 1 in H. rewrite Hrun in H.
  eexists. eexists. split; [reflexivity|]. split; [exact Hrun|].
  unfold mbind at 1 in H. unfold lift at 1 in H.
  destruct (as_ingredients ings) as [ing_items|e].
  2:{ injection H as <- <-. left. eauto. }
  right. unfold mbind at 1 in H.
  match type of H with context [for_each ing_items ?f ?st] =>
    destruct (for_each ing_items f st) as [res' s''] eqn:L end.
  exists ing_items, res'. split; [reflexivity|].
  destruct res' as [[]|e]; cbn in H; injection H as <- <-;
    (split; [exact L | reflexivity]).
Qed.


Lemma extends_with_recipe (s : Store) (r : Recipe) : extends s (with_recipe s r).
Proof.
  constructor; cbn; try reflexivity; try (exists []; now rewrite app_nil_r).
  now exists [r].
Qed.

Lemma link_tags_extends (r : Recipe) (items : list Tag) (s sB : Store) :
  for_each items (link_tag r) s = (Ok tt, sB) ->
  extends s sB
  /\ recipes sB = recipes s /\ amounts sB = amounts s
  /\ ingredients_in_recipe sB = ingredients_in_recipe s
  /\ exists rows, tags_in_recipe sB = tags_in_recipe s ++ rows
                  /\ map tir_tag rows = map tag_id items
                  /\ Forall (fun row => tir_recipe row = recipe_id r) rows.
Proof.
  destruct (link_tags_run r items s) as (added & rows & Hrun & Hm & Hr).
  rewrite Hrun. intros E. injection E as <-. cbn.
  split; [|repeat split; eauto].
  constructor; cbn; try reflexivity; eauto;
    exists []; now rewrite app_nil_r.
Qed.

Lemma link_ingredients_extends (r : Recipe) (items : list (Ingredient * Z))
    (s : Store) (res : outcome unit) (s' : Store) :
  for_each items (link_ingredient r) s = (res, s') -> extends s s'.
Proof.
  intros H. apply link_ingredients_run in H.
  destruct H as (Ht & Hi & Hr & Htir & Ha & _ & _ & rows & Hrows & _).
  constructor; eauto.
  - exists []. now rewrite app_nil_r.
  - exists []. now rewrite app_nil_r.
  - exists []. now rewrite app_nil_r.
Qed.

Lemma as_tags_inv (v : value) (l : list Tag) : as_tags v = Ok l -> v = VTags l.
Proof. destruct v; cbn; try discriminate. now intros [= ->]. Qed.

Lemma as_ingredients_inv (v : value) (l : list (Ingredient * Z)) :
  as_ingredients v = Ok l -> v = VIngredients l.
Proof. destruct v; cbn; try discriminate. now intros [= ->]. Qed.

(** Why a step of the ingredient loop fails: the pair has no amount row
    and its ingredient has no row, or the pair has several amount
    rows. Nothing is written by the failing step. *)
Lemma link_ingredient_fails (r : Recipe) (item : Ingredient * Z) (s s1 : Store)
    (e : exn) :
  link_ingredient r item s = (Raise e, s1) ->
  s1 = s
  /\ (e = IntegrityError
      /\ filter (same_amount (ingredient_id (fst item)) (snd item)) (amounts s) = []
      /\ (forall i, In i (ingredients s) ->
                    ingredient_id i <> ingredient_id (fst item))
      \/ e = MultipleObjectsReturned
         /\ 2 <= List.length (filter (same_amount (ingredient_id (fst item))
                                        (snd item)) (amounts s))).
Proof.
  unfold link_ingredient, mbind, AmountOfIngredient_objects_get_or_create,
    IngredientInRecipe_objects_create.
  destruct (filter (same_amount (ingredient_id (fst item)) (snd item)) (amounts s))
    as [|a [|a' rest]] eqn:F.
  - destruct (existsb _ (ingredients s)) eqn:Ex; [discriminate|].
    intros E. injection E as <- <-. split; [reflexivity|]. left.
    split; [reflexivity|]. split; [reflexivity|].
    intros i Hin Hid.
    assert (Ht : existsb (fun i0 => Z.eqb (ingredient_id i0)
                                      (ingredient_id (fst item)))
                   (ingredients s) = true).
    { apply existsb_exists. exists i. split; [exact Hin | now apply Z.eqb_eq]. }
    rewrite Ht in Ex. discriminate.
  - discriminate.
  - intros E. injection E as <- <-. split; [reflexivity|]. right.
    split; [reflexivity|]. cbn. lia.
Qed.

(** The ingredient loop up to where it ends: the entries before the one
    that fails (all of them when none fails) have their join row, in
    order, each pointing to the only amount row of its pair. *)
Lemma link_ingredients_prefix (r : Recipe) :
  forall (items : list (Ingredient * Z)) (s : Store) (res : outcome unit) (s' : Store),
    for_each items (link_ingredient r) s = (res, s') ->
    exists linked rows,
      ingredients_in_recipe s' = ingredients_in_recipe s ++ rows
      /\ rows_for (amounts s') linked rows
      /\ (res = Ok tt /\ linked = items
          \/ exists e item rest,
               res = Raise e /\ items = linked ++ item :: rest
               /\ link_ingredient r item s' = (Raise e, s')).
Proof.
  induction items as [|item items IH]; intros s res s' H.
  - cbn in H. injection H as <- <-. exists [], [].
    rewrite app_nil_r. split; [reflexivity|]. split; [constructor|]. now left.
  - cbn [for_each] in H. unfold mbind at 1 in H.
    destruct (link_ingredient_cases r item s)
      as [[e He] | (a & amounts' & Hstep & Hf & Hcase)].
    + rewrite He in H. injection H as <- <-. exists [], [].
      rewrite app_nil_r. split; [reflexivity|]. split; [constructor|].
      right. exists e, item, items. repeat split. exact He.
    + rewrite Hstep in H. pose proof H as Hrun.
      apply IH in H. destruct H as (linked & rows & Hrows & Hfor & Hend).
      apply link_ingredients_run in Hrun.
      destruct Hrun as (_ & _ & _ & _ & _ & _ & Hsticky & _).
      cbn [tags ingredients amounts recipes tags_in_recipe ingredients_in_recipe]
        in Hrows, Hsticky.
      exists (item :: linked),
        (mkIngredientInRecipe (next_id (map iir_id (ingredients_in_recipe s)))
           (aoi_id a) (recipe_id r) :: rows).
      split; [now rewrite Hrows, <- app_assoc|]. split.
      * constructor; [|exact Hfor]. exists a. split; [|reflexivity].
        now apply Hsticky.
      * destruct Hend as [[-> ->] | (e & bad & rest & -> & -> & Hbad)].
        -- now left.
        -- right. exists e, bad, rest. repeat split. exact Hbad.
Qed.

(** C1. [create] runs its writes one after the other and none is taken
    back. Whatever the outcome, the store at the end extends the store at
    the start. As soon as both lists were popped and the requester is a
    user, the Recipe row is in the store at the end, also when a later
    step fails, and with it the join rows written until then: one
    TagInRecipe row per tag, and one IngredientInRecipe row, in order,
    for each ingredient entry before the one that fails, pointing to the
    only amount row of the entry's pair. The entry that fails is one
    whose pair has no amount row and whose ingredient has no row
    ([IntegrityError]), or one whose pair has several amount rows
    ([MultipleObjectsReturned]). When [create] returns the recipe, the
    store has one new TagInRecipe row per tag and one new
    IngredientInRecipe row per ingredient entry, all for that recipe. *)
Theorem create_commits_each_write (context : Context)
    (vd : list (string * value)) (s : Store) (res : outcome Recipe) (s' : Store) :
  create context vd s = (res, s') ->
  extends s s'
  /\ (forall ings vd1 tgs vd2 request pk,
        Dict.pop "ingredients" vd = Ok (ings, vd1) ->
        Dict.pop "tags" vd1 = Ok (tgs, vd2) ->
        context_request context = Some request ->
        request_user request = User pk ->
        recipes s' = recipes s ++ [new_recipe s pk vd2]
        /\ forall tag_items ing_items,
             tgs = VTags tag_items ->
             ings = VIngredients ing_items ->
             exists tag_rows linked ing_rows,
               tags_in_recipe s' = tags_in_recipe s ++ tag_rows
               /\ map tir_tag tag_rows = map tag_id tag_items
               /\ Forall (fun row => tir_recipe row
                                     = recipe_id (new_recipe s pk vd2)) tag_rows
               /\ ingredients_in_recipe s' = ingredients_in_recipe s ++ ing_rows
               /\ Forall (fun row => iir_recipe row
                                     = recipe_id (new_recipe s pk vd2)) ing_rows
               /\ rows_for (amounts s') linked ing_rows
               /\ (res = Ok (new_recipe s pk vd2) /\ linked = ing_items
                   \/ exists e item rest,
                        res = Raise e
                        /\ ing_items = linked ++ item :: rest
                        /\ (e = IntegrityError
                            /\ filter (same_amount (ingredient_id (fst item))
                                         (snd item)) (amounts s') = []
                            /\ (forall i, In i (ingredients s') ->
                                  ingredient_id i <> ingredient_id (fst item))
                            \/ e = MultipleObjectsReturned
                               /\ 2 <= List.length
                                         (filter (same_amount
                                                    (ingredient_id (fst item))
                                                    (snd item)) (amounts s')))))
  /\ (forall r, res = Ok r ->
        exists tag_items ing_items tag_rows ing_rows,
          Dict.get "tags" vd = Some (VTags tag_items)
          /\ Dict.get "ingredients" vd = Some (VIngredients ing_items)
          /\ tags_in_recipe s' = tags_in_recipe s ++ tag_rows
          /\ map tir_tag tag_rows = map tag_id tag_items
          /\ Forall (fun row => tir_recipe row = recipe_id r) tag_rows
          /\ ingredients_in_recipe s' = ingredients_in_recipe s ++ ing_rows
          /\ List.length ing_rows = List.length ing_items
          /\ Forall (fun row => iir_recipe row = recipe_id r) ing_rows).
Proof.
  intros H. apply create_run in H.
  destruct H as [(-> & [e ->] & Hno) | (ings & vd1 & tgs & vd2 & request & pk
                                        & P1 & P2 & C & U & H)].
  { split; [apply extends_refl|]. split.
    - intros ings vd1 tgs vd2 request pk P1 P2 C U.
      exfalso. exact (Hno _ _ _ _ _ _ P1 P2 C U).
    - intros r E. discriminate. }
  assert (Hsame : forall ings' vd1' tgs' vd2' request' pk',
             Dict.pop "ingredients" vd = Ok (ings', vd1') ->
             Dict.pop "tags" vd1' = Ok (tgs', vd2') ->
             context_request context = Some request' ->
             request_user request' = User pk' ->
             ings' = ings /\ tgs' = tgs /\ vd2' = vd2 /\ pk' = pk).
  { intros ings' vd1' tgs' vd2' request' pk' Q1 Q2 Q3 Q4.
    rewrite P1 in Q1. injection Q1 as <- <-.
    rewrite P2 in Q2. injection Q2 as <- <-.
    rewrite C in Q3. injection Q3 as <-.
    rewrite U in Q4. injection Q4 as <-. repeat split. }
  set (r0 := new_recipe s pk vd2) in *.
  destruct H as [(e & Htags & -> & ->) | (tag_items & sB & Htags & Hloop & H)].
  { split; [apply extends_with_recipe|]. split.
    - intros ings' vd1' tgs' vd2' request' pk' Q1 Q2 Q3 Q4.
      destruct (Hsame _ _ _ _ _ _ Q1 Q2 Q3 Q4) as (-> & -> & -> & ->).
      split; [reflexivity|].
      intros tl il -> _. discriminate.
    - intros r E. discriminate. }
  apply link_tags_extends in Hloop.
  destruct Hloop as (HeB & HrB & HaB & HiB & tag_rows & Htir & Hmap & Hall).
  destruct H as [(e & Hings & -> & ->) | (ing_items & res' & Hings & Hloop2 & ->)].
  { split; [eapply extends_trans; [apply extends_with_recipe | exact HeB]|].
    split.
    - intros ings' vd1' tgs' vd2' request' pk' Q1 Q2 Q3 Q4.
      destruct (Hsame _ _ _ _ _ _ Q1 Q2 Q3 Q4) as (-> & -> & -> & ->).
      split; [exact HrB|].
      intros tl il _ ->. discriminate.
    - intros r E. discriminate. }
  pose proof (link_ingredients_extends _ _ _ _ _ Hloop2) as He'.
  pose proof (link_ingredients_prefix _ _ _ _ _ Hloop2)
    as (linked & ing_rows1 & Hrows1 & Hfor & Hend).
  apply link_ingredients_run in Hloop2.
  destruct Hloop2 as (Ht & Hi & Hr & Htir' & _ & _ & _ & ing_rows & Hrows
                      & Hall' & Hok).
  assert (ing_rows1 = ing_rows) as ->.
  { rewrite Hrows in Hrows1. now apply app_inv_head in Hrows1. }
  split; [eapply extends_trans;
          [apply extends_with_recipe | eapply extends_trans; eassumption]|].
  split.
  - intros ings' vd1' tgs' vd2' request' pk' Q1 Q2 Q3 Q4.
    destruct (Hsame _ _ _ _ _ _ Q1 Q2 Q3 Q4) as (-> & -> & -> & ->).
    split; [now rewrite Hr, HrB|].
    intros tl il -> ->. cbn in Htags, Hings.
    injection Htags as <-. injection Hings as <-.
    exists tag_rows, linked, ing_rows.
    split; [now rewrite Htir', Htir|]. split; [exact Hmap|].
    split; [exact Hall|]. split; [now rewrite Hrows, HiB|].
    split; [exact Hall'|]. split; [exact Hfor|].
    destruct Hend as [[-> ->] | (e & item & rest & -> & -> & Hbad)].
    + now left.
    + right. exists e, item, rest. split; [reflexivity|]. split; [reflexivity|].
      apply link_ingredient_fails in Hbad. exact (proj2 Hbad).
  - intros r E. destruct res' as [[]|e]; [|discriminate]. injection E as <-.
    apply pop_inv in P1. destruct P1 as [G1 ->].
    apply pop_inv in P2. destruct P2 as [G2 _].
    rewrite get_remove_other in G2 by discriminate.
    apply as_tags_inv in Htags. apply as_ingredients_inv in Hings. subst.
    exists tag_items, ing_items, tag_rows, ing_rows.
    repeat split; try assumption.
    + now rewrite Htir', Htir.
    + now rewrite Hrows, HiB.
    + symmetry. eapply Forall2_length. now apply Hok.
Qed.


(** *** Shared amount rows *)

Lemma rows_for_later (amts amts' : list AmountOfIngredient)
    (items : list (Ingredient * Z)) (rows : list IngredientInRecipe) :
  (forall k n b, filter (same_amount k n) amts = [b] ->
                 filter (same_amount k n) amts' = [b]) ->
  rows_for amts items rows -> rows_for amts' items rows.
Proof.
  intros Hsticky H. induction H as [|item row items rows (a & Ha & Hrow) _ IH].
  - constructor.
  - constructor; [|exact IH]. exists a. split; [now apply Hsticky | exact Hrow].
Qed.

Lemma rows_for_entry (amts : list AmountOfIngredient)
    (items : list (Ingredient * Z)) (rows : list IngredientInRecipe)
    (item : Ingredient * Z) :
  rows_for amts items rows -> In item items ->
  exists a, filter (same_amount (ingredient_id (fst item)) (snd item)) amts = [a].
Proof.
  intros H. induction H as [|item' row items rows (a & Ha & _) _ IH].
  - contradiction.
  - intros [<- | Hin]; [eauto | now apply IH].
Qed.

Lemma only_row_in {A} (p : A -> bool) (l : list A) (a : A) :
  filter p l = [a] -> In a l /\ p a = true.
Proof.
  intros H. apply filter_In. rewrite H. now left.
Qed.

Lemma same_key_same_row (amts : list AmountOfIngredient)
    (a b : AmountOfIngredient) :
  NoDup (map aoi_id amts) -> In a amts -> In b amts -> aoi_id a = aoi_id b ->
  a = b.
Proof.
  induction amts as [|x amts IH]; [contradiction|].
  cbn. intros Hnd Ha Hb E. inversion Hnd as [|? ? Hx Hnd']; subst.
  destruct Ha as [<- | Ha], Hb as [<- | Hb]; auto.
  - exfalso. apply Hx. rewrite E. now apply in_map.
  - exfalso. apply Hx. rewrite <- E. now apply in_map.
Qed.

(** Among the join rows of a recipe, those that point to the amount row
    of a pair are as many as the entries that name the pair. *)
Lemma count_links (amts : list AmountOfIngredient) (k n : Z)
    (a0 : AmountOfIngredient) (recipe : Z) :
  NoDup (map aoi_id amts) ->
  filter (same_amount k n) amts = [a0] ->
  forall items rows,
    rows_for amts items rows ->
    Forall (fun row => iir_recipe row = recipe) rows ->
    List.length (filter (links recipe (aoi_id a0)) rows)
    = List.length (filter (same_pair k n) items).
Proof.
  intros Hnd H0 items rows H.
  induction H as [|item row items rows (a & Ha & Hrow) _ IH]; intros Hall.
  - reflexivity.
  - inversion Hall as [|? ? Hr Hall']; subst. specialize (IH Hall').
    cbn [filter]. unfold links at 1. rewrite Z.eqb_refl, Hrow. cbn [andb].
    destruct (only_row_in _ _ _ H0) as [Hin0 Hp0].
    destruct (only_row_in _ _ _ Ha) as [Hin Hp].
    destruct (same_pair k n item) eqn:Hs.
    + unfold same_pair in Hs. apply andb_true_iff in Hs.
      rewrite !Z.eqb_eq in Hs. destruct Hs as [E1 E2].
      rewrite E1, E2, H0 in Ha. injection Ha as <-.
      rewrite Z.eqb_refl. cbn. now rewrite IH.
    + destruct (Z.eqb_spec (aoi_id a) (aoi_id a0)) as [E|_]; [|exact IH].
      exfalso. apply (same_key_same_row amts a a0 Hnd Hin Hin0) in E. subst a.
      destruct (same_amount_key _ _ _ _ _ Hp Hp0) as [E1 E2].
      unfold same_pair in Hs. rewrite E1, E2, !Z.eqb_refl in Hs. discriminate.
Qed.

Lemma no_links (recipe aoi : Z) (rows : list IngredientInRecipe) :
  Forall (fun row => iir_recipe row <> recipe) rows ->
  filter (links recipe aoi) rows = [].
Proof.
  induction 1 as [|row rows Hr _ IH]; [reflexivity|].
  cbn. unfold links at 1.
  destruct (Z.eqb_spec (iir_recipe row) recipe); [contradiction | exact IH].
Qed.

(** What a successful [create] leaves behind, as far as the ingredient
    rows go. *)
Lemma create_links (context : Context) (vd : list (string * value))
    (s : Store) (r : Recipe) (s' : Store) (items : list (Ingredient * Z)) :
  store_wf s ->
  Dict.get "ingredients" vd = Some (VIngredients items) ->
  create context vd s = (Ok r, s') ->
  store_wf s'
  /\ recipe_id r = next_id (map recipe_id (recipes s))
  /\ In (recipe_id r) (map recipe_id (recipes s'))
  /\ (forall k n b, filter (same_amount k n) (amounts s) = [b] ->
                    filter (same_amount k n) (amounts s') = [b])
  /\ exists rows,
       ingredients_in_recipe s' = ingredients_in_recipe s ++ rows
       /\ Forall (fun row => iir_recipe row = recipe_id r) rows
       /\ rows_for (amounts s') items rows.
Proof.
  intros [Hnd Hfk] Hget H. apply create_run in H.
  destruct H as [(_ & [e E] & _) | (ings & vd1 & tgs & vd2 & request & pk
                                    & P1 & P2 & C & U & H)]; [discriminate|].
  destruct H as [(e & _ & E & _) | (tag_items & sB & _ & Hloop & H)];
    [discriminate|].
  apply link_tags_extends in Hloop.
  destruct Hloop as (_ & HrB & HaB & HiB & _).
  destruct H as [(e & _ & E & _) | (ing_items & res' & Hings & Hloop2 & E)];
    [discriminate|].
  destruct res' as [[]|e]; [|discriminate]. injection E as ->.
  apply pop_inv in P1. destruct P1 as [G1 _]. rewrite Hget in G1.
  injection G1 as <-. cbn in Hings. injection Hings as <-.
  apply link_ingredients_run in Hloop2.
  destruct Hloop2 as (_ & _ & Hr & _ & _ & Hnd' & Hsticky & rows & Hrows
                      & Hall & Hok).
  rewrite HaB in Hnd', Hsticky. rewrite HiB in Hrows. rewrite HrB in Hr.
  cbn [with_recipe recipes amounts ingredients_in_recipe] in *.
  assert (Hin : In (recipe_id (new_recipe s pk vd2)) (map recipe_id (recipes s'))).
  { rewrite Hr, map_app. apply in_or_app. right. now left. }
  split; [split|].
  - now apply Hnd'.
  - rewrite Hrows. apply Forall_app. split.
    + eapply Forall_impl; [|exact Hfk]. cbn. intros row Hrow.
      rewrite Hr, map_app. apply in_or_app. now left.
    + eapply Forall_impl; [|exact Hall]. cbn. intros row ->. exact Hin.
  - split; [reflexivity|]. split; [exact Hin|]. split; [exact Hsticky|].
    exists rows. split; [exact Hrows|]. split; [exact Hall|]. now apply Hok.
Qed.


Lemma same_pair_listed (i : Ingredient) (n : Z) (items : list (Ingredient * Z)) :
  In (i, n) items ->
  1 <= List.length (filter (same_pair (ingredient_id i) n) items).
Proof.
  intros Hin.
  assert (H : In (i, n) (filter (same_pair (ingredient_id i) n) items)).
  { apply filter_In. split; [exact Hin|].
    unfold same_pair. cbn. now rewrite !Z.eqb_refl. }
  destruct (filter _ items); [contradiction | cbn; lia].
Qed.

(** C3. Two recipes are created one after the other, and the validated
    ingredient list of each names the pair of ingredient [i] and amount
    [n]. Then the amount table has exactly one row for that pair, and
    each of the two recipes is linked to that row by as many join rows
    as its list has entries for the pair: one when the pair is listed
    once. *)
Theorem shared_amount_of_ingredient
    (context1 context2 : Context) (vd1 vd2 : list (string * value))
    (s0 s1 s2 : Store) (r1 r2 : Recipe)
    (l1 l2 : list (Ingredient * Z)) (i : Ingredient) (n : Z) :
  store_wf s0 ->
  Dict.get "ingredients" vd1 = Some (VIngredients l1) ->
  Dict.get "ingredients" vd2 = Some (VIngredients l2) ->
  In (i, n) l1 ->
  In (i, n) l2 ->
  create context1 vd1 s0 = (Ok r1, s1) ->
  create context2 vd2 s1 = (Ok r2, s2) ->
  recipe_id r1 <> recipe_id r2
  /\ exists a,
       filter (same_amount (ingredient_id i) n) (amounts s2) = [a]
       /\ List.length (filter (links (recipe_id r1) (aoi_id a))
                         (ingredients_in_recipe s2))
          = List.length (filter (same_pair (ingredient_id i) n) l1)
       /\ List.length (filter (links (recipe_id r2) (aoi_id a))
                         (ingredients_in_recipe s2))
          = List.length (filter (same_pair (ingredient_id i) n) l2)
       /\ 1 <= List.length (filter (same_pair (ingredient_id i) n) l1)
       /\ 1 <= List.length (filter (same_pair (ingredient_id i) n) l2).
Proof.
  intros Hwf0 G1 G2 In1 In2 C1 C2.
  destruct (create_links _ _ _ _ _ _ Hwf0 G1 C1)
    as (Hwf1 & Hid1 & Hin1 & Hsticky1 & rows1 & Hrows1 & Hall1 & Hfor1).
  destruct (create_links _ _ _ _ _ _ Hwf1 G2 C2)
    as (Hwf2 & Hid2 & Hin2 & Hsticky2 & rows2 & Hrows2 & Hall2 & Hfor2).
  assert (Hlt : (recipe_id r1 < recipe_id r2)%Z).
  { rewrite Hid2. now apply next_id_fresh. }
  split; [lia|].
  destruct (rows_for_entry _ _ _ _ Hfor1 In1) as [a Ha1]. cbn [fst snd] in Ha1.
  pose proof (Hsticky2 _ _ _ Ha1) as Ha2.
  exists a. split; [exact Ha2|].
  destruct Hwf0 as [_ Hfk0]. destruct Hwf1 as [_ Hfk1]. destruct Hwf2 as [Hnd2 _].
  rewrite Hrows2, Hrows1, !filter_app, !length_app.
  split; [|split; [|split; now apply same_pair_listed]].
  - rewrite (no_links (recipe_id r1) (aoi_id a) (ingredients_in_recipe s0)).
    + rewrite (no_links (recipe_id r1) (aoi_id a) rows2).
      * cbn [List.length]. rewrite Nat.add_0_r.
        apply (count_links (amounts s2)); try assumption.
        now apply (rows_for_later (amounts s1)).
      * eapply Forall_impl; [|exact Hall2]. cbn. intros row ->. lia.
    + eapply Forall_impl; [|exact Hfk0]. cbn. intros row Hrow.
      apply next_id_fresh in Hrow. lia.
  - rewrite (no_links (recipe_id r2) (aoi_id a) (ingredients_in_recipe s0)).
    + rewrite (no_links (recipe_id r2) (aoi_id a) rows1).
      * cbn [List.length plus].
        now apply (count_links (amounts s2)).
      * eapply Forall_impl; [|exact Hall1]. cbn. intros row ->. lia.
    + rewrite Hrows1 in Hfk1. apply Forall_app in Hfk1.
      destruct Hfk1 as [Hfk1 _].
      eapply Forall_impl; [|exact Hfk1]. cbn. intros row Hrow.
      apply next_id_fresh in Hrow. lia.
Qed.


Lemma store_wf_grows (s s' : Store) (r : Recipe) (rows : list IngredientInRecipe) :
  store_wf s ->
  (NoDup (map aoi_id (amounts s)) -> NoDup (map aoi_id (amounts s'))) ->
  recipes s' = recipes s ++ [r] ->
  ingredients_in_recipe s' = ingredients_in_recipe s ++ rows ->
  Forall (fun row => iir_recipe row = recipe_id r) rows ->
  store_wf s'.
Proof.
  intros [Hnd Hfk] Hnd' Hr Hrows Hall. split; [now apply Hnd'|].
  rewrite Hrows, Hr. apply Forall_app. split.
  - eapply Forall_impl; [|exact Hfk]. cbn. intros row Hrow.
    rewrite map_app. apply in_or_app. now left.
  - eapply Forall_impl; [|exact Hall]. cbn. intros row ->.
    rewrite map_app. apply in_or_app. right. now left.
Qed.

(** The two properties of the store are kept by every run of [create],
    whether it ends well or not. *)
Lemma create_keeps_store_wf (context : Context) (vd : list (string * value))
    (s : Store) (res : outcome Recipe) (s' : Store) :
  store_wf s -> create context vd s = (res, s') -> store_wf s'.
Proof.
  intros Hwf H. apply create_run in H.
  destruct H as [(-> & _) | (ings & vd1 & tgs & vd2 & request & pk
                             & _ & _ & _ & _ & H)]; [exact Hwf|].
  destruct H as [(e & _ & _ & ->) | (tag_items & sB & _ & Hloop & H)].
  { apply (store_wf_grows s _ (new_recipe s pk vd2) []); cbn; auto.
    now rewrite app_nil_r. }
  apply link_tags_extends in Hloop.
  destruct Hloop as (_ & HrB & HaB & HiB & _).
  cbn [with_recipe recipes amounts ingredients_in_recipe] in *.
  destruct H as [(e & _ & _ & ->) | (ing_items & res' & _ & Hloop2 & _)].
  { apply (store_wf_grows s _ (new_recipe s pk vd2) []); auto.
    - now rewrite HaB.
    - now rewrite HiB, app_nil_r. }
  apply link_ingredients_run in Hloop2.
  destruct Hloop2 as (_ & _ & Hr & _ & _ & Hnd' & _ & rows & Hrows & Hall & _).
  apply (store_wf_grows s _ (new_recipe s pk vd2) rows); auto.
  - now rewrite <- HaB.
  - now rewrite Hr, HrB.
  - now rewrite Hrows, HiB.
Qed.

End Facts.
End StoreFacts.


(** ** The serializers on concrete requests *)

Section Examples.
#[local] Existing Instance Sample.framework.
Import Sample StoreFacts.

Lemma UserMeSerializer_anonymous_denied_witness :
  context_request anonymous = Some (mkRequest AnonymousUser)
  /\ is_authenticated (request_user (mkRequest AnonymousUser)) = false
  /\ UserMeSerializer_to_representation anonymous 7 = Raise NotAuthenticated.
Proof.
  split; [reflexivity|]. split; [reflexivity|].
  apply (UserMeSerializer_anonymous_denied anonymous (mkRequest AnonymousUser) 7);
    reflexivity.
Defined.

Lemma to_internal_value_missing_tags_witness :
  Dict.get "tags" payload_without_tags = None
  /\ to_internal_value true store0 payload_without_tags = Raise (KeyError "tags").
Proof.
  split; [reflexivity|].
  apply (to_internal_value_missing_tags true alice store0 payload_without_tags).
  reflexivity.
Defined.

Lemma to_internal_value_normalises_tags_witness :
  Dict.get "tags" (payload "pie" [flour200]) = Some (PyList [PyInt 1])
  /\ to_internal_value true store0 (payload "pie" [flour200])
     = Serializer_to_internal_value (writable_fields true store0)
         (Dict.set "tags" (PyList (map (fun v => PyDict [("id", v)]) [PyInt 1]))
            (Dict.remove "tags" (payload "pie" [flour200])))
  /\ exists rows,
       Dict.get "tags" (validated "pie") = Some (VTags rows)
       /\ Forall2 (fun v t =>
                     In t (tags store0)
                     /\ (forall z, v = PyInt z -> tag_id t = z)
                     /\ (forall s z, v = PyStr s -> py_int s = Some z ->
                                     tag_id t = z))
                  [PyInt 1] rows.
Proof.
  split; [reflexivity|].
  destruct (to_internal_value_normalises_tags true store0
              (payload "pie" [flour200]) [PyInt 1] eq_refl)
    as (H1 & _ & _ & _ & _ & _ & H7 & _).
  split; [exact H1|].
  apply (H7 (validated "pie")). reflexivity.
Defined.

Lemma perform_create_rejects_empty_ingredients_witness :
  Dict.get "ingredients" (payload "pie" []) = Some (PyList [])
  /\ exists e, perform_create alice (payload "pie" []) store0 = (Raise e, store0).
Proof.
  split; [reflexivity|].
  apply (perform_create_rejects_empty_ingredients alice store0 (payload "pie" [])).
  reflexivity.
Defined.

(** C2 as stated fails: a creation request with an empty ingredient
    list and no [tags] key ends with [KeyError], which is not a
    validation error. *)
Lemma empty_ingredients_without_tags_is_key_error :
  Dict.get "ingredients" payload_without_tags = Some (PyList [])
  /\ perform_create alice payload_without_tags store0
     = (Raise (KeyError "tags"), store0)
  /\ is_validation_error (KeyError "tags") = false.
Proof. repeat split. Qed.

Lemma resubmitted_representation_rejected_witness :
  recipe_tags store_with_pie pie <> []
  /\ to_representation alice store_with_pie pie = Ok pie_representation
  /\ exists e,
       perform_update pie pie_representation store_with_pie
       = (Raise e, store_with_pie)
       /\ forall errs, e = ValidationError errs -> In "tags" errs.
Proof.
  assert (H : recipe_tags store_with_pie pie <> []) by (vm_compute; discriminate).
  split; [exact H|]. split; [reflexivity|].
  apply (resubmitted_representation_rejected alice store_with_pie pie
           pie_representation H).
  reflexivity.
Defined.

(** C7 as stated fails: the representation of a stored recipe, sent back
    as an update, is rejected by validation. *)
Lemma resubmitted_pie_is_rejected :
  In pie (recipes store_with_pie)
  /\ to_representation alice store_with_pie pie = Ok pie_representation
  /\ perform_update pie pie_representation store_with_pie
     = (Raise (ValidationError ["tags"; "image"]), store_with_pie).
Proof. split; [now left|]. split; reflexivity. Qed.

(** C8 on a request: an update that renames the recipe and sends no
    image passes validation, with no image among the validated data, and
    is then refused by the inherited [update]; the recipe keeps its old
    name. *)
Theorem rename_without_image_is_refused :
  Dict.get "image" rename_payload = None
  /\ (exists vd, RecipeUpdateSerializer_to_internal_value store_with_pie
                   rename_payload = Ok vd
                 /\ Dict.get "image" vd = None
                 /\ Dict.get "name" vd = Some (VPrim (PyStr "apple pie")))
  /\ perform_update pie rename_payload store_with_pie
     = (Raise AssertionError, store_with_pie)
  /\ Dict.get "name" (recipe_fields pie) = Some (VPrim (PyStr "pie")).
Proof.
  split; [reflexivity|]. split; [|split; reflexivity].
  eexists. split; [reflexivity|]. split; reflexivity.
Qed.

Lemma create_commits_each_write_witness :
  create alice validated_with_sugar store0
  = (Raise IntegrityError,
     mkStore [breakfast] [flour] [mkAmountOfIngredient 1 5 200] [pie]
       [mkTagInRecipe 1 1 1] [mkIngredientInRecipe 1 1 1])
  /\ recipes store0 = []
  /\ exists tag_rows linked ing_rows,
       [mkTagInRecipe 1 1 1] = tags_in_recipe store0 ++ tag_rows
       /\ map tir_tag tag_rows = map tag_id [breakfast]
       /\ [mkIngredientInRecipe 1 1 1] = ingredients_in_recipe store0 ++ ing_rows
       /\ rows_for [mkAmountOfIngredient 1 5 200] linked ing_rows
       /\ exists item rest,
            [(flour, 200%Z); (sugar, 50%Z)] = linked ++ item :: rest.
Proof.
  assert (Hrun : create alice validated_with_sugar store0
                 = (Raise IntegrityError,
                    mkStore [breakfast] [flour] [mkAmountOfIngredient 1 5 200]
                      [pie] [mkTagInRecipe 1 1 1] [mkIngredientInRecipe 1 1 1]))
    by reflexivity.
  split; [exact Hrun|]. split; [reflexivity|].
  destruct (create_commits_each_write alice validated_with_sugar store0
              (Raise IntegrityError)
              (mkStore [breakfast] [flour] [mkAmountOfIngredient 1 5 200] [pie]
                 [mkTagInRecipe 1 1 1] [mkIngredientInRecipe 1 1 1]) Hrun)
    as (_ & H & _).
  destruct (H (VIngredients [(flour, 200%Z); (sugar, 50%Z)])
              (Dict.remove "ingredients" validated_with_sugar)
              (VTags [breakfast])
              (Dict.remove "tags" (Dict.remove "ingredients" validated_with_sugar))
              (mkRequest (User 7)) 7%Z eq_refl eq_refl eq_refl eq_refl)
    as (_ & Hrows).
  destruct (Hrows [breakfast] [(flour, 200%Z); (sugar, 50%Z)] eq_refl eq_refl)
    as (tag_rows & linked & ing_rows & Ht & Hm & _ & Hi & _ & Hfor & Hend).
  exists tag_rows, linked, ing_rows.
  split; [exact Ht|]. split; [exact Hm|]. split; [exact Hi|].
  split; [exact Hfor|].
  destruct Hend as [[E _] | (e & item & rest & _ & Hsplit & _)];
    [discriminate|].
  exists item, rest. exact Hsplit.
Defined.

(** C1 as stated fails: when the ingredient row has gone, or when the
    pair has two amount rows, [create] fails on the ingredient after the
    Recipe row and the tag row were written, and both stay; so do the
    amount row and the join row of an ingredient entry before the one
    that fails. *)
Lemma create_leaves_partial_writes :
  create alice (validated "pie") store_no_flour
  = (Raise IntegrityError,
     mkStore [breakfast] [] [] [pie] [mkTagInRecipe 1 1 1] [])
  /\ create alice validated_with_sugar store0
     = (Raise IntegrityError,
        mkStore [breakfast] [flour] [mkAmountOfIngredient 1 5 200] [pie]
          [mkTagInRecipe 1 1 1] [mkIngredientInRecipe 1 1 1])
  /\ perform_create alice (payload "pie" [flour200]) store_twice
     = (Raise MultipleObjectsReturned,
        mkStore [breakfast] [flour]
          [mkAmountOfIngredient 1 5 200; mkAmountOfIngredient 2 5 200]
          [pie] [mkTagInRecipe 1 1 1] [])
  /\ recipes store_no_flour = [] /\ recipes store_twice = [].
Proof. repeat split. Qed.

Lemma shared_amount_of_ingredient_witness :
  store_wf store0
  /\ Dict.get "ingredients" (validated "pie") = Some (VIngredients [(flour, 200%Z)])
  /\ Dict.get "ingredients" (validated "cake") = Some (VIngredients [(flour, 200%Z)])
  /\ In (flour, 200%Z) [(flour, 200%Z)]
  /\ exists r2 s2,
       create alice (validated "pie") store0 = (Ok pie, store_with_pie)
       /\ create alice (validated "cake") store_with_pie = (Ok r2, s2)
       /\ recipe_id pie <> recipe_id r2
       /\ exists a,
            filter (same_amount (ingredient_id flour) 200) (amounts s2) = [a]
            /\ List.length (filter (links (recipe_id pie) (aoi_id a))
                              (ingredients_in_recipe s2))
               = List.length (filter (same_pair (ingredient_id flour) 200)
                                [(flour, 200%Z)])
            /\ List.length (filter (links (recipe_id r2) (aoi_id a))
                              (ingredients_in_recipe s2))
               = List.length (filter (same_pair (ingredient_id flour) 200)
                                [(flour, 200%Z)])
            /\ 1 <= List.length (filter (same_pair (ingredient_id flour) 200)
                                   [(flour, 200%Z)])
            /\ 1 <= List.length (filter (same_pair (ingredient_id flour) 200)
                                   [(flour, 200%Z)]).
Proof.
  assert (Hwf : store_wf store0) by (split; constructor).
  split; [exact Hwf|]. split; [reflexivity|]. split; [reflexivity|].
  split; [now left|].
  eexists. eexists. split; [reflexivity|]. split; [reflexivity|].
  apply (shared_amount_of_ingredient alice alice (validated "pie")
           (validated "cake") store0 store_with_pie _ pie _
           [(flour, 200%Z)] [(flour, 200%Z)] flour 200 Hwf);
    solve [reflexivity | now left].
Defined.

End Examples.


(** * Further properties *)

(** ** What the image field accepts and rejects *)

Section ImageFieldMore.
Context {fw : Framework}.
Import PyStr PyStrFacts Base64 Base64Facts.
Local Open Scope string_scope.

Lemma significant_plain (c : ascii) : significant c = true -> plain c = true.
Proof.
  destruct c as [[] [] [] [] [] [] [] []]; vm_compute; intros H;
    solve [reflexivity | discriminate H].
Qed.

Lemma a2b_step_other (st : a2b_state) (c : ascii) :
  significant c = false -> a2b_step st c = Continue st None.
Proof.
  unfold significant. intros H. apply orb_false_iff in H. destruct H as [Hp Ht].
  unfold a2b_step. rewrite Hp.
  apply N.ltb_ge in Ht. apply N.leb_le in Ht. now rewrite Ht.
Qed.

(** The loop gives the same result on a string and on the string
    without the characters it passes over. *)
Lemma a2b_loop_strip :
  forall (s : string) (st : a2b_state) (out : list byte),
    a2b_loop (strip s) st out = a2b_loop s st out.
Proof.
  induction s as [|c s IH]; intros st out; [reflexivity|].
  cbn [strip]. destruct (significant c) eqn:Hc.
  - cbn [a2b_loop]. destruct (a2b_step st c); [apply IH | reflexivity].
  - cbn [a2b_loop]. rewrite (a2b_step_other _ _ Hc). cbn [push]. apply IH.
Qed.

Lemma strip_plain (s : string) : forallb plain (strip s) = true.
Proof.
  induction s as [|c s IH]; [reflexivity|].
  cbn [strip]. destruct (significant c) eqn:Hc; [|exact IH].
  cbn [forallb]. now rewrite (significant_plain _ Hc), IH.
Qed.

Lemma plain_ascii (s : string) : forallb plain s = true -> forallb is_ascii s = true.
Proof.
  apply forallb_weaken. intros c. unfold plain. rewrite andb_true_iff. tauto.
Qed.

Lemma plain_lacks_semicolon (s : string) :
  forallb plain s = true -> lacks ";" s = true.
Proof.
  apply forallb_weaken. intros c. unfold plain. rewrite andb_true_iff. tauto.
Qed.

Lemma b64decode_strip (s : string) :
  forallb is_ascii s = true -> b64decode (strip s) = b64decode s.
Proof.
  intros H. unfold b64decode.
  rewrite H, (plain_ascii _ (strip_plain s)). apply a2b_loop_strip.
Qed.

(** What the field does with a string that has the separator once. *)
Lemma to_internal_value_data_uri (pre payload : string) :
  startswith pre "data:image" = true ->
  lacks ";" pre = true ->
  contains ";base64," payload = false ->
  Base64ImageField_to_internal_value (PyStr (pre ++ ";base64," ++ payload))
  = bind (b64decode payload) (fun content =>
      ImageField_to_internal_value
        (PyFile (mkFile ("temp." ++ last_item (split "/" pre)) content))).
Proof.
  intros Hpre Hsemi Honce. unfold Base64ImageField_to_internal_value.
  rewrite startswith_app by assumption.
  now rewrite split_data_uri by assumption.
Qed.

(** X1. Characters of the payload that are neither in the base64
    alphabet nor the pad character (spaces, line breaks, punctuation)
    make no difference: the field does with the payload what it does
    with the payload without them. *)
Theorem Base64ImageField_ignores_other_characters (pre payload : string) :
  startswith pre "data:image" = true ->
  lacks ";" pre = true ->
  contains ";base64," payload = false ->
  forallb is_ascii payload = true ->
  Base64ImageField_to_internal_value (PyStr (pre ++ ";base64," ++ payload))
  = Base64ImageField_to_internal_value (PyStr (pre ++ ";base64," ++ strip payload)).
Proof.
  intros Hpre Hsemi Honce Hascii.
  rewrite !to_internal_value_data_uri; try assumption.
  - now rewrite b64decode_strip.
  - apply lacks_contains, plain_lacks_semicolon, strip_plain.
Qed.

(** Decoding stops at the padding that completes the last group. *)
Lemma a2b_loop_tail1_then (a : byte) (rest : string) (st : a2b_state)
    (out : list byte) :
  quad_pos st = 0 ->
  a2b_loop (b64encode [a] ++ rest) st out = Ok (rev (a :: out)).
Proof.
  intros Hq. good_pair_facts a x00.
  cbn [b64encode append a2b_loop].
  rewrite good_char_step by assumption. rewrite Hq. cbn [a2b_data push].
  rewrite good_char_step by assumption. cbn [quad_pos leftchar a2b_data push].
  repeat match goal with E : _ = _ |- _ => rewrite E end.
  reflexivity.
Qed.

Lemma a2b_loop_tail2_then (a b : byte) (rest : string) (st : a2b_state)
    (out : list byte) :
  quad_pos st = 0 ->
  a2b_loop (b64encode [a; b] ++ rest) st out = Ok (rev (b :: a :: out)).
Proof.
  intros Hq. good_pair_facts a b. good_pair_facts b x00.
  cbn [b64encode append a2b_loop].
  rewrite good_char_step by assumption. rewrite Hq. cbn [a2b_data push].
  rewrite good_char_step by assumption. cbn [quad_pos leftchar a2b_data push].
  rewrite good_char_step by assumption. cbn [quad_pos leftchar a2b_data push].
  repeat match goal with E : _ = _ |- _ => rewrite E end.
  reflexivity.
Qed.

Lemma a2b_loop_padded_then (n : nat) :
  forall (bs : list byte) (rest : string) (st : a2b_state) (out : list byte),
    List.length bs <= n -> List.length bs mod 3 <> 0 -> quad_pos st = 0 ->
    a2b_loop (b64encode bs ++ rest) st out = Ok (rev out ++ bs)%list.
Proof.
  induction n as [n IH] using lt_wf_ind.
  intros bs rest st out Hlen Hmod Hq.
  destruct bs as [|a [|b [|c bs]]].
  - now cbn in Hmod.
  - rewrite a2b_loop_tail1_then by assumption. reflexivity.
  - rewrite a2b_loop_tail2_then by assumption. cbn [rev].
    rewrite <- !app_assoc. reflexivity.
  - cbn [b64encode append]. rewrite a2b_loop_group by assumption.
    cbn [List.length] in Hlen, Hmod.
    rewrite (IH (List.length bs)); [| lia | lia | | reflexivity].
    + cbn [rev]. rewrite <- !app_assoc. reflexivity.
    + intros E. apply Hmod.
      replace (S (S (S (List.length bs)))) with (List.length bs + 1 * 3) by lia.
      now rewrite Nat.Div0.mod_add.
Qed.

(** X2. When the bytes do not fill whole groups of three, so that their
    encoding ends with padding, whatever follows the padding in the
    payload is not looked at: the field produces the file of the bytes
    alone. *)
Theorem Base64ImageField_ignores_data_after_padding
    (pre rest : string) (bs : list byte) :
  startswith pre "data:image" = true ->
  lacks ";" pre = true ->
  List.length bs mod 3 <> 0 ->
  forallb is_ascii rest = true ->
  lacks ";" rest = true ->
  Base64ImageField_to_internal_value
    (PyStr (pre ++ ";base64," ++ b64encode bs ++ rest))
  = ImageField_to_internal_value
      (PyFile (mkFile ("temp." ++ last_item (split "/" pre)) bs)).
Proof.
  intros Hpre Hsemi Hmod Hascii Hrest.
  rewrite to_internal_value_data_uri; try assumption.
  - unfold b64decode. rewrite forallb_app.
    rewrite (plain_ascii _ (b64encode_plain_bounded _ bs (le_n _))), Hascii.
    cbn [andb]. unfold a2b_base64.
    rewrite (a2b_loop_padded_then (List.length bs)); auto.
  - apply lacks_contains. rewrite lacks_app, b64encode_lacks_semicolon.
    exact Hrest.
Qed.

Lemma split_go_nonempty (sep : string) :
  forall s skip cur, exists x l, split_go sep s skip cur = x :: l.
Proof.
  induction s as [|c s IH]; intros skip cur; cbn [split_go]; [eauto|].
  destruct skip as [|k]; [|apply IH].
  destruct (prefix sep (String c s)); [eauto | apply IH].
Qed.

Lemma split_go_twice (c0 : ascii) (sep' : string) :
  forall s cur, contains (String c0 sep') s = true ->
    exists x y l, split_go (String c0 sep') s 0 cur = x :: y :: l.
Proof.
  induction s as [|c s IH]; intros cur H.
  - discriminate.
  - cbn [contains] in H. cbn [split_go].
    destruct (prefix (String c0 sep') (String c s)).
    + destruct (split_go_nonempty (String c0 sep') s
                  (String.length (String c0 sep') - 1) EmptyString)
        as (y & l & ->). eauto.
    + now apply IH.
Qed.

(** X3. A string in which the separator occurs a second time is
    rejected with [ValueError], before anything is decoded. *)
Theorem Base64ImageField_rejects_second_separator (pre rest : string) :
  startswith pre "data:image" = true ->
  lacks ";" pre = true ->
  contains ";base64," rest = true ->
  Base64ImageField_to_internal_value (PyStr (pre ++ ";base64," ++ rest))
  = Raise ValueError.
Proof.
  intros Hpre Hsemi Htwice. unfold Base64ImageField_to_internal_value.
  rewrite startswith_app by assumption.
  unfold split. rewrite split_go_first by assumption.
  destruct (split_go_twice _ _ rest EmptyString Htwice) as (x & y & l & ->).
  reflexivity.
Qed.

Lemma last_item_cons (x y : string) (l : list string) :
  last_item (x :: y :: l) = last_item (y :: l).
Proof. reflexivity. Qed.

(** The last piece of a string cut at slashes is what follows its last
    slash. *)
Lemma last_item_split_slash (e : string) :
  lacks "/" e = true ->
  forall p cur, last_item (split_go "/" (p ++ "/" ++ e) 0 cur) = e.
Proof.
  intros He. induction p as [|c p IH]; intros cur.
  - change (EmptyString ++ "/" ++ e) with ("" ++ "/" ++ e).
    rewrite (split_go_first "/" "" e "" cur eq_refl).
    rewrite split_go_none by now apply lacks_contains.
    reflexivity.
  - change (String c p ++ "/" ++ e) with (String c (p ++ "/" ++ e)).
    cbn [split_go].
    destruct (prefix "/" (String c (p ++ "/" ++ e))).
    + destruct (split_go_nonempty "/" (p ++ "/" ++ e)
                  (String.length "/" - 1) EmptyString) as (y & l & E).
      rewrite E, last_item_cons, <- E. apply IH.
    + apply IH.
Qed.

(** X4. The extension of the file is what follows the last slash of the
    text before the separator, whatever stands before that slash. *)
Theorem Base64ImageField_extension_after_last_slash
    (p e : string) (bs : list byte) :
  startswith (p ++ "/" ++ e) "data:image" = true ->
  lacks ";" p = true ->
  lacks ";" e = true ->
  lacks "/" e = true ->
  Base64ImageField_to_internal_value
    (PyStr ((p ++ "/" ++ e) ++ ";base64," ++ b64encode bs))
  = ImageField_to_internal_value (PyFile (mkFile ("temp." ++ e) bs)).
Proof.
  intros Hpre Hp He Hslash.
  rewrite to_internal_value_data_uri.
  - rewrite b64decode_b64encode. cbn [bind]. unfold split.
    now rewrite last_item_split_slash.
  - exact Hpre.
  - rewrite !lacks_app, Hp, He. reflexivity.
  - apply lacks_contains, b64encode_lacks_semicolon.
Qed.

(** X5. When the text before the separator has no slash, all of it
    becomes the extension. *)
Theorem Base64ImageField_extension_without_slash (pre : string) (bs : list byte) :
  startswith pre "data:image" = true ->
  lacks ";" pre = true ->
  lacks "/" pre = true ->
  Base64ImageField_to_internal_value (PyStr (pre ++ ";base64," ++ b64encode bs))
  = ImageField_to_internal_value (PyFile (mkFile ("temp." ++ pre) bs)).
Proof.
  intros Hpre Hsemi Hslash.
  rewrite to_internal_value_data_uri; try assumption.
  - rewrite b64decode_b64encode. cbn [bind].
    rewrite split_absent by now apply lacks_contains. reflexivity.
  - apply lacks_contains, b64encode_lacks_semicolon.
Qed.

End ImageFieldMore.


(** ** What a recipe payload must hold *)

Section ValidationMore.
Context {fw : Framework}.
Import DictFacts.

Lemma normalised_get (data : list (string * pyobj)) (items : list pyobj) (k : string) :
  k <> "tags" -> Dict.get k (normalised data items) = Dict.get k data.
Proof.
  intros Hk. unfold normalised.
  rewrite get_set_other by exact Hk. now apply get_remove_other.
Qed.

(** A field that fails on the normalised payload, whatever the tags
    are, makes deserialisation fail. *)
Lemma to_internal_value_field_failure (image_required : bool) (s : Store)
    (data : list (string * pyobj)) (f : Field) :
  In f (writable_fields image_required s) ->
  (forall items, exists e0, run_field f (normalised data items) = Raise e0) ->
  exists e,
    to_internal_value image_required s data = Raise e
    /\ forall errs, e = ValidationError errs -> In (field_name f) errs.
Proof.
  intros Hin Hfail.
  destruct (Dict.get "tags" data) as [tags|] eqn:Ht.
  - rewrite (to_internal_value_with_tags _ _ _ _ Ht).
    destruct (py_iter tags) as [items|e] eqn:Hi; cbn [bind].
    + destruct (Hfail items) as [e0 He0].
      apply (run_fields_with_failure _ _ f e0 Hin He0).
    + exists e. split; [reflexivity|].
      intros errs E. subst e. destruct tags; cbn in Hi; discriminate.
  - unfold to_internal_value. rewrite (pop_none _ _ Ht). cbn [bind].
    eexists. split; [reflexivity | discriminate].
Qed.

Lemma perform_create_field_failure (context : Context) (s : Store)
    (data : list (string * pyobj)) (f : Field) :
  In f (writable_fields true s) ->
  (forall items, exists e0, run_field f (normalised data items) = Raise e0) ->
  exists e,
    perform_create context data s = (Raise e, s)
    /\ forall errs, e = ValidationError errs -> In (field_name f) errs.
Proof.
  intros Hin Hfail.
  destruct (to_internal_value_field_failure true s data f Hin Hfail)
    as (e & He & Herrs).
  exists e. split; [|exact Herrs].
  unfold perform_create, RecipeCreateSerializer_to_internal_value.
  now rewrite He.
Qed.

(** One failing item makes the list fail. *)
(** X6. A creation request whose tag list names an identifier that no
    Tag row has fails and leaves the store as it was; when the failure
    is a validation error, it names [tags]. *)
Theorem perform_create_rejects_unknown_tag
    (context : Context) (s : Store) (data : list (string * pyobj))
    (ts : list pyobj) (z : Z) :
  Dict.get "tags" data = Some (PyList ts) ->
  In (PyInt z) ts ->
  (forall t, In t (tags s) -> tag_id t <> z) ->
  exists e,
    perform_create context data s = (Raise e, s)
    /\ forall errs, e = ValidationError errs -> In "tags" errs.
Proof.
  intros Ht Hin Hnone.
  unfold perform_create, RecipeCreateSerializer_to_internal_value.
  rewrite (to_internal_value_with_tags _ _ _ _ Ht). cbn [py_iter bind].
  assert (Hf : exists e0, run_field (tags_field s) (normalised data ts) = Raise e0).
  { unfold run_field, tags_field, normalised.
    cbn [field_name run_validation validate_method]. rewrite get_set_same.
    cbn [run_validation_with ListSerializer_to_internal_value].
    destruct (list_items_with_failure
                (TagsInRecipeSerializer_run_validation s) (map wrap_tag ts)
                (wrap_tag (PyInt z))
                (if database_holds z then ValidationError ["id"] else OverflowError)
                [] false)
      as [e He].
    - now apply in_map.
    - now apply unknown_tag_rejected.
    - rewrite He. cbn [bind]. eauto. }
  destruct Hf as [e0 He0].
  destruct (run_fields_with_failure (writable_fields true s) (normalised data ts)
              (tags_field s) e0 (or_introl eq_refl) He0 [] [])
    as (e & He & Herrs).
  unfold Serializer_to_internal_value. fold (normalised data ts).
  rewrite He. eauto.
Qed.

Lemma unknown_ingredient_rejected (s : Store) (d : list (string * pyobj)) (z : Z) :
  Dict.get "id" d = Some (PyInt z) ->
  (forall i, In i (ingredients s) -> ingredient_id i <> z) ->
  exists e, IngredientInRecipeSerializer_run_validation s (PyDict d) = Raise e.
Proof.
  intros Hid H. unfold IngredientInRecipeSerializer_run_validation.
  rewrite Hid.
  unfold PrimaryKeyRelatedField_run_validation at 1.
  unfold run_validation_with at 1.
  unfold PrimaryKeyRelatedField_to_internal_value, pk_get.
  rewrite (find_absent _ _ _ H).
  destruct (database_holds z); cbn [bind is_validation_error]; [|eauto].
  destruct (run_validation_with true amount_to_internal_value (Dict.get "amount" d))
    as [?|e']; [eauto|].
  destruct (is_validation_error e'); eauto.
Qed.

(** X7. A creation request with an ingredient entry whose identifier no
    Ingredient row has fails and leaves the store as it was; when the
    failure is a validation error, it names [ingredients]. *)
Theorem perform_create_rejects_unknown_ingredient
    (context : Context) (s : Store) (data : list (string * pyobj))
    (entries : list pyobj) (d : list (string * pyobj)) (z : Z) :
  Dict.get "ingredients" data = Some (PyList entries) ->
  In (PyDict d) entries ->
  Dict.get "id" d = Some (PyInt z) ->
  (forall i, In i (ingredients s) -> ingredient_id i <> z) ->
  exists e,
    perform_create context data s = (Raise e, s)
    /\ forall errs, e = ValidationError errs -> In "ingredients" errs.
Proof.
  intros Hing Hin Hid Hnone.
  apply (perform_create_field_failure context s data (ingredients_field s)).
  - right. now left.
  - intros items. unfold run_field, ingredients_field.
    cbn [field_name run_validation validate_method].
    rewrite normalised_get by discriminate. rewrite Hing.
    cbn [run_validation_with ListSerializer_to_internal_value].
    destruct (unknown_ingredient_rejected s d z Hid Hnone) as [e0 He0].
    destruct (list_items_with_failure
                (IngredientInRecipeSerializer_run_validation s) entries
                (PyDict d) e0 [] false Hin He0) as [e He].
    rewrite He. cbn [bind]. eauto.
Qed.

(** X8. A payload whose [tags] is [None], a boolean or a number makes
    deserialisation raise [TypeError], which is no validation error,
    before any field is validated; a creation request ends with it and
    writes nothing. *)
Theorem to_internal_value_tags_not_iterable
    (image_required : bool) (context : Context) (s : Store)
    (data : list (string * pyobj)) (tags : pyobj) :
  Dict.get "tags" data = Some tags ->
  tags = PyNone \/ (exists b, tags = PyBool b) \/ (exists z, tags = PyInt z) ->
  to_internal_value image_required s data = Raise TypeError
  /\ perform_create context data s = (Raise TypeError, s).
Proof.
  intros Ht Hkind.
  assert (Hiter : py_iter tags = Raise TypeError).
  { destruct Hkind as [-> | [[b ->] | [z ->]]]; reflexivity. }
  assert (E : forall b, to_internal_value b s data = Raise TypeError).
  { intros b. rewrite (to_internal_value_with_tags _ _ _ _ Ht).
    now rewrite Hiter. }
  split; [apply E|].
  unfold perform_create, RecipeCreateSerializer_to_internal_value.
  now rewrite E.
Qed.

Lemma remove_idem {V} (k : string) (d : list (string * V)) :
  Dict.remove k (Dict.remove k d) = Dict.remove k d.
Proof.
  induction d as [|[k0 v0] d IH]; cbn; [reflexivity|].
  destruct (String.eqb_spec k k0) as [E|N]; [exact IH|].
  cbn. destruct (String.eqb_spec k k0); [contradiction|]. now rewrite IH.
Qed.

Lemma remove_set_same {V} (k : string) (v : V) (d : list (string * V)) :
  Dict.remove k (Dict.set k v d) = Dict.remove k d.
Proof.
  induction d as [|[k0 v0] d IH]; cbn.
  - now rewrite String.eqb_refl.
  - destruct (String.eqb_spec k k0) as [E|N]; cbn.
    + rewrite String.eqb_refl. apply remove_idem.
    + destruct (String.eqb_spec k k0); [contradiction|]. now rewrite IH.
Qed.

(** X9. Only what iterating over [tags] yields matters: a payload with
    a dictionary under [tags] is deserialised like the payload with the
    list of the dictionary's keys there. *)
Theorem to_internal_value_tags_dictionary
    (image_required : bool) (s : Store) (data : list (string * pyobj))
    (d : list (string * pyobj)) :
  Dict.get "tags" data = Some (PyDict d) ->
  to_internal_value image_required s data
  = to_internal_value image_required s
      (Dict.set "tags" (PyList (map (fun kv => PyStr (fst kv)) d)) data).
Proof.
  intros Ht.
  rewrite (to_internal_value_with_tags _ _ _ _ Ht).
  rewrite (to_internal_value_with_tags _ _ _ _ (get_set_same _ _ _)).
  cbn [py_iter bind]. now rewrite remove_set_same.
Qed.


Lemma run_field_get (f : Field) (d1 d2 : list (string * pyobj)) :
  Dict.get (field_name f) d1 = Dict.get (field_name f) d2 ->
  run_field f d1 = run_field f d2.
Proof. intros H. unfold run_field. now rewrite H. Qed.

(** The loop reads the payload under the names of its fields only. *)
Lemma run_fields_get (d1 d2 : list (string * pyobj)) :
  forall fields ret errors,
    Forall (fun f => Dict.get (field_name f) d1 = Dict.get (field_name f) d2)
           fields ->
    run_fields fields d1 ret errors = run_fields fields d2 ret errors.
Proof.
  induction fields as [|f fs IH]; intros ret errors HF; [reflexivity|].
  inversion HF as [|? ? Hf HF']; subst.
  rewrite !run_fields_cons, (run_field_get _ _ _ Hf).
  destruct (run_field f d2) as [[v|]|e]; try now apply IH.
  destruct (is_validation_error e); [now apply IH | reflexivity].
Qed.

(** The names of the writable fields. *)
Lemma writable_field_names (image_required : bool) (s : Store) :
  map field_name (writable_fields image_required s)
  = ["tags"; "ingredients"; "is_favorited"; "is_in_shopping_cart"; "name";
     "image"; "text"; "cooking_time"].
Proof. reflexivity. Qed.

Lemma to_internal_value_other_key (image_required : bool) (s : Store)
    (data : list (string * pyobj)) (k : string) (x : pyobj) :
  ~ In k ["tags"; "ingredients"; "is_favorited"; "is_in_shopping_cart"; "name";
          "image"; "text"; "cooking_time"] ->
  to_internal_value image_required s (Dict.set k x data)
  = to_internal_value image_required s data.
Proof.
  intros Hk.
  assert (Hget : forall name,
             In name ["tags"; "ingredients"; "is_favorited";
                      "is_in_shopping_cart"; "name"; "image"; "text";
                      "cooking_time"] ->
             Dict.get name (Dict.set k x data) = Dict.get name data).
  { intros name Hin. apply get_set_other. intros ->. contradiction. }
  assert (Ht := Hget "tags" (or_introl eq_refl)).
  destruct (Dict.get "tags" data) as [tags|] eqn:E.
  - rewrite (to_internal_value_with_tags _ _ _ _ Ht).
    rewrite (to_internal_value_with_tags _ _ _ _ E).
    destruct (py_iter tags) as [items|e]; cbn [bind]; [|reflexivity].
    unfold Serializer_to_internal_value.
    fold (normalised (Dict.set k x data) items). fold (normalised data items).
    apply run_fields_get. apply Forall_forall. intros f Hf.
    assert (Hname : In (field_name f)
                      ["tags"; "ingredients"; "is_favorited";
                       "is_in_shopping_cart"; "name"; "image"; "text";
                       "cooking_time"]).
    { rewrite <- (writable_field_names image_required s). now apply in_map. }
    destruct (String.eqb_spec (field_name f) "tags") as [-> | Hn].
    + unfold normalised. now rewrite !get_set_same.
    + rewrite !normalised_get by exact Hn. now apply Hget.
  - unfold to_internal_value.
    rewrite (pop_none _ _ Ht), (pop_none _ _ E). reflexivity.
Qed.

(** X10. A creation request is decided by the eight writable keys of
    the payload alone: setting any other key, such as [author] or [id],
    to any value changes neither the outcome nor the store. *)
Theorem perform_create_ignores_other_keys
    (context : Context) (s : Store) (data : list (string * pyobj))
    (k : string) (x : pyobj) :
  ~ In k ["tags"; "ingredients"; "is_favorited"; "is_in_shopping_cart"; "name";
          "image"; "text"; "cooking_time"] ->
  perform_create context (Dict.set k x data) s = perform_create context data s.
Proof.
  intros Hk. unfold perform_create, RecipeCreateSerializer_to_internal_value.
  now rewrite to_internal_value_other_key.
Qed.

Lemma image_field_listed (image_required : bool) (s : Store) :
  In (image_field image_required) (writable_fields image_required s).
Proof. do 5 right. now left. Qed.

Lemma image_field_rejects_missing (data : list (string * pyobj)) :
  Dict.get "image" data = None \/ Dict.get "image" data = Some PyNone ->
  exists e0, run_field (image_field true) data = Raise e0.
Proof.
  intros H. unfold run_field, image_field.
  cbn [field_name run_validation validate_method].
  destruct H as [-> | ->]; cbn; eauto.
Qed.

(** X11. A creation request without an image, or with [None] as image,
    fails and leaves the store as it was; when the failure is a
    validation error, it names [image]. *)
Theorem perform_create_requires_image
    (context : Context) (s : Store) (data : list (string * pyobj)) :
  Dict.get "image" data = None \/ Dict.get "image" data = Some PyNone ->
  exists e,
    perform_create context data s = (Raise e, s)
    /\ forall errs, e = ValidationError errs -> In "image" errs.
Proof.
  intros H.
  apply (perform_create_field_failure context s data (image_field true)).
  - apply image_field_listed.
  - intros items. apply image_field_rejects_missing.
    now rewrite normalised_get by discriminate.
Qed.

(** X12. Whatever the creation serializer accepts, the update serializer
    accepts too, with the same validated data. *)
Theorem update_accepts_what_create_accepts
    (s : Store) (data : list (string * pyobj)) (vd : list (string * value)) :
  RecipeCreateSerializer_to_internal_value s data = Ok vd ->
  RecipeUpdateSerializer_to_internal_value s data = Ok vd.
Proof.
  intros H.
  destruct (Dict.get "image" data) as [image|] eqn:Hi.
  - now rewrite (update_validates_like_create s data image Hi).
  - exfalso.
    destruct (to_internal_value_field_failure true s data (image_field true)
                (image_field_listed true s)) as (e & He & _).
    + intros items. apply image_field_rejects_missing.
      rewrite normalised_get by discriminate. now left.
    + unfold RecipeCreateSerializer_to_internal_value in H.
      rewrite He in H. discriminate.
Qed.

Lemma TagsInRecipeSerializer_row (s : Store) (item : pyobj) (t : Tag) :
  TagsInRecipeSerializer_run_validation s item = Ok t -> In t (tags s).
Proof.
  unfold TagsInRecipeSerializer_run_validation.
  destruct item; try discriminate.
  destruct (PrimaryKeyRelatedField_run_validation tag_id (tags s)
              (Dict.get "id" d)) as [[t'|]|e] eqn:R; cbn.
  - intros E. injection E as <-. now apply PrimaryKeyRelatedField_row in R.
  - discriminate.
  - destruct (is_validation_error e); discriminate.
Qed.

Lemma IngredientInRecipeSerializer_row (s : Store) (item : pyobj)
    (i : Ingredient) (n : Z) :
  IngredientInRecipeSerializer_run_validation s item = Ok (i, n) ->
  In i (ingredients s).
Proof.
  unfold IngredientInRecipeSerializer_run_validation.
  destruct item; try discriminate.
  destruct (PrimaryKeyRelatedField_run_validation ingredient_id (ingredients s)
              (Dict.get "id" d)) as [[i'|]|e] eqn:R.
  - destruct (under "amount" _) as [[n'|]|e']; try discriminate.
    intros E. injection E as <- <-. now apply PrimaryKeyRelatedField_row in R.
  - discriminate.
  - destruct (is_validation_error e); [|discriminate].
    destruct (run_validation_with true amount_to_internal_value _) as [?|e'];
      [discriminate|].
    destruct (is_validation_error e'); discriminate.
Qed.

Lemma list_items_rows {A} (child : pyobj -> outcome A) (P : A -> Prop)
    (items : list pyobj) (l : list A) :
  (forall item a, child item = Ok a -> P a) ->
  list_items child items [] false = Ok l ->
  Forall P l /\ List.length l = List.length items.
Proof.
  intros Hc H. apply list_items_ok in H. destruct H as [_ (l' & -> & HF)].
  cbn [app]. split.
  - induction HF as [|item a items l' Ha _ IH]; constructor; eauto.
  - symmetry. now apply (Forall2_length HF).
Qed.

Lemma tags_field_rows (s : Store) (data : list (string * pyobj)) (v : value) :
  run_field (tags_field s) data = Ok (Some v) ->
  exists l, v = VTags l /\ Forall (fun t => In t (tags s)) l.
Proof.
  unfold run_field, tags_field.
  cbn [field_name run_validation validate_method].
  destruct (Dict.get "tags" data) as [[| | | |items| |]|]; try discriminate.
  cbn [run_validation_with ListSerializer_to_internal_value].
  destruct (list_items _ items [] false) as [l|e] eqn:L; [|discriminate].
  cbn [bind]. intros E. injection E as <-. exists l. split; [reflexivity|].
  apply (list_items_rows _ _ _ _ (TagsInRecipeSerializer_row s) L).
Qed.

Lemma ingredients_field_rows (s : Store) (data : list (string * pyobj)) :
  (exists e, run_field (ingredients_field s) data = Raise e)
  \/ exists entries l,
       Dict.get "ingredients" data = Some (PyList entries)
       /\ run_field (ingredients_field s) data = Ok (Some (VIngredients l))
       /\ l <> [] /\ List.length l = List.length entries
       /\ Forall (fun item => In (fst item) (ingredients s)) l.
Proof.
  unfold run_field, ingredients_field.
  cbn [field_name run_validation validate_method].
  destruct (Dict.get "ingredients" data) as [[| | | |entries| |]|];
    try (left; cbn; eauto; fail).
  cbn [run_validation_with ListSerializer_to_internal_value].
  destruct (list_items _ entries [] false) as [l|e] eqn:L; [|left; cbn; eauto].
  cbn [bind]. unfold validate_ingredients.
  destruct l as [|item l]; [left; cbn; eauto|].
  right. exists entries, (item :: l). cbn [truthy bind].
  split; [reflexivity|]. split; [reflexivity|]. split; [discriminate|].
  destruct (list_items_rows _ (fun item => In (fst item) (ingredients s))
              _ _ (fun item a => match a with (i, n) =>
                     IngredientInRecipeSerializer_row s item i n end) L)
    as [HF Hlen].
  now split.
Qed.

(** The two lists of validated data. *)
Lemma validated_lists
    (image_required : bool) (s : Store) (data : list (string * pyobj))
    (vd : list (string * value)) :
  to_internal_value image_required s data = Ok vd ->
  exists tag_items entries ingredient_items,
    Dict.get "tags" vd = Some (VTags tag_items)
    /\ Forall (fun t => In t (tags s)) tag_items
    /\ Dict.get "ingredients" data = Some (PyList entries)
    /\ Dict.get "ingredients" vd = Some (VIngredients ingredient_items)
    /\ ingredient_items <> []
    /\ List.length ingredient_items = List.length entries
    /\ Forall (fun item => In (fst item) (ingredients s)) ingredient_items.
Proof.
  unfold to_internal_value.
  destruct (Dict.pop "tags" data) as [[tags data1]|] eqn:Hp; cbn [bind];
    [|discriminate].
  apply StoreFacts.pop_inv in Hp. destruct Hp as [_ ->].
  destruct (py_iter tags) as [items|]; cbn [bind]; [|discriminate].
  fold (normalised data items).
  unfold Serializer_to_internal_value, writable_fields.
  rewrite run_fields_cons.
  destruct (run_field (tags_field s) (normalised data items)) as [[vt|]|e] eqn:Rt.
  - destruct (tags_field_rows _ _ _ Rt) as (tl & -> & Htl).
    rewrite run_fields_cons.
    destruct (ingredients_field_rows s (normalised data items))
      as [[e He] | (entries & il & Hget & Hr & Hne & Hlen & Hil)].
    + rewrite He. destruct (is_validation_error e); [|discriminate].
      intros H.
      match type of H with run_fields ?fs ?d ?r ?errs = _ =>
        destruct (run_fields_after_failure fs d r errs) as (e' & He' & _);
          [discriminate|] end.
      rewrite He' in H. discriminate.
    + rewrite Hr. intros H.
      pose proof H as H'.
      apply (run_fields_keeps "tags") in H.
      2:{ repeat (apply Forall_cons; [left; cbn; discriminate|]). apply Forall_nil. }
      apply (run_fields_keeps "ingredients") in H'.
      2:{ repeat (apply Forall_cons; [left; cbn; discriminate|]). apply Forall_nil. }
      exists tl, entries, il.
      rewrite normalised_get in Hget by discriminate.
      repeat split; assumption.
  - exfalso. unfold run_field, tags_field, normalised in Rt.
    cbn [field_name run_validation validate_method] in Rt.
    rewrite get_set_same in Rt. cbn in Rt.
    destruct (list_items _ _ _ _); discriminate.
  - destruct (is_validation_error e); [|discriminate].
    intros H.
    match type of H with run_fields ?fs ?d ?r ?errs = _ =>
      destruct (run_fields_after_failure fs d r errs) as (e' & He' & _);
        [discriminate|] end.
    rewrite He' in H. discriminate.
Qed.

(** X13. Validated data of either recipe serializer always carries a
    tag list made of rows of the Tag table and an ingredient list that
    is not empty, has one entry per entry of the payload, and names rows
    of the Ingredient table only. *)
Theorem validated_data_shape
    (image_required : bool) (s : Store) (data : list (string * pyobj))
    (vd : list (string * value)) :
  to_internal_value image_required s data = Ok vd ->
  exists tag_items entries ingredient_items,
    Dict.get "tags" vd = Some (VTags tag_items)
    /\ incl tag_items (tags s)
    /\ Dict.get "ingredients" data = Some (PyList entries)
    /\ Dict.get "ingredients" vd = Some (VIngredients ingredient_items)
    /\ 1 <= List.length ingredient_items
    /\ List.length ingredient_items = List.length entries
    /\ incl (map fst ingredient_items) (ingredients s).
Proof.
  intros H.
  destruct (validated_lists _ _ _ _ H)
    as (tl & entries & il & Ht & Htl & He & Hi & Hne & Hlen & Hil).
  exists tl, entries, il.
  split; [exact Ht|]. split.
  { intros t Hin. rewrite Forall_forall in Htl. now apply Htl. }
  split; [exact He|]. split; [exact Hi|]. split.
  { destruct il; [contradiction | cbn; lia]. }
  split; [exact Hlen|].
  intros i Hin. apply in_map_iff in Hin. destruct Hin as (item & <- & Hin).
  rewrite Forall_forall in Hil. now apply Hil.
Qed.

End ValidationMore.


(** ** The avatar, the ingredient entries and the recipe read back *)

Section OtherSerializerFacts.
Context {fw : Framework}.
Import DictFacts.

Lemma run_validation_with_value {A} (required : bool)
    (f : pyobj -> outcome A) (x : pyobj) :
  x <> PyNone ->
  run_validation_with required f (Some x) = bind (f x) (fun v => Ok (Some v)).
Proof. intros H. destruct x; try reflexivity. contradiction. Qed.

Lemma is_none_or_not (x : pyobj) : x = PyNone \/ x <> PyNone.
Proof. destruct x; (now left) || (right; discriminate). Qed.

(** X14. The avatar serializer accepts a payload exactly when it has,
    under [avatar], a value other than [None] that the image field
    accepts; the validated data is then that one image, and no other key
    of the payload is looked at. *)
Theorem UserAvatarSerializer_accepts
    (data : list (string * pyobj)) (vd : list (string * value)) :
  UserAvatarSerializer_to_internal_value data = Ok vd
  <-> exists x v,
        Dict.get "avatar" data = Some x
        /\ x <> PyNone
        /\ Base64ImageField_to_internal_value x = Ok v
        /\ vd = [("avatar", v)].
Proof.
  unfold UserAvatarSerializer_to_internal_value, Serializer_to_internal_value.
  rewrite run_fields_cons. unfold run_field, avatar_field.
  cbn [field_name run_validation validate_method].
  destruct (Dict.get "avatar" data) as [x|].
  - destruct (is_none_or_not x) as [-> | Hx].
    + cbn. split; [discriminate|].
      intros (x' & v' & E & Hne & _). injection E as <-. contradiction.
    + rewrite (run_validation_with_value _ _ _ Hx).
      destruct (Base64ImageField_to_internal_value x) as [v|e] eqn:B; cbn [bind].
      * cbn. split.
        -- intros E. injection E as <-. exists x, v. auto.
        -- intros (x' & v' & E & _ & Hv & ->). injection E as <-.
           rewrite B in Hv. now injection Hv as <-.
      * split.
        -- destruct (is_validation_error e); cbn; discriminate.
        -- intros (x' & v' & E & _ & Hv & _). injection E as <-.
           rewrite B in Hv. discriminate.
  - cbn. split; [discriminate|]. intros (x & v & Hx & _). discriminate.
Qed.

Lemma find_present {R} (pk : R -> Z) (queryset : list R) (z : Z) :
  (exists r, In r queryset /\ pk r = z) ->
  exists r, find (fun r => Z.eqb (pk r) z) queryset = Some r
            /\ In r queryset /\ pk r = z.
Proof.
  intros (r & Hin & Hpk).
  destruct (find (fun r => Z.eqb (pk r) z) queryset) as [r'|] eqn:F.
  - exists r'. apply find_some in F. destruct F as [Hin' E].
    apply Z.eqb_eq in E. auto.
  - apply (find_none _ _ F) in Hin. apply Z.eqb_neq in Hin. contradiction.
Qed.

(** X15. An ingredient entry as it is rendered, with its [id], [name],
    [measurement_unit] and [amount], is accepted back as an entry of a
    payload, provided the ingredient exists and the amount passes the
    validators of its column: it validates to that ingredient and that
    amount, the two read-only keys being ignored. *)
Theorem rendered_ingredient_is_accepted (s : Store) (a : AmountOfIngredient) :
  (exists i, In i (ingredients s) /\ ingredient_id i = aoi_ingredient a) ->
  amount_to_internal_value (PyInt (aoi_amount a)) = Ok (aoi_amount a) ->
  exists i,
    IngredientInRecipeSerializer_run_validation s
      (IngredientInRecipeSerializer_to_representation s a)
    = Ok (i, aoi_amount a)
    /\ In i (ingredients s) /\ ingredient_id i = aoi_ingredient a.
Proof.
  intros Hex Hamount.
  destruct (find_present ingredient_id (ingredients s) (aoi_ingredient a) Hex)
    as (i & Hfind & Hin & Hid).
  exists i. split; [|now split].
  unfold IngredientInRecipeSerializer_run_validation,
    IngredientInRecipeSerializer_to_representation.
  cbn [Dict.get String.eqb Ascii.eqb Bool.eqb].
  unfold PrimaryKeyRelatedField_run_validation, run_validation_with,
    PrimaryKeyRelatedField_to_internal_value, pk_get.
  rewrite Hfind, Hamount. reflexivity.
Qed.

(** Through the creation and update serializers a recipe is
    rendered for a logged-in requester only, as the retrieve serializer
    renders it for anyone; for an anonymous requester the guard on the
    nested author makes the whole rendering raise [NotAuthenticated]. *)
Lemma recipe_representation_by_requester
    (context : Context) (request : Request) (s : Store) (r : Recipe) :
  context_request context = Some request ->
  to_representation context s r
  = if is_authenticated (request_user request)
    then Ok (RecipeRetrieveSerializer_to_representation s r)
    else Raise NotAuthenticated.
Proof.
  intros H. unfold to_representation, UserMeSerializer_to_representation.
  rewrite H. now destruct (is_authenticated (request_user request)).
Qed.

End OtherSerializerFacts.


(** ** What the assembly workflow keeps and produces *)

Section AssemblyMore.
Context {fw : Framework}.
Import DictFacts StoreFacts.

(** *** Amount rows stay one per pair *)

Lemma pairs_step (item : Ingredient * Z) (old new : list AmountOfIngredient)
    (a : AmountOfIngredient) :
  filter (same_amount (ingredient_id (fst item)) (snd item)) new = [a] ->
  new = old
  \/ filter (same_amount (ingredient_id (fst item)) (snd item)) old = []
     /\ new = old ++ [a] /\ aoi_id a = next_id (map aoi_id old) ->
  (forall k n, List.length (filter (same_amount k n) old) <= 1) ->
  forall k n, List.length (filter (same_amount k n) new) <= 1.
Proof.
  intros Hf [-> | (Hnone & -> & _)] Hold k n; [apply Hold|].
  rewrite filter_app, length_app. cbn [filter].
  destruct (same_amount k n a) eqn:Ha; [|cbn; specialize (Hold k n); lia].
  destruct (only_row_in _ _ _ Hf) as [_ Ha'].
  destruct (same_amount_key _ _ _ _ _ Ha Ha') as [-> ->].
  rewrite Hnone. cbn. lia.
Qed.

Lemma link_ingredients_keep_pairs (r : Recipe) :
  forall (items : list (Ingredient * Z)) (s : Store) (res : outcome unit) (s' : Store),
    for_each items (link_ingredient r) s = (res, s') ->
    pairs_unique s -> pairs_unique s'.
Proof.
  induction items as [|item items IH]; intros s res s' H Hu.
  - cbn in H. now injection H as _ <-.
  - cbn [for_each] in H. unfold mbind at 1 in H.
    destruct (link_ingredient_cases r item s)
      as [[e He] | (a & amounts' & Hstep & Hf & Hcase)].
    + rewrite He in H. now injection H as _ <-.
    + rewrite Hstep in H. apply IH in H; [exact H|].
      unfold pairs_unique. cbn [amounts].
      exact (pairs_step item (amounts s) amounts' a Hf Hcase Hu).
Qed.

(** X16. Every run of [create], whether it ends well or not, keeps the
    amount table free of duplicates: if no pair of ingredient and amount
    had more than one row before, none has after. *)
Theorem create_keeps_pairs_unique (context : Context)
    (vd : list (string * value)) (s : Store) (res : outcome Recipe) (s' : Store) :
  pairs_unique s -> create context vd s = (res, s') -> pairs_unique s'.
Proof.
  intros Hu H. apply create_run in H.
  destruct H as [(-> & _) | (ings & vd1 & tgs & vd2 & request & pk
                             & _ & _ & _ & _ & H)]; [exact Hu|].
  destruct H as [(e & _ & _ & ->) | (tag_items & sB & _ & Hloop & H)];
    [exact Hu|].
  apply link_tags_extends in Hloop.
  destruct Hloop as (_ & _ & HaB & _).
  assert (HuB : pairs_unique sB).
  { unfold pairs_unique. rewrite HaB. exact Hu. }
  destruct H as [(e & _ & _ & ->) | (ing_items & res' & _ & Hloop2 & _)];
    [exact HuB|].
  exact (link_ingredients_keep_pairs _ _ _ _ _ Hloop2 HuB).
Qed.

(** *** A validated request is carried out *)

Lemma link_ingredient_ok (r : Recipe) (item : Ingredient * Z) (s : Store) :
  pairs_unique s -> In (fst item) (ingredients s) ->
  exists s1,
    link_ingredient r item s = (Ok tt, s1)
    /\ pairs_unique s1 /\ ingredients s1 = ingredients s.
Proof.
  intros Hu Hin.
  destruct (link_ingredient_cases r item s)
    as [[e He] | (a & amounts' & Hstep & Hf & Hcase)].
  - exfalso. revert He.
    unfold link_ingredient, mbind, AmountOfIngredient_objects_get_or_create,
      IngredientInRecipe_objects_create.
    specialize (Hu (ingredient_id (fst item)) (snd item)).
    destruct (filter _ (amounts s)) as [|a [|a' rest]].
    + assert (E : existsb (fun i => Z.eqb (ingredient_id i)
                                      (ingredient_id (fst item)))
                    (ingredients s) = true).
      { apply existsb_exists. exists (fst item). split; [exact Hin|].
        apply Z.eqb_refl. }
      rewrite E. discriminate.
    + discriminate.
    + cbn in Hu. lia.
  - eexists. split; [exact Hstep|]. split; [|reflexivity].
    unfold pairs_unique. cbn [amounts].
    exact (pairs_step item (amounts s) amounts' a Hf Hcase Hu).
Qed.

Lemma link_ingredients_ok (r : Recipe) :
  forall (items : list (Ingredient * Z)) (s : Store),
    pairs_unique s ->
    Forall (fun item => In (fst item) (ingredients s)) items ->
    exists s', for_each items (link_ingredient r) s = (Ok tt, s').
Proof.
  induction items as [|item items IH]; intros s Hu HF.
  - exists s. reflexivity.
  - inversion HF as [|? ? Hin HF']; subst.
    destruct (link_ingredient_ok r item s Hu Hin) as (s1 & Hstep & Hu1 & Hi1).
    cbn [for_each]. unfold mbind at 1. rewrite Hstep.
    apply IH; [exact Hu1|]. now rewrite Hi1.
Qed.

(** X17. A creation request whose payload passes validation, sent by a
    logged-in user to a store in which no pair of ingredient and amount
    has more than one amount row, succeeds. The recipe it returns has the
    requester as author and is in the store. It holds neither the tags
    nor the ingredients; under every other key but [image] it holds what
    the validated data holds; under [image] it holds the validated file
    as the media storage keeps it, with the same content and under the
    name the storage gave it, which need not be the name it was
    validated with. *)
Theorem perform_create_succeeds
    (context : Context) (request : Request) (pk : Z) (s : Store)
    (data : list (string * pyobj)) (vd : list (string * value)) :
  RecipeCreateSerializer_to_internal_value s data = Ok vd ->
  context_request context = Some request ->
  request_user request = User pk ->
  pairs_unique s ->
  exists r s',
    perform_create context data s = (Ok r, s')
    /\ recipe_author r = pk
    /\ Dict.get "tags" (recipe_fields r) = None
    /\ Dict.get "ingredients" (recipe_fields r) = None
    /\ (forall k, k <> "tags" -> k <> "ingredients" -> k <> "image" ->
          Dict.get k (recipe_fields r) = Dict.get k vd)
    /\ (forall f, Dict.get "image" vd = Some (VFile f) ->
          Dict.get "image" (recipe_fields r)
          = Some (VFieldFile
                    (mkFile (storage_name s (file_name f)) (file_content f))))
    /\ In r (recipes s').
Proof.
  intros Hv Hc Hus Hu.
  destruct (validated_lists _ _ _ _ Hv)
    as (tl & entries & il & Ht & _ & _ & Hi & _ & _ & Hil).
  unfold perform_create. rewrite Hv.
  destruct (create context vd s) as [res s'] eqn:C.
  pose proof (pop_some _ _ _ Hi) as P1.
  assert (P2 : Dict.pop "tags" (Dict.remove "ingredients" vd)
               = Ok (VTags tl, Dict.remove "tags" (Dict.remove "ingredients" vd))).
  { apply pop_some. now rewrite get_remove_other by discriminate. }
  apply create_run in C.
  destruct C as [(_ & _ & Hno) | (ings & vd1 & tgs & vd2 & request' & pk'
                                  & P1' & P2' & C' & U' & H)].
  { exfalso. exact (Hno _ _ _ _ _ _ P1 P2 Hc Hus). }
  rewrite P1 in P1'. injection P1' as <- <-.
  rewrite P2 in P2'. injection P2' as <- <-.
  rewrite Hc in C'. injection C' as <-.
  rewrite Hus in U'. injection U' as <-.
  destruct H as [(e & E & _) | (tag_items & sB & _ & Hloop & H)];
    [discriminate|].
  apply link_tags_extends in Hloop.
  destruct Hloop as (HeB & HrB & HaB & _).
  destruct H as [(e & E & _) | (ing_items & res' & Hings & Hloop2 & ->)];
    [discriminate|].
  cbn in Hings. injection Hings as <-.
  destruct (link_ingredients_ok
              (new_recipe s pk (Dict.remove "tags" (Dict.remove "ingredients" vd)))
              il sB) as [s'' Hok].
  { unfold pairs_unique. rewrite HaB. exact Hu. }
  { rewrite (ext_ingredients _ _ HeB). exact Hil. }
  pose proof Hloop2 as Hrun. rewrite Hok in Hloop2. injection Hloop2 as <- <-.
  apply link_ingredients_run in Hrun.
  destruct Hrun as (_ & _ & Hr & _).
  eexists. eexists. split; [reflexivity|].
  split; [reflexivity|].
  cbn [new_recipe recipe_fields].
  split; [rewrite pre_save_other by discriminate; apply get_remove_same|].
  split.
  { rewrite pre_save_other by discriminate.
    rewrite get_remove_other by discriminate. apply get_remove_same. }
  split.
  { intros k Hk1 Hk2 Hk3. rewrite pre_save_other by exact Hk3.
    rewrite get_remove_other by exact Hk1. now apply get_remove_other. }
  split.
  { intros f Hf. rewrite pre_save_image.
    rewrite get_remove_other by discriminate.
    rewrite get_remove_other by discriminate. now rewrite Hf. }
  rewrite Hr, HrB. cbn. apply in_or_app. right. now left.
Qed.


(** *** Tags are looked up, never made *)

Lemma link_tag_existing (r : Recipe) (t : Tag) (s : Store) :
  In t (tags s) ->
  link_tag r t s
  = (Ok tt,
     mkStore (tags s) (ingredients s) (amounts s) (recipes s)
       (tags_in_recipe s
        ++ [mkTagInRecipe (next_id (map tir_id (tags_in_recipe s)))
              (tag_id t) (recipe_id r)])
       (ingredients_in_recipe s)).
Proof.
  intros Hin.
  destruct (find_present tag_id (tags s) (tag_id t)
              (ex_intro _ t (conj Hin eq_refl))) as (t' & F & _ & E).
  unfold link_tag, mbind, Tag_objects_get_or_create, TagInRecipe_objects_create.
  rewrite F, E. reflexivity.
Qed.

(** The tag loop over tags that exist: the join rows, one per tag, in
    order. *)
Lemma link_tags_existing (r : Recipe) :
  forall (items : list Tag) (s : Store),
    Forall (fun t => In t (tags s)) items ->
    exists rows,
      for_each items (link_tag r) s
      = (Ok tt,
         mkStore (tags s) (ingredients s) (amounts s) (recipes s)
           (tags_in_recipe s ++ rows) (ingredients_in_recipe s))
      /\ Forall2 (fun t row => tir_tag row = tag_id t
                               /\ tir_recipe row = recipe_id r) items rows.
Proof.
  induction items as [|t items IH]; intros s HF.
  - exists []. cbn. rewrite app_nil_r. destruct s. split; [reflexivity|constructor].
  - inversion HF as [|? ? Hin HF']; subst.
    cbn [for_each]. unfold mbind at 1. rewrite (link_tag_existing r t s Hin).
    match goal with |- context [for_each items _ ?s1] =>
      destruct (IH s1 HF') as (rows & Hrun & Hrows) end.
    rewrite Hrun. cbn [tags ingredients amounts recipes tags_in_recipe
                       ingredients_in_recipe].
    exists (mkTagInRecipe (next_id (map tir_id (tags_in_recipe s)))
              (tag_id t) (recipe_id r) :: rows).
    rewrite <- app_assoc. split; [reflexivity|].
    constructor; [now split | exact Hrows].
Qed.

(** What a run of [create] on validated data leaves in the tables, when
    the tags of the validated data exist. *)
Lemma create_tables (context : Context) (vd : list (string * value))
    (s : Store) (res : outcome Recipe) (s' : Store) (tl : list Tag) :
  Dict.get "tags" vd = Some (VTags tl) ->
  Forall (fun t => In t (tags s)) tl ->
  create context vd s = (res, s') ->
  tags s' = tags s /\ ingredients s' = ingredients s
  /\ forall r, res = Ok r ->
       recipe_id r = next_id (map recipe_id (recipes s))
       /\ exists rows,
            tags_in_recipe s' = tags_in_recipe s ++ rows
            /\ Forall2 (fun t row => tir_tag row = tag_id t
                                     /\ tir_recipe row = recipe_id r) tl rows.
Proof.
  intros Ht Htl H. apply create_run in H.
  destruct H as [(-> & [e ->] & _) | (ings & vd1 & tgs & vd2 & request & pk
                                      & P1 & P2 & _ & _ & H)].
  { repeat split; discriminate. }
  apply pop_inv in P1. destruct P1 as [_ ->].
  apply pop_inv in P2. destruct P2 as [G2 _].
  rewrite get_remove_other in G2 by discriminate.
  rewrite Ht in G2. injection G2 as <-.
  destruct H as [(e & E & _) | (tag_items & sB & Htags & Hloop & H)];
    [discriminate|].
  cbn in Htags. injection Htags as <-.
  destruct (link_tags_existing (new_recipe s pk vd2) tl
              (with_recipe s (new_recipe s pk vd2)) Htl) as (rows & Hrun & Hrows).
  rewrite Hrun in Hloop. injection Hloop as <-.
  destruct H as [(e & _ & -> & ->) | (ing_items & res' & _ & Hloop2 & ->)].
  { repeat split; discriminate. }
  apply link_ingredients_run in Hloop2.
  destruct Hloop2 as (Hts & Hi & _ & Htir & _).
  cbn [tags ingredients tags_in_recipe with_recipe] in *.
  split; [exact Hts|]. split; [exact Hi|].
  intros r E. destruct res' as [[]|]; [|discriminate]. injection E as <-.
  split; [reflexivity|]. exists rows. now split.
Qed.

(** X18. A creation request never adds a row to the Tag table and never
    touches the Ingredient table, whatever its outcome: the tags of a
    validated payload exist already, so [get_or_create] only looks them
    up. *)
Theorem perform_create_adds_no_tag
    (context : Context) (s : Store) (data : list (string * pyobj))
    (res : outcome Recipe) (s' : Store) :
  perform_create context data s = (res, s') ->
  tags s' = tags s /\ ingredients s' = ingredients s.
Proof.
  unfold perform_create.
  destruct (RecipeCreateSerializer_to_internal_value s data) as [vd|e] eqn:Hv.
  - intros H.
    destruct (validated_lists _ _ _ _ Hv) as (tl & _ & _ & Ht & Htl & _).
    destruct (create_tables _ _ _ _ _ _ Ht Htl H) as (H1 & H2 & _).
    now split.
  - intros E. injection E as _ <-. now split.
Qed.

(** X19. A creation request that succeeds has written one
    IngredientInRecipe row for every ingredient entry of the payload,
    all for the new recipe, and so at least one. *)
Theorem perform_create_links_every_entry
    (context : Context) (s : Store) (data : list (string * pyobj))
    (r : Recipe) (s' : Store) :
  perform_create context data s = (Ok r, s') ->
  exists entries rows,
    Dict.get "ingredients" data = Some (PyList entries)
    /\ ingredients_in_recipe s' = ingredients_in_recipe s ++ rows
    /\ List.length rows = List.length entries
    /\ 1 <= List.length rows
    /\ Forall (fun row => iir_recipe row = recipe_id r) rows.
Proof.
  unfold perform_create.
  destruct (RecipeCreateSerializer_to_internal_value s data) as [vd|e] eqn:Hv;
    [|discriminate].
  intros H.
  destruct (validated_lists _ _ _ _ Hv)
    as (tl & entries & il & _ & _ & He & Hi & Hne & Hlen & _).
  apply create_run in H.
  destruct H as [(_ & [e E] & _) | (ings & vd1 & tgs & vd2 & request & pk
                                    & P1 & _ & _ & _ & H)]; [discriminate|].
  apply pop_inv in P1. destruct P1 as [G1 _]. rewrite Hi in G1.
  injection G1 as <-.
  destruct H as [(e & _ & E & _) | (tag_items & sB & _ & Hloop & H)];
    [discriminate|].
  apply link_tags_extends in Hloop. destruct Hloop as (_ & _ & _ & HiB & _).
  destruct H as [(e & _ & E & _) | (ing_items & res' & Hings & Hloop2 & E)];
    [discriminate|].
  cbn in Hings. injection Hings as <-.
  destruct res' as [[]|]; [|discriminate]. injection E as ->.
  apply link_ingredients_run in Hloop2.
  destruct Hloop2 as (_ & _ & _ & _ & _ & _ & _ & rows & Hrows & Hall & Hok).
  pose proof (Forall2_length (Hok eq_refl)) as Hl.
  exists entries, rows. split; [exact He|]. split; [now rewrite Hrows, HiB|].
  split; [lia|]. split; [|exact Hall].
  destruct il; [contradiction | cbn in Hl; lia].
Qed.

(** X22. A request without a logged-in user never writes: with no
    request in the context, or an anonymous requester, every creation
    request fails and leaves the store as it was. *)
Theorem perform_create_needs_a_user
    (context : Context) (s : Store) (data : list (string * pyobj)) :
  context_request context = None
  \/ context_request context = Some (mkRequest AnonymousUser) ->
  exists e, perform_create context data s = (Raise e, s).
Proof.
  intros Hc. unfold perform_create.
  destruct (RecipeCreateSerializer_to_internal_value s data) as [vd|e];
    [|eauto].
  destruct (create context vd s) as [res s'] eqn:C.
  apply create_run in C.
  destruct C as [(-> & [e ->] & _) | (ings & vd1 & tgs & vd2 & request & pk
                                      & _ & _ & C' & U' & _)]; [eauto|].
  exfalso. destruct Hc as [Hc | Hc]; rewrite Hc in C'; [discriminate|].
  injection C' as <-. discriminate.
Qed.


(** *** A created recipe read back *)

Lemma filter_none {A} (f : A -> bool) (l : list A) :
  (forall x, In x l -> f x = false) -> filter f l = [].
Proof.
  induction l as [|x l IH]; intros H; [reflexivity|].
  cbn. rewrite (H x (or_introl eq_refl)). apply IH.
  intros y Hy. apply H. now right.
Qed.

(** In a table with distinct keys, the key of a row finds that row. *)
Lemma filter_by_key {R} (pk : R -> Z) (l : list R) (a : R) :
  NoDup (map pk l) -> In a l ->
  filter (fun x => Z.eqb (pk x) (pk a)) l = [a].
Proof.
  induction l as [|x l IH]; [contradiction|].
  cbn. intros Hnd Hin. inversion Hnd as [|? ? Hx Hnd']; subst.
  destruct Hin as [-> | Hin].
  - rewrite Z.eqb_refl. f_equal. apply filter_none.
    intros y Hy. apply Z.eqb_neq. intros E. apply Hx. rewrite <- E.
    now apply in_map.
  - destruct (Z.eqb_spec (pk x) (pk a)) as [E|_].
    + exfalso. apply Hx. rewrite E. now apply in_map.
    + now apply IH.
Qed.

Lemma flat_map_none {A B} (g : A -> list B) (l : list A) :
  Forall (fun x => g x = []) l -> flat_map g l = [].
Proof.
  induction 1 as [|x l Hx _ IH]; [reflexivity|].
  cbn. now rewrite Hx, IH.
Qed.

(** X20. The ingredients read back for a recipe that [create] has just
    made are the entries of its validated ingredient list, in order and
    with repetitions: each join row leads to an amount row that holds
    the ingredient and the amount of its entry. *)
Theorem created_recipe_reads_its_ingredients
    (context : Context) (vd : list (string * value)) (s : Store) (r : Recipe)
    (s' : Store) (items : list (Ingredient * Z)) :
  store_wf s ->
  Dict.get "ingredients" vd = Some (VIngredients items) ->
  create context vd s = (Ok r, s') ->
  map (fun a => (aoi_ingredient a, aoi_amount a)) (recipe_amounts s' r)
  = map (fun item => (ingredient_id (fst item), snd item)) items.
Proof.
  intros Hwf Hget H.
  destruct (create_links _ _ _ _ _ _ Hwf Hget H)
    as ([Hnd' _] & Hid & _ & _ & rows & Hrows & Hall & Hfor).
  destruct Hwf as [_ Hfk].
  unfold recipe_amounts. rewrite Hrows, flat_map_app.
  rewrite flat_map_none.
  2:{ eapply Forall_impl; [|exact Hfk]. cbn. intros row Hrow.
      apply next_id_fresh in Hrow.
      destruct (Z.eqb_spec (iir_recipe row) (recipe_id r)); [lia | reflexivity]. }
  cbn [app]. unfold rows_for in Hfor. clear Hget Hrows H. revert Hall.
  induction Hfor as [|item row items' rows' (a & Ha & Hrow) _ IH]; intros Hall.
  - reflexivity.
  - inversion Hall as [|? ? Hr Hall']; subst.
    cbn [flat_map map]. rewrite Hr, Z.eqb_refl, Hrow.
    destruct (only_row_in _ _ _ Ha) as [Hin Hp].
    rewrite (filter_by_key aoi_id (amounts s') a Hnd' Hin).
    cbn [app map]. rewrite (IH Hall'). f_equal.
    unfold same_amount in Hp. apply andb_true_iff in Hp.
    rewrite !Z.eqb_eq in Hp. destruct Hp as [-> ->]. reflexivity.
Qed.

(** X21. The tags read back for a recipe that [create] has just made are
    the tags of its validated data, in order and with repetitions,
    provided those tags are rows of the Tag table, as validation makes
    them. *)
Theorem created_recipe_reads_its_tags
    (context : Context) (vd : list (string * value)) (s : Store) (r : Recipe)
    (s' : Store) (tl : list Tag) :
  tags_wf s ->
  Dict.get "tags" vd = Some (VTags tl) ->
  Forall (fun t => In t (tags s)) tl ->
  create context vd s = (Ok r, s') ->
  recipe_tags s' r = tl.
Proof.
  intros [Hnd Hfk] Hget Htl H.
  destruct (create_tables _ _ _ _ _ _ Hget Htl H) as (Hts & _ & Hok).
  destruct (Hok r eq_refl) as (Hid & rows & Hrows & Hfor).
  unfold recipe_tags. rewrite Hrows, Hts, flat_map_app.
  rewrite flat_map_none.
  2:{ eapply Forall_impl; [|exact Hfk]. cbn. intros row Hrow.
      apply next_id_fresh in Hrow.
      destruct (Z.eqb_spec (tir_recipe row) (recipe_id r)); [lia | reflexivity]. }
  cbn [app]. clear Hrows Hok H Hget. revert Htl.
  induction Hfor as [|t row tl' rows' [Htag Hrec] _ IH]; intros Htl.
  - reflexivity.
  - inversion Htl as [|? ? Hin Htl']; subst.
    cbn [flat_map]. rewrite Hrec, Z.eqb_refl, Htag.
    rewrite (filter_by_key tag_id (tags s) t Hnd Hin).
    cbn [app]. now rewrite (IH Htl').
Qed.

End AssemblyMore.


(** ** The further properties on concrete requests *)

Section MoreExamples.
#[local] Existing Instance Sample.framework.
Import Sample StoreFacts.
Local Open Scope string_scope.

Lemma Base64ImageField_ignores_other_characters_witness :
  PyStr.startswith "data:image/png" "data:image" = true
  /\ PyStr.lacks ";" "data:image/png" = true
  /\ PyStr.contains ";base64," "QU JD!" = false
  /\ PyStr.forallb Base64.is_ascii "QU JD!" = true
  /\ Base64ImageField_to_internal_value
       (PyStr ("data:image/png" ++ ";base64," ++ "QU JD!"))
     = Base64ImageField_to_internal_value
         (PyStr ("data:image/png" ++ ";base64," ++ Base64.strip "QU JD!")).
Proof.
  repeat (split; [reflexivity|]).
  apply (Base64ImageField_ignores_other_characters "data:image/png" "QU JD!");
    reflexivity.
Defined.

Lemma Base64ImageField_ignores_data_after_padding_witness :
  PyStr.startswith "data:image/png" "data:image" = true
  /\ PyStr.lacks ";" "data:image/png" = true
  /\ List.length ["A"%byte] mod 3 <> 0
  /\ PyStr.forallb Base64.is_ascii "QUJD" = true
  /\ PyStr.lacks ";" "QUJD" = true
  /\ Base64ImageField_to_internal_value
       (PyStr ("data:image/png" ++ ";base64,"
               ++ Base64.b64encode ["A"%byte] ++ "QUJD"))
     = ImageField_to_internal_value
         (PyFile (mkFile ("temp." ++ PyStr.last_item
                                       (PyStr.split "/" "data:image/png"))
                    ["A"%byte])).
Proof.
  assert (H : List.length ["A"%byte] mod 3 <> 0) by (cbn; lia).
  split; [reflexivity|]. split; [reflexivity|]. split; [exact H|].
  split; [reflexivity|]. split; [reflexivity|].
  apply (Base64ImageField_ignores_data_after_padding "data:image/png" "QUJD"
           ["A"%byte]); solve [reflexivity | exact H].
Defined.

Lemma Base64ImageField_rejects_second_separator_witness :
  PyStr.startswith "data:image/png" "data:image" = true
  /\ PyStr.lacks ";" "data:image/png" = true
  /\ PyStr.contains ";base64," "QUJD;base64,QUJD" = true
  /\ Base64ImageField_to_internal_value
       (PyStr ("data:image/png" ++ ";base64," ++ "QUJD;base64,QUJD"))
     = Raise ValueError.
Proof.
  repeat (split; [reflexivity|]).
  apply (Base64ImageField_rejects_second_separator "data:image/png"
           "QUJD;base64,QUJD"); reflexivity.
Defined.

Lemma Base64ImageField_extension_after_last_slash_witness :
  PyStr.startswith ("data:image/svg" ++ "/" ++ "xml") "data:image" = true
  /\ PyStr.lacks ";" "data:image/svg" = true
  /\ PyStr.lacks ";" "xml" = true
  /\ PyStr.lacks "/" "xml" = true
  /\ Base64ImageField_to_internal_value
       (PyStr (("data:image/svg" ++ "/" ++ "xml") ++ ";base64,"
               ++ Base64.b64encode ["A"%byte; "B"%byte; "C"%byte]))
     = ImageField_to_internal_value
         (PyFile (mkFile ("temp." ++ "xml") ["A"%byte; "B"%byte; "C"%byte])).
Proof.
  repeat (split; [reflexivity|]).
  apply (Base64ImageField_extension_after_last_slash "data:image/svg" "xml"
           ["A"%byte; "B"%byte; "C"%byte]); reflexivity.
Defined.

Lemma Base64ImageField_extension_without_slash_witness :
  PyStr.startswith "data:image" "data:image" = true
  /\ PyStr.lacks ";" "data:image" = true
  /\ PyStr.lacks "/" "data:image" = true
  /\ Base64ImageField_to_internal_value
       (PyStr ("data:image" ++ ";base64,"
               ++ Base64.b64encode ["A"%byte; "B"%byte; "C"%byte]))
     = ImageField_to_internal_value
         (PyFile (mkFile ("temp." ++ "data:image")
                    ["A"%byte; "B"%byte; "C"%byte])).
Proof.
  repeat (split; [reflexivity|]).
  apply (Base64ImageField_extension_without_slash "data:image"
           ["A"%byte; "B"%byte; "C"%byte]); reflexivity.
Defined.

(** The payload for "pie" with an unknown tag, with an unknown
    ingredient, and with [None] for tags. *)
Lemma no_tag_99 : forall t, In t (tags store0) -> tag_id t <> 99%Z.
Proof. intros t [<- | []]. discriminate. Qed.

Lemma no_ingredient_99 :
  forall i, In i (ingredients store0) -> ingredient_id i <> 99%Z.
Proof. intros i [<- | []]. discriminate. Qed.

Lemma perform_create_rejects_unknown_tag_witness :
  Dict.get "tags" (Dict.set "tags" (PyList [PyInt 99]) (payload "pie" [flour200]))
  = Some (PyList [PyInt 99])
  /\ In (PyInt 99) [PyInt 99]
  /\ exists e,
       perform_create alice
         (Dict.set "tags" (PyList [PyInt 99]) (payload "pie" [flour200])) store0
       = (Raise e, store0)
       /\ forall errs, e = ValidationError errs -> In "tags" errs.
Proof.
  split; [reflexivity|]. split; [now left|].
  apply (perform_create_rejects_unknown_tag alice store0
           (Dict.set "tags" (PyList [PyInt 99]) (payload "pie" [flour200]))
           [PyInt 99] 99 eq_refl (or_introl eq_refl) no_tag_99).
Defined.

Lemma perform_create_rejects_unknown_ingredient_witness :
  Dict.get "ingredients"
    (payload "pie" [PyDict [("id", PyInt 99); ("amount", PyInt 1)]])
  = Some (PyList [PyDict [("id", PyInt 99); ("amount", PyInt 1)]])
  /\ Dict.get "id" [("id", PyInt 99); ("amount", PyInt 1)] = Some (PyInt 99)
  /\ exists e,
       perform_create alice
         (payload "pie" [PyDict [("id", PyInt 99); ("amount", PyInt 1)]]) store0
       = (Raise e, store0)
       /\ forall errs, e = ValidationError errs -> In "ingredients" errs.
Proof.
  split; [reflexivity|]. split; [reflexivity|].
  apply (perform_create_rejects_unknown_ingredient alice store0
           (payload "pie" [PyDict [("id", PyInt 99); ("amount", PyInt 1)]])
           [PyDict [("id", PyInt 99); ("amount", PyInt 1)]]
           [("id", PyInt 99); ("amount", PyInt 1)] 99
           eq_refl (or_introl eq_refl) eq_refl no_ingredient_99).
Defined.

Lemma to_internal_value_tags_not_iterable_witness :
  Dict.get "tags" (Dict.set "tags" PyNone (payload "pie" [flour200])) = Some PyNone
  /\ to_internal_value true store0
       (Dict.set "tags" PyNone (payload "pie" [flour200])) = Raise TypeError
  /\ perform_create alice (Dict.set "tags" PyNone (payload "pie" [flour200])) store0
     = (Raise TypeError, store0).
Proof.
  split; [reflexivity|].
  apply (to_internal_value_tags_not_iterable true alice store0
           (Dict.set "tags" PyNone (payload "pie" [flour200])) PyNone eq_refl).
  now left.
Defined.

Lemma to_internal_value_tags_dictionary_witness :
  Dict.get "tags"
    (Dict.set "tags" (PyDict [("1", PyStr "breakfast")]) (payload "pie" [flour200]))
  = Some (PyDict [("1", PyStr "breakfast")])
  /\ to_internal_value true store0
       (Dict.set "tags" (PyDict [("1", PyStr "breakfast")])
          (payload "pie" [flour200]))
     = to_internal_value true store0
         (Dict.set "tags"
            (PyList (map (fun kv => PyStr (fst kv)) [("1", PyStr "breakfast")]))
            (Dict.set "tags" (PyDict [("1", PyStr "breakfast")])
               (payload "pie" [flour200]))).
Proof.
  split; [reflexivity|].
  apply (to_internal_value_tags_dictionary true store0
           (Dict.set "tags" (PyDict [("1", PyStr "breakfast")])
              (payload "pie" [flour200]))
           [("1", PyStr "breakfast")] eq_refl).
Defined.

Lemma author_is_no_field :
  ~ In "author" ["tags"; "ingredients"; "is_favorited"; "is_in_shopping_cart";
                 "name"; "image"; "text"; "cooking_time"].
Proof. cbn. intros H. repeat destruct H as [H | H]; discriminate || exact H. Qed.

Lemma perform_create_ignores_other_keys_witness :
  ~ In "author" ["tags"; "ingredients"; "is_favorited"; "is_in_shopping_cart";
                 "name"; "image"; "text"; "cooking_time"]
  /\ perform_create alice (Dict.set "author" (PyInt 1) (payload "pie" [flour200]))
       store0
     = perform_create alice (payload "pie" [flour200]) store0.
Proof.
  split; [exact author_is_no_field|].
  apply (perform_create_ignores_other_keys alice store0 (payload "pie" [flour200])
           "author" (PyInt 1) author_is_no_field).
Defined.

Lemma perform_create_requires_image_witness :
  (Dict.get "image" (Dict.remove "image" (payload "pie" [flour200])) = None
   \/ Dict.get "image" (Dict.remove "image" (payload "pie" [flour200]))
      = Some PyNone)
  /\ exists e,
       perform_create alice (Dict.remove "image" (payload "pie" [flour200])) store0
       = (Raise e, store0)
       /\ forall errs, e = ValidationError errs -> In "image" errs.
Proof.
  split; [now left|].
  apply (perform_create_requires_image alice store0
           (Dict.remove "image" (payload "pie" [flour200]))).
  now left.
Defined.

Lemma update_accepts_what_create_accepts_witness :
  RecipeCreateSerializer_to_internal_value store0 (payload "pie" [flour200])
  = Ok (validated "pie")
  /\ RecipeUpdateSerializer_to_internal_value store0 (payload "pie" [flour200])
     = Ok (validated "pie").
Proof.
  split; [reflexivity|].
  apply (update_accepts_what_create_accepts store0 (payload "pie" [flour200])
           (validated "pie")).
  reflexivity.
Defined.

Lemma validated_data_shape_witness :
  to_internal_value true store0 (payload "pie" [flour200]) = Ok (validated "pie")
  /\ exists tag_items entries ingredient_items,
       Dict.get "tags" (validated "pie") = Some (VTags tag_items)
       /\ incl tag_items (tags store0)
       /\ Dict.get "ingredients" (payload "pie" [flour200]) = Some (PyList entries)
       /\ Dict.get "ingredients" (validated "pie")
          = Some (VIngredients ingredient_items)
       /\ 1 <= List.length ingredient_items
       /\ List.length ingredient_items = List.length entries
       /\ incl (map fst ingredient_items) (ingredients store0).
Proof.
  split; [reflexivity|].
  apply (validated_data_shape true store0 (payload "pie" [flour200])
           (validated "pie")).
  reflexivity.
Defined.


Lemma rendered_ingredient_is_accepted_witness :
  (exists i, In i (ingredients store_with_pie)
             /\ ingredient_id i = aoi_ingredient (mkAmountOfIngredient 1 5 200))
  /\ amount_to_internal_value (PyInt (aoi_amount (mkAmountOfIngredient 1 5 200)))
     = Ok (aoi_amount (mkAmountOfIngredient 1 5 200))
  /\ exists i,
       IngredientInRecipeSerializer_run_validation store_with_pie
         (IngredientInRecipeSerializer_to_representation store_with_pie
            (mkAmountOfIngredient 1 5 200))
       = Ok (i, aoi_amount (mkAmountOfIngredient 1 5 200))
       /\ In i (ingredients store_with_pie)
       /\ ingredient_id i = aoi_ingredient (mkAmountOfIngredient 1 5 200).
Proof.
  assert (H : exists i, In i (ingredients store_with_pie)
                        /\ ingredient_id i
                           = aoi_ingredient (mkAmountOfIngredient 1 5 200)).
  { exists flour. split; [now left | reflexivity]. }
  split; [exact H|]. split; [reflexivity|].
  apply (rendered_ingredient_is_accepted store_with_pie
           (mkAmountOfIngredient 1 5 200) H).
  reflexivity.
Defined.

Lemma store0_pairs_unique : pairs_unique store0.
Proof. intros i a. cbn. lia. Qed.

Lemma store0_wf : store_wf store0.
Proof. split; constructor. Qed.

Lemma store0_tags_wf : tags_wf store0.
Proof.
  split; [|constructor]. cbn. constructor; [intros []|constructor].
Qed.

Lemma create_pie : create alice (validated "pie") store0 = (Ok pie, store_with_pie).
Proof. reflexivity. Qed.

Lemma perform_create_pie :
  perform_create alice (payload "pie" [flour200]) store0 = (Ok pie, store_with_pie).
Proof. reflexivity. Qed.

Lemma create_keeps_pairs_unique_witness :
  pairs_unique store0
  /\ create alice (validated "pie") store0 = (Ok pie, store_with_pie)
  /\ pairs_unique store_with_pie.
Proof.
  split; [exact store0_pairs_unique|]. split; [exact create_pie|].
  apply (create_keeps_pairs_unique alice (validated "pie") store0 (Ok pie)
           store_with_pie store0_pairs_unique create_pie).
Defined.

Lemma perform_create_succeeds_witness :
  RecipeCreateSerializer_to_internal_value store0 (payload "pie" [flour200])
  = Ok (validated "pie")
  /\ context_request alice = Some (mkRequest (User 7))
  /\ request_user (mkRequest (User 7)) = User 7
  /\ pairs_unique store0
  /\ exists r s',
       perform_create alice (payload "pie" [flour200]) store0 = (Ok r, s')
       /\ recipe_author r = 7%Z
       /\ Dict.get "tags" (recipe_fields r) = None
       /\ Dict.get "ingredients" (recipe_fields r) = None
       /\ (forall k, k <> "tags" -> k <> "ingredients" -> k <> "image" ->
             Dict.get k (recipe_fields r) = Dict.get k (validated "pie"))
       /\ (forall f, Dict.get "image" (validated "pie") = Some (VFile f) ->
             Dict.get "image" (recipe_fields r)
             = Some (VFieldFile
                       (mkFile (storage_name store0 (file_name f))
                          (file_content f))))
       /\ In r (recipes s').
Proof.
  split; [reflexivity|]. split; [reflexivity|]. split; [reflexivity|].
  split; [exact store0_pairs_unique|].
  apply (perform_create_succeeds alice (mkRequest (User 7)) 7 store0
           (payload "pie" [flour200]) (validated "pie"));
    solve [reflexivity | exact store0_pairs_unique].
Defined.

Lemma perform_create_adds_no_tag_witness :
  perform_create alice (payload "pie" [flour200]) store0 = (Ok pie, store_with_pie)
  /\ tags store_with_pie = tags store0
  /\ ingredients store_with_pie = ingredients store0.
Proof.
  split; [exact perform_create_pie|].
  apply (perform_create_adds_no_tag alice store0 (payload "pie" [flour200])
           (Ok pie) store_with_pie perform_create_pie).
Defined.

Lemma perform_create_links_every_entry_witness :
  perform_create alice (payload "pie" [flour200]) store0 = (Ok pie, store_with_pie)
  /\ exists entries rows,
       Dict.get "ingredients" (payload "pie" [flour200]) = Some (PyList entries)
       /\ ingredients_in_recipe store_with_pie
          = (ingredients_in_recipe store0 ++ rows)%list
       /\ List.length rows = List.length entries
       /\ 1 <= List.length rows
       /\ Forall (fun row => iir_recipe row = recipe_id pie) rows.
Proof.
  split; [exact perform_create_pie|].
  apply (perform_create_links_every_entry alice store0 (payload "pie" [flour200])
           pie store_with_pie perform_create_pie).
Defined.

Lemma perform_create_needs_a_user_witness :
  (context_request anonymous = None
   \/ context_request anonymous = Some (mkRequest AnonymousUser))
  /\ exists e,
       perform_create anonymous (payload "pie" [flour200]) store0 = (Raise e, store0).
Proof.
  split; [now right|].
  apply (perform_create_needs_a_user anonymous store0 (payload "pie" [flour200])).
  now right.
Defined.

Lemma created_recipe_reads_its_ingredients_witness :
  store_wf store0
  /\ Dict.get "ingredients" (validated "pie") = Some (VIngredients [(flour, 200%Z)])
  /\ create alice (validated "pie") store0 = (Ok pie, store_with_pie)
  /\ map (fun a => (aoi_ingredient a, aoi_amount a))
       (recipe_amounts store_with_pie pie)
     = map (fun item => (ingredient_id (fst item), snd item)) [(flour, 200%Z)].
Proof.
  split; [exact store0_wf|]. split; [reflexivity|]. split; [exact create_pie|].
  apply (created_recipe_reads_its_ingredients alice (validated "pie") store0 pie
           store_with_pie [(flour, 200%Z)] store0_wf);
    solve [reflexivity | exact create_pie].
Defined.

Lemma breakfast_in_store0 : Forall (fun t => In t (tags store0)) [breakfast].
Proof. constructor; [now left | constructor]. Qed.

Lemma created_recipe_reads_its_tags_witness :
  tags_wf store0
  /\ Dict.get "tags" (validated "pie") = Some (VTags [breakfast])
  /\ Forall (fun t => In t (tags store0)) [breakfast]
  /\ create alice (validated "pie") store0 = (Ok pie, store_with_pie)
  /\ recipe_tags store_with_pie pie = [breakfast].
Proof.
  split; [exact store0_tags_wf|]. split; [reflexivity|].
  split; [exact breakfast_in_store0|]. split; [exact create_pie|].
  apply (created_recipe_reads_its_tags alice (validated "pie") store0 pie
           store_with_pie [breakfast] store0_tags_wf);
    solve [reflexivity | exact breakfast_in_store0 | exact create_pie].
Defined.

End MoreExamples.
